(** * The VFS bridge of apsw (src/vfs.c), embedded in Rocq

    [vfs.c] turns the calls SQLite makes into a [sqlite3_vfs] and a
    [sqlite3_file] into calls of Python methods (the [apswvfs_] and
    [apswvfsfile_] functions) and, for inheritance, Python calls into calls
    of a base [sqlite3_vfs] / [sqlite3_file] (the [apswvfspy_] and
    [apswvfsfilepy_] functions).

    The embedding is shallow.  C [int]s and Python integers are [Z], buffers
    are [list byte], and everything the C code reaches through the
    interpreter or the engine (the thread's error indicator, the unraisable
    hook, the engine's list of VFSes, the managed objects and the native base
    files) is one explicit [World] threaded through a state monad.
    The GIL and allocation failure are not modelled, reference counts only
    where the bridge lets go of an object of its own (the base of a VFS that
    is destroyed), and [APSW_FAULT_INJECT(name, good, bad)] is its production
    expansion [good]. *)

From Stdlib Require Import ZArith List String Bool Lia.
From Stdlib Require Import Strings.Byte.
Import ListNotations.
Local Open Scope string_scope.
Local Open Scope list_scope.
Local Open Scope Z_scope.

(** ** Result codes *)

(** Modelled from the spec: the engine's status values, which [vfs.c] takes
    from sqlite3.h; success, the generic error, busy, the I/O error with its
    short-read extension, out of memory, cannot-open and too-big. *)
Definition SQLITE_OK : Z := 0.
Definition SQLITE_ERROR : Z := 1.
Definition SQLITE_BUSY : Z := 5.
Definition SQLITE_NOMEM : Z := 7.
Definition SQLITE_IOERR : Z := 10.
Definition SQLITE_CANTOPEN : Z := 14.
Definition SQLITE_TOOBIG : Z := 18.
Definition SQLITE_MISUSE : Z := 21.
Definition SQLITE_IOERR_SHORT_READ : Z := Z.lor SQLITE_IOERR (Z.shiftl 2 8).

(** ** C integers *)

(** [int] has 32 bits and [long], [long long], [size_t] and pointers 64. *)
Definition INT_MIN : Z := - 2 ^ 31.
Definition INT_MAX : Z := 2 ^ 31 - 1.
Definition LONG_MIN : Z := - 2 ^ 63.
Definition LONG_MAX : Z := 2 ^ 63 - 1.

(** The conversion of a wider integer to [int]: two's complement wrap-around. *)
Definition to_int (z : Z) : Z := (z + 2 ^ 31) mod 2 ^ 32 - 2 ^ 31.

(** C's [!!x]. *)
Definition notnot (x : Z) : Z := if x =? 0 then 0 else 1.

(** ** Buffers *)

Definition memset (dst : list byte) (c : byte) (n : Z) : list byte :=
  repeat c (Z.to_nat n) ++ skipn (Z.to_nat n) dst.

Definition memcpy (dst src : list byte) (n : Z) : list byte :=
  firstn (Z.to_nat n) src ++ skipn (Z.to_nat n) dst.

Definition size_of (b : list byte) : Z := Z.of_nat (List.length b).

(** A C [double], by its 64 bits; floating-point arithmetic is not modelled. *)
Definition double : Type := Z.

(** ** UTF-8 *)

Definition between (lo hi : N) (b : byte) : bool :=
  (N.leb lo (Byte.to_N b) && N.leb (Byte.to_N b) hi)%bool.

(** A continuation byte, 80..BF. *)
Definition continuation (b : byte) : bool := between 128 191 b.

(** The second byte of a sequence of three or four, whose range excludes
    overlong forms, surrogates and code points past U+10FFFF. *)
Definition second_of_three (b0 b1 : byte) : bool :=
  if between 224 224 b0 then between 160 191 b1
  else if between 237 237 b0 then between 128 159 b1
  else continuation b1.

Definition second_of_four (b0 b1 : byte) : bool :=
  if between 240 240 b0 then between 144 191 b1
  else if between 244 244 b0 then between 128 143 b1
  else continuation b1.

(** Well-formed UTF-8, as CPython's strict decoder ([PyUnicode_DecodeUTF8]
    with no error handler) accepts it. *)
Fixpoint utf8_valid (s : list byte) : bool :=
  match s with
  | [] => true
  | b0 :: r0 =>
      if between 0 127 b0 then utf8_valid r0
      else
        match r0 with
        | [] => false
        | b1 :: r1 =>
            if between 194 223 b0 then continuation b1 && utf8_valid r1
            else
              match r1 with
              | [] => false
              | b2 :: r2 =>
                  if between 224 239 b0
                  then second_of_three b0 b1 && continuation b2 && utf8_valid r2
                  else
                    match r2 with
                    | [] => false
                    | b3 :: r3 =>
                        if between 240 244 b0
                        then second_of_four b0 b1 && continuation b2 &&
                             continuation b3 && utf8_valid r3
                        else false
                    end
              end
        end
  end.

(** ** Python values *)

Section Bridge.

(** The state of whatever lies outside the bridge: the data of the managed
    objects and of the engine's own files. *)
Variable Ext : Type.


#[local] Set Warnings "-register-all".

Inductive PyObject : Type :=
| Py_None
| PyBool (b : bool)
| PyInt (n : Z)                  (* int or long: unbounded *)
| PyFloat (d : double)
| PyUnicode (utf8 : list byte)   (* text, held by its UTF-8 encoding *)
| PyBytes (data : list byte)     (* bytes, str of Python 2, buffer *)
| PyList (items : list PyObject)
| PyInstance (oid : nat).        (* an instance of a managed class *)

(** ** Exceptions *)

Inductive ExcClass : Type :=
| ExcSQLite (code : positive)    (* the apsw exception standing for a result code *)
| APSWException
| ExcVFSNotImplemented
| ExcVFSFileClosed
| PyExc_TypeError
| PyExc_ValueError
| PyExc_OverflowError
| PyExc_AttributeError
| PyExc_SystemError
| PyExc_UnicodeDecodeError
| PyExc_Other (name : string).

Inductive FmtArg : Type :=
| ArgInt (n : Z)
| ArgStr (s : string).

Record PyExc : Type := mkExc {
  exc_class : ExcClass;
  exc_format : string;              (* the format PyErr_Format was given *)
  exc_args : list FmtArg;           (* and its arguments *)
  traceback : list string           (* frames added by AddTraceBackHere *)
}.

Definition BusyError : ExcClass := ExcSQLite 5.

(** ** Managed code *)

(** What a call of a Python callable comes to. *)
Inductive PyOutcome : Type :=
| Returned (v : PyObject)
| Raised (e : PyExc).

(** A bound method: from the arguments and the outside state to the outcome,
    the arguments as the call left them (a list passed in can be changed in
    place) and the new outside state. *)
Definition PyMethod : Type :=
  list PyObject -> Ext -> PyOutcome * list PyObject * Ext.

(** The managed program: the methods each instance has, by name. *)
Variable methods : nat -> string -> option PyMethod.

(** CPython's [PyFloat_AsDouble], left uninterpreted: the value returned and
    the exception raised, if any. *)
Variable PyFloat_AsDouble : PyObject -> double * option PyExc.

(** The status the engine has for an attempt to register a VFS, by the state
    of the outside; left uninterpreted. *)
Variable register_status : Ext -> Z.

(** ** Native files and VFSes *)

(** The io methods of a file of the engine itself.  [xClose] is always there;
    a file may leave any other slot null. *)
Record sqlite3_io_methods : Type := {
  xClose : Ext -> Z * Ext;
  xRead : option (list byte -> Z -> Z -> Ext -> Z * list byte * Ext);
  xWrite : option (list byte -> Z -> Z -> Ext -> Z * Ext);
  xTruncate : option (Z -> Ext -> Z * Ext);
  xSync : option (Z -> Ext -> Z * Ext);
  xFileSize : option (Ext -> Z * Z * Ext);
  xLock : option (Z -> Ext -> Z * Ext);
  xUnlock : option (Z -> Ext -> Z * Ext);
  xCheckReservedLock : option (Ext -> Z * Z * Ext);
  xFileControl : option (Z -> Z -> Ext -> Z * Ext);
  xSectorSize : option (Ext -> Z * Ext);
  xDeviceCharacteristics : option (Ext -> Z * Ext)
}.

(** What [pMethods] points to: [apsw_io_methods] or the table of a native file. *)
Inductive io_table : Type :=
| apsw_io_methods
| native_io_methods (m : sqlite3_io_methods).

(** [APSWSQLite3File], which "inherits" from [sqlite3_file]; a native file
    has no [file]. *)
Record sqlite3_file : Type := mkFile {
  file_addr : nat;                       (* where the block lives *)
  pMethods : option io_table;
  file : option PyObject
}.

(** [sqlite3_vfs], by the fields [vfs.c] reads.  [is_apsw] says that [xAccess]
    is [apswvfs_xAccess], the test the code uses for a VFS of its own. *)
Record sqlite3_vfs : Type := mkVfs {
  vfs_addr : nat;
  iVersion : Z;
  mxPathname : Z;
  zName : string;
  pAppData : PyObject;
  is_apsw : bool
}.

(** ** The world *)

Inductive Event : Type :=
| EvPython (obj : PyObject) (name : string) (args : list PyObject)
| EvNative (f : sqlite3_file) (name : string)
| EvFree (f : sqlite3_file).

Record World : Type := mkWorld {
  pending : option PyExc;        (* the thread's error indicator *)
  unraisable : list (option PyObject * PyExc);
                                 (* what the unraisable hook was given, and whose *)
  vfsList : list sqlite3_vfs;    (* the engine's registered VFSes *)
  log : list Event;              (* calls out of the bridge, and frees *)
  ext : Ext
}.

Definition set_pending (p : option PyExc) (w : World) : World :=
  mkWorld p (unraisable w) (vfsList w) (log w) (ext w).
Definition set_unraisable (u : list (option PyObject * PyExc)) (w : World) : World :=
  mkWorld (pending w) u (vfsList w) (log w) (ext w).
Definition set_vfsList (l : list sqlite3_vfs) (w : World) : World :=
  mkWorld (pending w) (unraisable w) l (log w) (ext w).
Definition set_log (l : list Event) (w : World) : World :=
  mkWorld (pending w) (unraisable w) (vfsList w) l (ext w).
Definition set_ext (x : Ext) (w : World) : World :=
  mkWorld (pending w) (unraisable w) (vfsList w) (log w) x.

(** ** The state monad *)

Definition M (A : Type) : Type := World -> A * World.

Definition ret {A} (a : A) : M A := fun w => (a, w).
Definition bind {A B} (c : M A) (k : A -> M B) : M B :=
  fun w => let (a, w') := c w in k a w'.

Notation "x <- c1 ;; c2" := (bind c1 (fun x => c2))
  (at level 61, c1 at next level, right associativity).
Notation "' pat <- c1 ;; c2" := (bind c1 (fun x => match x with pat => c2 end))
  (at level 61, pat pattern, c1 at next level, right associativity).
Notation "c1 ;; c2" := (bind c1 (fun _ => c2))
  (at level 61, right associativity).

Definition when (b : bool) (c : M unit) : M unit := if b then c else ret tt.

Definition emit (e : Event) : M unit := fun w => (tt, set_log (log w ++ [e]) w).

(** A call of native code outside the bridge. *)
Definition outside {A} (f : Ext -> A * Ext) : M A :=
  fun w => let (a, x) := f (ext w) in (a, set_ext x w).

(** ** The error indicator (CPython) *)

Definition PyErr_Occurred : M bool :=
  fun w => (match pending w with Some _ => true | None => false end, w).

Definition PyErr_Fetch : M (option PyExc) :=
  fun w => (pending w, set_pending None w).

Definition PyErr_Restore (saved : option PyExc) : M unit :=
  fun w => (tt, set_pending saved w).

Definition PyErr_Clear : M unit := fun w => (tt, set_pending None w).

Definition PyErr_Format (c : ExcClass) (fmt : string) (args : list FmtArg) : M unit :=
  fun w => (tt, set_pending (Some (mkExc c fmt args [])) w).

(** ** Helpers of apsw that live outside vfs.c *)

Definition lookup_method (obj : PyObject) (name : string) : option PyMethod :=
  match obj with
  | PyInstance oid => methods oid name
  | _ => None
  end.

(** Modelled from the spec: [Call_PythonMethodV] (util.c), the one managed
    method a native call maps to, invoked with positional arguments.  A
    method the object lacks is an attribute fault when it is mandatory and
    counts as having returned [None] when it is not.  NULL comes back exactly
    when a fault is left pending. *)
Definition Call_PythonMethod (obj : PyObject) (name : string) (mandatory : bool)
    (args : list PyObject) : M (option PyObject * list PyObject) :=
  match lookup_method obj name with
  | None =>
      if mandatory
      then PyErr_Format PyExc_AttributeError "object has no attribute %s" [ArgStr name] ;;
           ret (None, args)
      else ret (Some Py_None, args)
  | Some m =>
      emit (EvPython obj name args) ;;
      ' (out, args') <- outside (m args) ;;
      match out with
      | Returned v => ret (Some v, args')
      | Raised e => PyErr_Restore (Some e) ;; ret (None, args')
      end
  end.

Definition Call_PythonMethodV (obj : PyObject) (name : string) (mandatory : bool)
    (args : list PyObject) : M (option PyObject) :=
  r <- Call_PythonMethod obj name mandatory args ;; ret (fst r).

(** Modelled from the spec: the native error code a managed fault maps to,
    its own for the exceptions of apsw that stand for one and the generic
    error code for every other. *)
Definition exc_code (e : PyExc) : Z :=
  match exc_class e with
  | ExcSQLite c => Zpos c
  | _ => SQLITE_ERROR
  end.

(** Modelled from the spec: [MakeSqliteMsgFromPyException] (exceptions.c)
    converts the pending fault to the most specific matching native error
    code, the generic error code when there is none, and leaves it pending. *)
Definition MakeSqliteMsgFromPyException : M Z :=
  fun w => (match pending w with Some e => exc_code e | None => SQLITE_ERROR end, w).

Definition add_frame (frame : string) (e : PyExc) : PyExc :=
  mkExc (exc_class e) (exc_format e) (exc_args e) (traceback e ++ [frame]).

(** Modelled from the spec: [AddTraceBackHere] (traceback.c) attaches the
    operation's name (and its arguments, left out here) to the pending fault. *)
Definition AddTraceBackHere (frame : string) : M unit :=
  fun w => (tt, set_pending (option_map (add_frame frame) (pending w)) w).

(** Modelled from the spec: [make_exception] (exceptions.c) raises the managed
    condition of a native error code. *)
Definition exception_for (res : Z) : PyExc :=
  mkExc (match res with Zpos p => ExcSQLite p | _ => APSWException end)
        "%sError: %s" [ArgInt res] [].

(** Modelled from the spec: the macro [SET_EXC(res, db)] (exceptions.c)
    raises the condition of [res] unless [res] is success or a fault is
    already pending. *)
Definition SET_EXC (res : Z) : M unit :=
  occurred <- PyErr_Occurred ;;
  when (negb (res =? SQLITE_OK) && negb occurred)
       (PyErr_Restore (Some (exception_for res))).

(** Modelled from the spec: [apsw_write_unraiseable] (util.c), the
    unraisable-fault sink: it hands the pending fault to the excepthook of
    [hookobject] (the interpreter's own when that is NULL) and leaves nothing
    pending. *)
Definition apsw_write_unraiseable (hookobject : option PyObject) : M unit :=
  fun w => match pending w with
           | Some e =>
               (tt, set_pending None
                      (set_unraisable (unraisable w ++ [(hookobject, e)]) w))
           | None => (tt, w)
           end.

(** The text of a C string, [None] for NULL; bytes that are not UTF-8 have
    none. *)
Definition utf8_text (s : option (list byte)) : option PyObject :=
  match s with
  | None => Some Py_None
  | Some b => if utf8_valid b then Some (PyUnicode b) else None
  end.

(** Modelled from the spec: [convertutf8string] (pyutil.c), a C string as a
    Python text, NULL as [None].  The bytes are decoded as UTF-8: when they
    are not, NULL comes back with the decoding fault pending. *)
Definition convertutf8string (s : option (list byte)) : M (option PyObject) :=
  match utf8_text s with
  | Some o => ret (Some o)
  | None =>
      PyErr_Format PyExc_UnicodeDecodeError "'utf-8' codec can't decode bytes" [] ;;
      ret None
  end.

(** The arguments of a call as [Py_VaBuildValue] gets them, an object that
    is NULL among them or not. *)
Fixpoint built (items : list (option PyObject)) : option (list PyObject) :=
  match items with
  | [] => Some []
  | Some o :: rest => option_map (cons o) (built rest)
  | None :: _ => None
  end.

(** Modelled from the spec: the step of [Call_PythonMethodV] (util.c) that
    builds the argument tuple, [Py_VaBuildValue].  An object argument that is
    NULL, a conversion that failed, makes it fail: there is no tuple, so that
    nothing is called, and the fault of the conversion stays pending (a
    system fault is raised when there is none). *)
Definition Py_VaBuildValue (items : list (option PyObject)) : M (option (list PyObject)) :=
  match built items with
  | Some args => ret (Some args)
  | None =>
      occurred <- PyErr_Occurred ;;
      when (negb occurred)
           (PyErr_Format PyExc_SystemError "NULL object passed to Py_BuildValue" []) ;;
      ret None
  end.

(** [Call_PythonMethodV] with arguments that have to be built. *)
Definition Call_PythonMethodV_built (obj : PyObject) (name : string) (mandatory : bool)
    (items : list (option PyObject)) : M (option PyObject * list PyObject) :=
  args <- Py_VaBuildValue items ;;
  match args with
  | Some args => Call_PythonMethod obj name mandatory args
  | None => ret (None, [])
  end.

(** Modelled from the spec: [getutf8string] (pyutil.c), the UTF-8 bytes of a
    text; anything else (bytes are not text in Python 3) is a type fault. *)
Definition getutf8string (o : PyObject) : M (option (list byte)) :=
  match o with
  | PyUnicode b => ret (Some b)
  | _ => PyErr_Format PyExc_TypeError "coercing to Unicode: need string" [] ;; ret None
  end.

(** ** CPython conversions *)

Definition PyIntLong_Check (o : PyObject) : bool :=
  match o with
  | PyInt _ | PyBool _ => true
  | _ => false
  end.

Definition int_value (o : PyObject) : Z :=
  match o with
  | PyInt n => n
  | PyBool b => if b then 1 else 0
  | _ => 0
  end.

Definition fits_long (n : Z) : bool := (LONG_MIN <=? n) && (n <=? LONG_MAX).

(** [PyLong_AsLong]: -1 with an overflow fault when the integer does not fit
    a C long. *)
Definition PyIntLong_AsLong (o : PyObject) : M Z :=
  let n := int_value o in
  if fits_long n then ret n
  else PyErr_Format PyExc_OverflowError "Python int too large to convert to C long" [] ;;
       ret (-1).

(** [PyLong_AsLongLong]: [long long] is as wide as [long] here. *)
Definition PyLong_AsLongLong (o : PyObject) : M Z := PyIntLong_AsLong o.

(** [PyLong_AsVoidPtr]: a signed or unsigned long read as an address, NULL
    with an overflow fault otherwise. *)
Definition PyLong_AsVoidPtr (o : PyObject) : M Z :=
  let n := int_value o in
  if (LONG_MIN <=? n) && (n <? 2 ^ 64) then ret (n mod 2 ^ 64)
  else PyErr_Format PyExc_OverflowError "Python int too large to convert to C long" [] ;;
       ret 0.

Definition PyUnicode_Check (o : PyObject) : bool :=
  match o with PyUnicode _ => true | _ => false end.

Definition PyObject_CheckReadBuffer (o : PyObject) : bool :=
  match o with PyBytes _ => true | _ => false end.

(** [PyObject_AsReadBuffer]: the bytes, or a type fault and no buffer. *)
Definition PyObject_AsReadBuffer (o : PyObject) : M (option (list byte)) :=
  match o with
  | PyBytes b => ret (Some b)
  | _ => PyErr_Format PyExc_TypeError "expected a readable buffer object" [] ;; ret None
  end.

(** [PyBytes_FromStringAndSize]: the first [size] bytes; a negative size is
    a system fault. *)
Definition PyBytes_FromStringAndSize (buffer : list byte) (size : Z) : M (option PyObject) :=
  if size <? 0
  then PyErr_Format PyExc_SystemError "Negative size passed to PyBytes_FromStringAndSize" [] ;;
       ret None
  else ret (Some (PyBytes (firstn (Z.to_nat size) buffer))).

(** ** The guards around every native call *)

(** [VFSPREAMBLE] and [FILEPREAMBLE]: take the GIL and fetch the caller's
    pending fault, which leaves none pending. *)
Definition VFSPREAMBLE : M (option PyExc) := PyErr_Fetch.
Definition FILEPREAMBLE : M (option PyExc) := PyErr_Fetch.

(** [VFSPOSTAMBLE] and [FILEPOSTAMBLE]: a fault still pending goes to the
    unraisable hook of the VFS or file, then the caller's fault is put back. *)
Definition VFSPOSTAMBLE (vfs : sqlite3_vfs) (saved : option PyExc) : M unit :=
  occurred <- PyErr_Occurred ;;
  when occurred (apsw_write_unraiseable (Some (pAppData vfs))) ;;
  PyErr_Restore saved.

Definition FILEPOSTAMBLE (file : option PyObject) (saved : option PyExc) : M unit :=
  occurred <- PyErr_Occurred ;;
  when occurred (apsw_write_unraiseable file) ;;
  PyErr_Restore saved.

(** ** File handle dispatch: what SQLite calls *)

(** In each [apswvfsfile_] function below [file] is [apswfile->file], which
    [CHECKVFSFILE] asserts to be set. *)

Definition apswvfsfile_xRead (file : PyObject) (bufout : list byte) (amount offset : Z)
    : M (Z * list byte) :=
  saved <- FILEPREAMBLE ;;
  r <- (pybuf <- Call_PythonMethodV file "xRead" true [PyInt amount; PyInt offset] ;;
        r <- match pybuf with
             | None =>
                 result <- MakeSqliteMsgFromPyException ;;
                 ret (result, bufout)
             | Some o =>
                 if PyUnicode_Check o || negb (PyObject_CheckReadBuffer o)
                 then PyErr_Format PyExc_TypeError
                        "Object returned from xRead should be bytes/buffer/string" [] ;;
                      ret (SQLITE_ERROR, bufout)
                 else
                   asrb <- PyObject_AsReadBuffer o ;;
                   match asrb with
                   | None =>
                       PyErr_Format PyExc_TypeError
                         "Object returned from xRead doesn't do read buffer" [] ;;
                       ret (SQLITE_ERROR, bufout)
                   | Some buffer =>
                       if size_of buffer <? amount
                       then ret (SQLITE_IOERR_SHORT_READ,
                                 memcpy (memset bufout x00 amount) buffer (size_of buffer))
                       else ret (SQLITE_OK, memcpy bufout buffer amount)
                   end
             end ;;
        (* finally: *)
        occurred <- PyErr_Occurred ;;
        when occurred (AddTraceBackHere "apswvfsfile_xRead") ;;
        ret r) ;;
  FILEPOSTAMBLE (Some file) saved ;;
  ret r.


Definition apswvfsfile_xWrite (file : PyObject) (buffer : list byte) (amount offset : Z)
    : M Z :=
  saved <- FILEPREAMBLE ;;
  result <- (pybuf <- PyBytes_FromStringAndSize buffer amount ;;
             match pybuf with
             | None => ret tt
             | Some b =>
                 pyresult <- Call_PythonMethodV file "xWrite" true [b; PyInt offset] ;;
                 ret tt
             end ;;
             (* finally: *)
             occurred <- PyErr_Occurred ;;
             if occurred
             then result <- MakeSqliteMsgFromPyException ;;
                  AddTraceBackHere "apswvfsfile_xWrite" ;;
                  ret result
             else ret SQLITE_OK) ;;
  FILEPOSTAMBLE (Some file) saved ;;
  ret result.

Definition apswvfsfile_xUnlock (file : PyObject) (flag : Z) : M Z :=
  saved <- FILEPREAMBLE ;;
  result <- (pyresult <- Call_PythonMethodV file "xUnlock" true [PyInt flag] ;;
             result <- match pyresult with
                       | None => MakeSqliteMsgFromPyException
                       | Some _ => ret SQLITE_OK
                       end ;;
             occurred <- PyErr_Occurred ;;
             when occurred (AddTraceBackHere "apswvfsfile.xUnlock") ;;
             ret result) ;;
  FILEPOSTAMBLE (Some file) saved ;;
  ret result.

Definition apswvfsfile_xLock (file : PyObject) (flag : Z) : M Z :=
  saved <- FILEPREAMBLE ;;
  result <- (pyresult <- Call_PythonMethodV file "xLock" true [PyInt flag] ;;
             result <- match pyresult with
                       | None =>
                           result <- MakeSqliteMsgFromPyException ;;
                           (* a busy exception is normal so we clear it *)
                           when (SQLITE_BUSY =? Z.land result 255) PyErr_Clear ;;
                           ret result
                       | Some _ => ret SQLITE_OK
                       end ;;
             occurred <- PyErr_Occurred ;;
             when occurred (AddTraceBackHere "apswvfsfile.xLock") ;;
             ret result) ;;
  FILEPOSTAMBLE (Some file) saved ;;
  ret result.

Definition apswvfsfile_xTruncate (file : PyObject) (size : Z) : M Z :=
  saved <- FILEPREAMBLE ;;
  result <- (pyresult <- Call_PythonMethodV file "xTruncate" true [PyInt size] ;;
             result <- match pyresult with
                       | None => MakeSqliteMsgFromPyException
                       | Some _ => ret SQLITE_OK
                       end ;;
             occurred <- PyErr_Occurred ;;
             when occurred (AddTraceBackHere "apswvfsfile.xTruncate") ;;
             ret result) ;;
  FILEPOSTAMBLE (Some file) saved ;;
  ret result.

Definition apswvfsfile_xSync (file : PyObject) (flags : Z) : M Z :=
  saved <- FILEPREAMBLE ;;
  result <- (pyresult <- Call_PythonMethodV file "xSync" true [PyInt flags] ;;
             result <- match pyresult with
                       | None => MakeSqliteMsgFromPyException
                       | Some _ => ret SQLITE_OK
                       end ;;
             occurred <- PyErr_Occurred ;;
             when occurred (AddTraceBackHere "apswvfsfile.xSync") ;;
             ret result) ;;
  FILEPOSTAMBLE (Some file) saved ;;
  ret result.

Definition apswvfsfile_xSectorSize (file : PyObject) : M Z :=
  saved <- FILEPREAMBLE ;;
  result <- (pyresult <- Call_PythonMethodV file "xSectorSize" false [] ;;
             result <- match pyresult with
                       | None => MakeSqliteMsgFromPyException
                       | Some Py_None => ret 512
                       | Some o =>
                           if PyIntLong_Check o
                           then n <- PyIntLong_AsLong o ;; ret (to_int n)
                           else PyErr_Format PyExc_TypeError
                                  "xSectorSize should return a number" [] ;;
                                ret 512
                       end ;;
             (* We can't return errors so use unraiseable *)
             occurred <- PyErr_Occurred ;;
             if occurred
             then AddTraceBackHere "apswvfsfile_xSectorSize" ;; ret 512
             else ret result) ;;
  FILEPOSTAMBLE (Some file) saved ;;
  ret result.

Definition apswvfsfile_xDeviceCharacteristics (file : PyObject) : M Z :=
  saved <- FILEPREAMBLE ;;
  result <- (pyresult <- Call_PythonMethodV file "xDeviceCharacteristics" false [] ;;
             result <- match pyresult with
                       | None => MakeSqliteMsgFromPyException
                       | Some Py_None => ret 0
                       | Some o =>
                           if PyIntLong_Check o
                           then n <- PyIntLong_AsLong o ;; ret (to_int n)
                           else PyErr_Format PyExc_TypeError
                                  "xDeviceCharacteristics should return a number" [] ;;
                                ret 0
                       end ;;
             (* We can't return errors so use unraiseable *)
             occurred <- PyErr_Occurred ;;
             if occurred
             then AddTraceBackHere "apswvfsfile_xDeviceCharacteristics" ;; ret 0
             else ret result) ;;
  FILEPOSTAMBLE (Some file) saved ;;
  ret result.

Definition apswvfsfile_xFileSize (file : PyObject) (pSize : Z) : M (Z * Z) :=
  saved <- FILEPREAMBLE ;;
  r <- (pyresult <- Call_PythonMethodV file "xFileSize" true [] ;;
        ' (result, pSize) <-
          match pyresult with
          | None => result <- MakeSqliteMsgFromPyException ;; ret (result, pSize)
          | Some o =>
              if PyIntLong_Check o
              then n <- PyLong_AsLongLong o ;; ret (SQLITE_OK, n)
              else PyErr_Format PyExc_TypeError "xFileSize should return a number" [] ;;
                   ret (SQLITE_OK, pSize)
          end ;;
        occurred <- PyErr_Occurred ;;
        if occurred
        then result <- MakeSqliteMsgFromPyException ;;
             AddTraceBackHere "apswvfsfile_xFileSize" ;;
             ret (result, pSize)
        else ret (result, pSize)) ;;
  FILEPOSTAMBLE (Some file) saved ;;
  ret r.

Definition apswvfsfile_xCheckReservedLock (file : PyObject) (pResOut : Z) : M (Z * Z) :=
  saved <- FILEPREAMBLE ;;
  r <- (pyresult <- Call_PythonMethodV file "xCheckReservedLock" true [] ;;
        ' (result, pResOut) <-
          match pyresult with
          | None => result <- MakeSqliteMsgFromPyException ;; ret (result, pResOut)
          | Some o =>
              if PyIntLong_Check o
              then n <- PyIntLong_AsLong o ;; ret (SQLITE_OK, notnot n)
              else PyErr_Format PyExc_TypeError
                     "xCheckReservedLock should return a boolean/number" [] ;;
                   ret (SQLITE_OK, pResOut)
          end ;;
        occurred <- PyErr_Occurred ;;
        if occurred
        then result <- MakeSqliteMsgFromPyException ;;
             AddTraceBackHere "apswvfsfile_xCheckReservedLock" ;;
             ret (result, pResOut)
        else ret (result, pResOut)) ;;
  FILEPOSTAMBLE (Some file) saved ;;
  ret r.

Definition apswvfsfile_xFileControl (file : PyObject) (op pArg : Z) : M Z :=
  saved <- FILEPREAMBLE ;;
  result <- (pyresult <- Call_PythonMethodV file "xFileControl" true [PyInt op; PyInt pArg] ;;
             match pyresult with
             | None => MakeSqliteMsgFromPyException
             | Some _ => ret SQLITE_OK
             end) ;;
  FILEPOSTAMBLE (Some file) saved ;;
  ret result.

(** [apswvfsfile_xClose] drops [apswfile->file] before its postamble, whose
    hook object is therefore NULL.  The second component is the new
    [apswfile->file]. *)
Definition apswvfsfile_xClose (file : PyObject) : M (Z * option PyObject) :=
  saved <- FILEPREAMBLE ;;
  r <- (pyresult <- Call_PythonMethodV file "xClose" true [] ;;
        result <- match pyresult with
                  | None => MakeSqliteMsgFromPyException
                  | Some _ => ret SQLITE_OK
                  end ;;
        occurred <- PyErr_Occurred ;;
        when occurred (AddTraceBackHere "apswvfsfile.xClose") ;;
        ret (result, @None PyObject)) ;;
  FILEPOSTAMBLE (snd r) saved ;;
  ret r.

(** ** VFS dispatch: what SQLite calls *)

(** In each [apswvfs_] function below [pAppData vfs] is the managed VFS
    object, which [CHECKVFS] asserts to be set.  A C string that may be NULL
    is an [option].  A name is converted before the call is made: when it is
    not UTF-8 there is no argument tuple and the method is not called. *)

Definition apswvfs_xDelete (vfs : sqlite3_vfs) (zName : option (list byte)) (syncDir : Z)
    : M Z :=
  saved <- VFSPREAMBLE ;;
  result <- (name <- convertutf8string zName ;;
             r <- Call_PythonMethodV_built (pAppData vfs) "xDelete" true
                    [name; Some (PyInt syncDir)] ;;
             match fst r with
             | None =>
                 result <- MakeSqliteMsgFromPyException ;;
                 AddTraceBackHere "vfs.xDelete" ;;
                 ret result
             | Some _ => ret SQLITE_OK
             end) ;;
  VFSPOSTAMBLE vfs saved ;;
  ret result.

Definition apswvfs_xAccess (vfs : sqlite3_vfs) (zName : option (list byte)) (flags : Z)
    (pResOut : Z) : M (Z * Z) :=
  saved <- VFSPREAMBLE ;;
  r <- (name <- convertutf8string zName ;;
        r <- Call_PythonMethodV_built (pAppData vfs) "xAccess" true
               [name; Some (PyInt flags)] ;;
        pResOut <- match fst r with
                   | None => ret pResOut
                   | Some o =>
                       if PyIntLong_Check o
                       then n <- PyIntLong_AsLong o ;; ret (notnot n)
                       else PyErr_Format PyExc_TypeError "xAccess should return a number" [] ;;
                            ret pResOut
                   end ;;
        (* finally: *)
        occurred <- PyErr_Occurred ;;
        if occurred
        then result <- MakeSqliteMsgFromPyException ;;
             AddTraceBackHere "vfs.xAccess" ;;
             ret (result, 0)
        else ret (SQLITE_OK, pResOut)) ;;
  VFSPOSTAMBLE vfs saved ;;
  ret r.

Definition apswvfs_xFullPathname (vfs : sqlite3_vfs) (zName : option (list byte)) (nOut : Z)
    (zOut : list byte) : M (Z * list byte) :=
  saved <- VFSPREAMBLE ;;
  r <- (name <- convertutf8string zName ;;
        r <- Call_PythonMethodV_built (pAppData vfs) "xFullPathname" true [name] ;;
        match fst r with
        | None =>
            result <- MakeSqliteMsgFromPyException ;;
            AddTraceBackHere "vfs.xFullPathname" ;;
            ret (result, zOut)
        | Some o =>
            utf8 <- getutf8string o ;;
            match utf8 with
            | None =>
                AddTraceBackHere "vfs.xFullPathname" ;;
                ret (SQLITE_ERROR, zOut)
            | Some u =>
                (* nOut includes null terminator space (ie is mxPathname+1) *)
                if size_of u + 1 >? nOut
                then SET_EXC SQLITE_TOOBIG ;;
                     AddTraceBackHere "vfs.xFullPathname" ;;
                     ret (SQLITE_TOOBIG, zOut)
                else (* Python always null terminates hence +1 *)
                     ret (SQLITE_OK, memcpy zOut (u ++ [x00]) (size_of u + 1))
            end
        end) ;;
  VFSPOSTAMBLE vfs saved ;;
  ret r.

(** [apswfile] is the block SQLite handed over for the new file and
    [pOutFlags] the out-parameter, absent when the pointer is NULL. *)
Definition apswvfs_xOpen (vfs : sqlite3_vfs) (zName : option (list byte))
    (apswfile : sqlite3_file) (inflags : Z) (pOutFlags : option Z)
    : M (Z * sqlite3_file * option Z) :=
  saved <- VFSPREAMBLE ;;
  r <- (let flags := PyList [PyInt inflags;
                            PyInt (match pOutFlags with Some f => f | None => 0 end)] in
        name <- convertutf8string zName ;;
        r <- Call_PythonMethodV_built (pAppData vfs) "xOpen" true [name; Some flags] ;;
        match fst r with
        | None =>
            result <- MakeSqliteMsgFromPyException ;;
            ret (result, apswfile, pOutFlags)
        | Some pyresult =>
            match nth 1 (snd r) Py_None with
            | PyList [_; item1] =>
                if PyIntLong_Check item1
                then
                  pOutFlags <- match pOutFlags with
                               | Some _ => n <- PyIntLong_AsLong item1 ;; ret (Some (to_int n))
                               | None => ret None
                               end ;;
                  occurred <- PyErr_Occurred ;;
                  if occurred
                  then ret (SQLITE_CANTOPEN, apswfile, pOutFlags)
                  else ret (SQLITE_OK,
                            mkFile (file_addr apswfile) (Some apsw_io_methods) (Some pyresult),
                            pOutFlags)
                else
                  PyErr_Format PyExc_TypeError
                    "Flags should be two item list with item zero being integer input and item one being integer output" [] ;;
                  AddTraceBackHere "vfs.xOpen" ;;
                  ret (SQLITE_CANTOPEN, apswfile, pOutFlags)
            | _ =>
                PyErr_Format PyExc_TypeError
                  "Flags should be two item list with item zero being integer input and item one being integer output" [] ;;
                AddTraceBackHere "vfs.xOpen" ;;
                ret (SQLITE_CANTOPEN, apswfile, pOutFlags)
            end
        end) ;;
  VFSPOSTAMBLE vfs saved ;;
  ret r.

Definition apswvfs_xDlOpen (vfs : sqlite3_vfs) (zName : option (list byte)) : M Z :=
  saved <- VFSPREAMBLE ;;
  result <- (name <- convertutf8string zName ;;
             r <- Call_PythonMethodV_built (pAppData vfs) "xDlOpen" true [name] ;;
             result <- match fst r with
                       | None => ret 0
                       | Some o =>
                           if PyIntLong_Check o then PyLong_AsVoidPtr o
                           else PyErr_Format PyExc_TypeError
                                  "Pointer returned must be int/long" [] ;;
                                ret 0
                       end ;;
             occurred <- PyErr_Occurred ;;
             if occurred then AddTraceBackHere "vfs.xDlOpen" ;; ret 0
             else ret result) ;;
  VFSPOSTAMBLE vfs saved ;;
  ret result.

Definition apswvfs_xDlSym (vfs : sqlite3_vfs) (handle : Z) (zName : option (list byte))
    : M Z :=
  saved <- VFSPREAMBLE ;;
  result <- (name <- convertutf8string zName ;;
             r <- Call_PythonMethodV_built (pAppData vfs) "xDlSym" true
                    [Some (PyInt handle); name] ;;
             result <- match fst r with
                       | None => ret 0
                       | Some o =>
                           if PyIntLong_Check o then PyLong_AsVoidPtr o
                           else PyErr_Format PyExc_TypeError
                                  "Pointer returned must be int/long" [] ;;
                                ret 0
                       end ;;
             occurred <- PyErr_Occurred ;;
             if occurred then AddTraceBackHere "vfs.xDlSym" ;; ret 0
             else ret result) ;;
  VFSPOSTAMBLE vfs saved ;;
  ret result.

Definition apswvfs_xDlClose (vfs : sqlite3_vfs) (handle : Z) : M unit :=
  saved <- VFSPREAMBLE ;;
  r <- (pyresult <- Call_PythonMethodV (pAppData vfs) "xDlClose" true [PyInt handle] ;;
        occurred <- PyErr_Occurred ;;
        when occurred (AddTraceBackHere "vfs.xDlClose")) ;;
  VFSPOSTAMBLE vfs saved ;;
  ret r.

(** C's [(size_t)nByte]. *)
Definition to_size_t (n : Z) : Z := n mod 2 ^ 64.

Definition apswvfs_xDlError (vfs : sqlite3_vfs) (nByte : Z) (zErrMsg : list byte)
    : M (list byte) :=
  saved <- VFSPREAMBLE ;;
  r <- (pyresult <- Call_PythonMethodV (pAppData vfs) "xDlError" false [] ;;
        zErrMsg <- match pyresult with
                   | None | Some Py_None => ret zErrMsg
                   | Some o =>
                       utf8 <- getutf8string o ;;
                       match utf8 with
                       | None => ret zErrMsg
                       | Some u =>
                           let len := size_of u in
                           let len := if len >? to_size_t nByte then to_size_t nByte else len in
                           ret (memcpy zErrMsg u len)
                       end
                   end ;;
        occurred <- PyErr_Occurred ;;
        when occurred (AddTraceBackHere "vfs.xDlError") ;;
        ret zErrMsg) ;;
  VFSPOSTAMBLE vfs saved ;;
  ret r.

Definition apswvfs_xRandomness (vfs : sqlite3_vfs) (nByte : Z) (zOut : list byte)
    : M (Z * list byte) :=
  saved <- VFSPREAMBLE ;;
  r <- (pyresult <- Call_PythonMethodV (pAppData vfs) "xRandomness" true [PyInt nByte] ;;
        r <- match pyresult with
             | None | Some Py_None => ret (0, zOut)
             | Some o =>
                 if PyUnicode_Check o
                 then PyErr_Format PyExc_TypeError
                        "Randomness object must be data/bytes not unicode" [] ;;
                      ret (0, zOut)
                 else
                   asrb <- PyObject_AsReadBuffer o ;;
                   match asrb with
                   | Some buffer =>
                       let buflen := size_of buffer in
                       let buflen := if buflen >? nByte then nByte else buflen in
                       ret (buflen, memcpy zOut buffer buflen)
                   | None => ret (0, zOut)
                   end
             end ;;
        occurred <- PyErr_Occurred ;;
        when occurred (AddTraceBackHere "vfs.xRandomness") ;;
        ret r) ;;
  VFSPOSTAMBLE vfs saved ;;
  ret r.

Definition apswvfs_xSleep (vfs : sqlite3_vfs) (microseconds : Z) : M Z :=
  saved <- VFSPREAMBLE ;;
  result <- (pyresult <- Call_PythonMethodV (pAppData vfs) "xSleep" true [PyInt microseconds] ;;
             result <- match pyresult with
                       | None => ret 0
                       | Some o =>
                           if PyIntLong_Check o
                           then
                             actual <- PyIntLong_AsLong o ;;
                             when (negb (actual =? to_int actual))
                                  (PyErr_Format PyExc_OverflowError
                                     "Result is too big for integer" []) ;;
                             ret (to_int actual)
                           else PyErr_Format PyExc_TypeError
                                  "You should return a number from sleep" [] ;;
                                ret 0
                       end ;;
             occurred <- PyErr_Occurred ;;
             when occurred (AddTraceBackHere "vfs.xSleep") ;;
             ret result) ;;
  VFSPOSTAMBLE vfs saved ;;
  ret result.

Definition apswvfs_xCurrentTime (vfs : sqlite3_vfs) (julian : double) : M (Z * double) :=
  saved <- VFSPREAMBLE ;;
  r <- (pyresult <- Call_PythonMethodV (pAppData vfs) "xCurrentTime" true [] ;;
        julian <- match pyresult with
                  | None => ret julian
                  | Some o =>
                      match snd (PyFloat_AsDouble o) with
                      | Some e => PyErr_Restore (Some e)
                      | None => ret tt
                      end ;;
                      ret (fst (PyFloat_AsDouble o))
                  end ;;
        occurred <- PyErr_Occurred ;;
        if occurred
        then AddTraceBackHere "vfs.xCurrentTime" ;; ret (1, julian)
        else ret (0, julian)) ;;
  VFSPOSTAMBLE vfs saved ;;
  ret r.

Definition apswvfs_xGetLastError (vfs : sqlite3_vfs) (nByte : Z) (zErrMsg : list byte)
    : M (Z * list byte) :=
  saved <- VFSPREAMBLE ;;
  r <- (pyresult <- Call_PythonMethodV (pAppData vfs) "xGetLastError" false [] ;;
        r <- match pyresult with
             | None | Some Py_None => ret (0, zErrMsg)
             | Some o =>
                 utf8 <- getutf8string o ;;
                 match utf8 with
                 | None => ret (0, zErrMsg)
                 | Some u =>
                     let len := size_of u in
                     if len >? to_size_t nByte
                     then ret (1, memcpy zErrMsg u (to_size_t nByte))
                     else ret (0, memcpy zErrMsg u len)
                 end
             end ;;
        occurred <- PyErr_Occurred ;;
        when occurred (AddTraceBackHere "vfs.xGetLastError") ;;
        ret r) ;;
  VFSPOSTAMBLE vfs saved ;;
  ret r.

(** ** Delegation: calling the base file *)

(** [APSWVFSFile]: the Python object that inherits from a base file. *)
Record APSWVFSFile : Type := mkPyFile {
  base : option sqlite3_file
}.

(** The function [self->base->pMethods] holds for a method.  The table is
    [apsw_io_methods] when the base was opened by a VFS of this bridge (a
    chained shim), whose slots are the [apswvfsfile_] functions, and a native
    table otherwise.  A handle that xOpen filled in has a table and, under
    [apsw_io_methods], a [file]; a block without them, which the C code would
    dereference as it is, counts as having no function. *)
Definition resolve {F} (b : sqlite3_file)
    (apsw : PyObject -> F) (native : sqlite3_io_methods -> option F) : option F :=
  match pMethods b with
  | None => None
  | Some apsw_io_methods => option_map apsw (file b)
  | Some (native_io_methods m) => native m
  end.

(** The call itself, noted in the log. *)
Definition call {A} (b : sqlite3_file) (name : string) (c : M A) : M A :=
  emit (EvNative b name) ;; c.

Definition base_xRead (b : sqlite3_file)
    : option (list byte -> Z -> Z -> M (Z * list byte)) :=
  resolve b (fun f buf amount offset => apswvfsfile_xRead f buf amount offset)
    (fun m => option_map (fun impl buf amount offset => outside (impl buf amount offset))
                (xRead m)).

Definition base_xWrite (b : sqlite3_file) : option (list byte -> Z -> Z -> M Z) :=
  resolve b (fun f buf amount offset => apswvfsfile_xWrite f buf amount offset)
    (fun m => option_map (fun impl buf amount offset => outside (impl buf amount offset))
                (xWrite m)).

Definition base_xTruncate (b : sqlite3_file) : option (Z -> M Z) :=
  resolve b (fun f size => apswvfsfile_xTruncate f size)
    (fun m => option_map (fun impl size => outside (impl size)) (xTruncate m)).

Definition base_xSync (b : sqlite3_file) : option (Z -> M Z) :=
  resolve b (fun f flags => apswvfsfile_xSync f flags)
    (fun m => option_map (fun impl flags => outside (impl flags)) (xSync m)).

Definition base_xFileSize (b : sqlite3_file) : option (Z -> M (Z * Z)) :=
  resolve b (fun f pSize => apswvfsfile_xFileSize f pSize)
    (fun m => option_map (fun impl (_ : Z) => outside impl) (xFileSize m)).

Definition base_xLock (b : sqlite3_file) : option (Z -> M Z) :=
  resolve b (fun f flag => apswvfsfile_xLock f flag)
    (fun m => option_map (fun impl flag => outside (impl flag)) (xLock m)).

Definition base_xUnlock (b : sqlite3_file) : option (Z -> M Z) :=
  resolve b (fun f flag => apswvfsfile_xUnlock f flag)
    (fun m => option_map (fun impl flag => outside (impl flag)) (xUnlock m)).

Definition base_xCheckReservedLock (b : sqlite3_file) : option (Z -> M (Z * Z)) :=
  resolve b (fun f pResOut => apswvfsfile_xCheckReservedLock f pResOut)
    (fun m => option_map (fun impl (_ : Z) => outside impl) (xCheckReservedLock m)).

Definition base_xFileControl (b : sqlite3_file) : option (Z -> Z -> M Z) :=
  resolve b (fun f op pArg => apswvfsfile_xFileControl f op pArg)
    (fun m => option_map (fun impl op pArg => outside (impl op pArg)) (xFileControl m)).

Definition base_xSectorSize (b : sqlite3_file) : option (M Z) :=
  resolve b (fun f => apswvfsfile_xSectorSize f)
    (fun m => option_map (fun impl => outside impl) (xSectorSize m)).

Definition base_xDeviceCharacteristics (b : sqlite3_file) : option (M Z) :=
  resolve b (fun f => apswvfsfile_xDeviceCharacteristics f)
    (fun m => option_map (fun impl => outside impl) (xDeviceCharacteristics m)).

(** [xClose] is called without a check; SQLITE_MISUSE stands for the crash
    on a block that has no table or no [file].  The second component is the
    block as the call left it. *)
Definition base_xClose (b : sqlite3_file) : M (Z * sqlite3_file) :=
  match resolve b
          (fun f => r <- apswvfsfile_xClose f ;;
                    ret (fst r, mkFile (file_addr b) (pMethods b) (snd r)))
          (fun m => Some (res <- outside (xClose m) ;; ret (res, b))) with
  | Some c => c
  | None => ret (SQLITE_MISUSE, b)
  end.

(** ** Parsing the arguments of a Python call *)

Definition too_large : string := "Python int too large to convert to C long".

(** One integer argument of [PyArg_ParseTuple], for a C type of range
    [lo..hi]. *)
Definition parse_integer (lo hi : Z) (o : PyObject) : M (option Z) :=
  if PyIntLong_Check o
  then if (lo <=? int_value o) && (int_value o <=? hi)
       then ret (Some (int_value o))
       else PyErr_Format PyExc_OverflowError too_large [] ;; ret None
  else PyErr_Format PyExc_TypeError "an integer is required" [] ;; ret None.

Definition parse_int : PyObject -> M (option Z) := parse_integer INT_MIN INT_MAX.
Definition parse_longlong : PyObject -> M (option Z) := parse_integer LONG_MIN LONG_MAX.

Definition wrong_arity : M unit :=
  PyErr_Format PyExc_TypeError "function takes a different number of arguments" [].

(** Format "i". *)
Definition PyArg_ParseTuple_i (args : list PyObject) : M (option Z) :=
  match args with
  | [a] => parse_int a
  | _ => wrong_arity ;; ret None
  end.

(** Format "L". *)
Definition PyArg_ParseTuple_L (args : list PyObject) : M (option Z) :=
  match args with
  | [a] => parse_longlong a
  | _ => wrong_arity ;; ret None
  end.

(** Format "iL". *)
Definition PyArg_ParseTuple_iL (args : list PyObject) : M (option (Z * Z)) :=
  match args with
  | [a; b] =>
      x <- parse_int a ;;
      match x with
      | None => ret None
      | Some i =>
          y <- parse_longlong b ;;
          ret (option_map (fun l => (i, l)) y)
      end
  | _ => wrong_arity ;; ret None
  end.

(** Format "OL". *)
Definition PyArg_ParseTuple_OL (args : list PyObject) : M (option (PyObject * Z)) :=
  match args with
  | [a; b] => y <- parse_longlong b ;; ret (option_map (fun l => (a, l)) y)
  | _ => wrong_arity ;; ret None
  end.

(** Format "iO". *)
Definition PyArg_ParseTuple_iO (args : list PyObject) : M (option (Z * PyObject)) :=
  match args with
  | [a; b] => x <- parse_int a ;; ret (option_map (fun i => (i, b)) x)
  | _ => wrong_arity ;; ret None
  end.

(** ** Delegation: what Python calls on a [VFSFile] *)

(** Each function returns the Python result, NULL ([None] here) when it
    leaves a fault pending. *)

Definition file_closed : M unit :=
  PyErr_Format ExcVFSFileClosed "VFSFileClosed: Attempting operation on closed file" [].

Definition not_implemented (x : string) : M unit :=
  PyErr_Format ExcVFSNotImplemented
    "VFSNotImplementedError: File method %s is not implemented" [ArgStr x].

(** The loop [while(amount && buffy[amount-1]==0) amount--]. *)
Fixpoint strip_trailing_nulls (buffy : list byte) (amount : nat) : nat :=
  match amount with
  | O => O
  | S k => if Byte.eqb (nth k buffy x00) x00
           then strip_trailing_nulls buffy k
           else amount
  end.

(** [PyBytes_FromStringAndSize(NULL, amount)] gives [amount] bytes that are
    not initialised: [fresh] is what happens to be there. *)
Definition uninitialised (fresh : list byte) (amount : Z) : list byte :=
  firstn (Z.to_nat amount) (fresh ++ repeat x00 (Z.to_nat amount)).

Definition apswvfsfilepy_xRead (self : APSWVFSFile) (args : list PyObject)
    (fresh : list byte) : M (option PyObject) :=
  match base self with
  | None => (* CHECKVFSFILEPY *) file_closed ;; ret None
  | Some b =>
  match base_xRead b with
  | None => (* VFSFILENOTIMPLEMENTED *) not_implemented "xRead" ;; ret None
  | Some xRead =>
      parsed <- PyArg_ParseTuple_iL args ;;
      match parsed with
      | None => ret None
      | Some (amount, offset) =>
          buffy <- PyBytes_FromStringAndSize (uninitialised fresh amount) amount ;;
          match buffy with
          | Some (PyBytes buffy) =>
              ' (res, buffy) <- call b "xRead" (xRead buffy amount offset) ;;
              if res =? SQLITE_OK then ret (Some (PyBytes buffy))
              else if res =? SQLITE_IOERR_SHORT_READ
              then
                (* We don't know how short the read was, so look for first
                   non-trailing null byte. *)
                let amount := strip_trailing_nulls buffy (Z.to_nat amount) in
                ret (Some (PyBytes (firstn amount buffy)))
              else SET_EXC res ;; ret None
          | _ => ret None
          end
      end
  end end.

Definition apswvfsfilepy_xWrite (self : APSWVFSFile) (args : list PyObject)
    : M (option PyObject) :=
  match base self with
  | None => file_closed ;; ret None
  | Some b =>
  match base_xWrite b with
  | None => not_implemented "xWrite" ;; ret None
  | Some xWrite =>
      parsed <- PyArg_ParseTuple_OL args ;;
      match parsed with
      | None => ret None
      | Some (buffy, offset) =>
          asrb <- PyObject_AsReadBuffer buffy ;;
          match asrb with
          | Some buffer =>
              res <- call b "xWrite" (xWrite buffer (to_int (size_of buffer)) offset) ;;
              if res =? SQLITE_OK then ret (Some Py_None)
              else SET_EXC res ;; ret None
          | None =>
              PyErr_Format PyExc_TypeError
                "Object passed to xWrite doesn't do read buffer" [] ;;
              AddTraceBackHere "apswvfsfile_xWrite" ;;
              ret None
          end
      end
  end end.

Definition apswvfsfilepy_xUnlock (self : APSWVFSFile) (args : list PyObject)
    : M (option PyObject) :=
  match base self with
  | None => file_closed ;; ret None
  | Some b =>
  match base_xUnlock b with
  | None => not_implemented "xUnlock" ;; ret None
  | Some xUnlock =>
      parsed <- PyArg_ParseTuple_i args ;;
      match parsed with
      | None => ret None
      | Some flag =>
          res <- call b "xUnlock" (xUnlock flag) ;;
          if res =? SQLITE_OK then ret (Some Py_None)
          else SET_EXC res ;; ret None
      end
  end end.

Definition apswvfsfilepy_xLock (self : APSWVFSFile) (args : list PyObject)
    : M (option PyObject) :=
  match base self with
  | None => file_closed ;; ret None
  | Some b =>
  match base_xLock b with
  | None => not_implemented "xLock" ;; ret None
  | Some xLock =>
      parsed <- PyArg_ParseTuple_i args ;;
      match parsed with
      | None => ret None
      | Some flag =>
          res <- call b "xLock" (xLock flag) ;;
          if res =? SQLITE_OK then ret (Some Py_None)
          else SET_EXC res ;; ret None
      end
  end end.

Definition apswvfsfilepy_xTruncate (self : APSWVFSFile) (args : list PyObject)
    : M (option PyObject) :=
  match base self with
  | None => file_closed ;; ret None
  | Some b =>
  match base_xTruncate b with
  | None => not_implemented "xTruncate" ;; ret None
  | Some xTruncate =>
      parsed <- PyArg_ParseTuple_L args ;;
      match parsed with
      | None => ret None
      | Some size =>
          res <- call b "xTruncate" (xTruncate size) ;;
          if res =? SQLITE_OK then ret (Some Py_None)
          else SET_EXC res ;; ret None
      end
  end end.

Definition apswvfsfilepy_xSync (self : APSWVFSFile) (args : list PyObject)
    : M (option PyObject) :=
  match base self with
  | None => file_closed ;; ret None
  | Some b =>
  match base_xSync b with
  | None => not_implemented "xSync" ;; ret None
  | Some xSync =>
      parsed <- PyArg_ParseTuple_i args ;;
      match parsed with
      | None => ret None
      | Some flags =>
          res <- call b "xSync" (xSync flags) ;;
          if res =? SQLITE_OK then ret (Some Py_None)
          else SET_EXC res ;; ret None
      end
  end end.

Definition apswvfsfilepy_xSectorSize (self : APSWVFSFile) : M (option PyObject) :=
  match base self with
  | None => file_closed ;; ret None
  | Some b =>
  match base_xSectorSize b with
  | None => not_implemented "xSectorSize" ;; ret None
  | Some xSectorSize =>
      res <- call b "xSectorSize" xSectorSize ;;
      ret (Some (PyInt res))
  end end.

Definition apswvfsfilepy_xDeviceCharacteristics (self : APSWVFSFile) : M (option PyObject) :=
  match base self with
  | None => file_closed ;; ret None
  | Some b =>
  match base_xDeviceCharacteristics b with
  | None => not_implemented "xDeviceCharacteristics" ;; ret None
  | Some xDeviceCharacteristics =>
      res <- call b "xDeviceCharacteristics" xDeviceCharacteristics ;;
      ret (Some (PyInt res))
  end end.

(** [size] and [islocked] below start as whatever the C locals hold; they
    are read only after the base reported success. *)
Definition apswvfsfilepy_xFileSize (self : APSWVFSFile) (size : Z) : M (option PyObject) :=
  match base self with
  | None => file_closed ;; ret None
  | Some b =>
  match base_xFileSize b with
  | None => not_implemented "xFileSize" ;; ret None
  | Some xFileSize =>
      ' (res, size) <- call b "xFileSize" (xFileSize size) ;;
      if negb (res =? SQLITE_OK) then SET_EXC res ;; ret None
      else ret (Some (PyInt size))
  end end.

Definition apswvfsfilepy_xCheckReservedLock (self : APSWVFSFile) (islocked : Z)
    : M (option PyObject) :=
  match base self with
  | None => file_closed ;; ret None
  | Some b =>
  match base_xCheckReservedLock b with
  | None => not_implemented "xCheckReservedLock" ;; ret None
  | Some xCheckReservedLock =>
      ' (res, islocked) <- call b "xCheckReservedLock" (xCheckReservedLock islocked) ;;
      if negb (res =? SQLITE_OK) then SET_EXC res ;; ret None
      else if negb (islocked =? 0) then ret (Some (PyBool true))
      else ret (Some (PyBool false))
  end end.

Definition apswvfsfilepy_xFileControl (self : APSWVFSFile) (args : list PyObject)
    : M (option PyObject) :=
  match base self with
  | None => file_closed ;; ret None
  | Some b =>
  match base_xFileControl b with
  | None => not_implemented "xFileControl" ;; ret None
  | Some xFileControl =>
      parsed <- PyArg_ParseTuple_iO args ;;
      match parsed with
      | None => ret None
      | Some (op, pyptr) =>
          ptr <- (if PyIntLong_Check pyptr then PyLong_AsVoidPtr pyptr
                  else PyErr_Format PyExc_TypeError "Argument is not number (pointer)" [] ;;
                       ret 0) ;;
          occurred <- PyErr_Occurred ;;
          if occurred
          then (* finally: *) SET_EXC SQLITE_ERROR ;; ret None
          else
            res <- call b "xFileControl" (xFileControl op ptr) ;;
            if res =? SQLITE_OK then ret (Some Py_None)
            else (* finally: *) SET_EXC res ;; ret None
      end
  end end.

Definition PyMem_Free (b : sqlite3_file) : M unit := emit (EvFree b).

(** [apswvfsfilepy_xClose]; the second component is [self] afterwards. *)
Definition apswvfsfilepy_xClose (self : APSWVFSFile) : M (option PyObject * APSWVFSFile) :=
  match base self with
  | None => (* already closed *) ret (Some Py_None, self)
  | Some b =>
      ' (res, b) <- call b "xClose" (base_xClose b) ;;
      (* we set pMethods to NULL after xClose callback so xClose can call
         other operations such as read or write during close *)
      let b := mkFile (file_addr b) None (file b) in
      PyMem_Free b ;;
      let self := mkPyFile None in
      if res =? SQLITE_OK then ret (Some Py_None, self)
      else SET_EXC res ;; ret (None, self)
  end.

(** [APSWVFSFile_dealloc]: close what is still open; a fault goes to the
    unraisable hook and the fault that was pending is kept. *)
Definition APSWVFSFile_dealloc (self : APSWVFSFile) : M APSWVFSFile :=
  saved <- PyErr_Fetch ;;
  self <- match base self with
          | Some _ => r <- apswvfsfilepy_xClose self ;; ret (snd r)
          | None => ret self
          end ;;
  occurred <- PyErr_Occurred ;;
  when occurred (AddTraceBackHere "APSWVFS File destructor" ;;
                 apsw_write_unraiseable None) ;;
  PyErr_Restore saved ;;
  ret self.

(** ** The engine's registry *)

(** Modelled from the spec: the engine's global VFS table, which SQLite
    keeps as a linked list (os.c, outside the repository).  A VFS is unlinked
    by its address; registration puts it at the head when it is to be the
    default or the list is empty and right after the head otherwise; a
    lookup takes the first entry of that name, the head for no name. *)
Definition vfsUnlink (pVfs : sqlite3_vfs) (l : list sqlite3_vfs) : list sqlite3_vfs :=
  filter (fun v => negb (Nat.eqb (vfs_addr v) (vfs_addr pVfs))) l.

(** Modelled from the spec: where [sqlite3_vfs_register] links a record. *)
Definition inserted (pVfs : sqlite3_vfs) (makeDflt : Z) (l : list sqlite3_vfs)
    : list sqlite3_vfs :=
  if negb (makeDflt =? 0) then pVfs :: l
  else match l with
       | [] => [pVfs]
       | dflt :: rest => dflt :: pVfs :: rest
       end.

(** Modelled from the spec: [sqlite3_vfs_register].  Registration is an
    attempt: the engine can refuse it, with a status that is not SQLITE_OK,
    and then leaves its table as it is. *)
Definition sqlite3_vfs_register (pVfs : sqlite3_vfs) (makeDflt : Z) : M Z :=
  fun w =>
    let rc := register_status (ext w) in
    if rc =? SQLITE_OK
    then (SQLITE_OK, set_vfsList (inserted pVfs makeDflt (vfsUnlink pVfs (vfsList w))) w)
    else (rc, w).

(** Modelled from the spec: [sqlite3_vfs_unregister] unlinks the record; it
    returns nothing but SQLITE_OK, as the comment in [apswvfspy_unregister]
    has it. *)
Definition sqlite3_vfs_unregister (pVfs : sqlite3_vfs) : M Z :=
  fun w => (SQLITE_OK, set_vfsList (vfsUnlink pVfs (vfsList w)) w).

(** Modelled from the spec: [sqlite3_vfs_find], the lookup by name. *)
Definition sqlite3_vfs_find (zVfs : option string) : M (option sqlite3_vfs) :=
  fun w => (match zVfs with
            | None => hd_error (vfsList w)
            | Some n => find (fun v => String.eqb n (zName v)) (vfsList w)
            end, w).

(** ** The VFS object *)

(** [APSWVFS]; [ob_self] is the object as Python holds it, what
    [containingvfs->pAppData] is set to. *)
Record APSWVFS : Type := mkPyVfs {
  ob_self : PyObject;
  basevfs : option sqlite3_vfs;        (* who we inherit from (might be null) *)
  containingvfs : option sqlite3_vfs;  (* pointer given to sqlite for this instance *)
  registered : bool                    (* are we currently registered? *)
}.

Definition APSWVFS_new (ob : PyObject) : APSWVFS := mkPyVfs ob None None false.

Definition apswvfspy_unregister (self : APSWVFS) : M (option PyObject * APSWVFS) :=
  if registered self
  then
    res <- match containingvfs self with
           | Some v => sqlite3_vfs_unregister v
           | None => ret SQLITE_OK
           end ;;
    let self := mkPyVfs (ob_self self) (basevfs self) (containingvfs self) false in
    SET_EXC res ;;
    if negb (res =? SQLITE_OK) then ret (None, self)
    else ret (Some Py_None, self)
  else ret (Some Py_None, self).

(** [APSWVFS_init], from the arguments as [PyArg_ParseTupleAndKeywords]
    delivers them: [base] is absent when it was not given and [maxpathname]
    is 0 then.  [addr] is where [PyMem_Malloc] puts the new [sqlite3_vfs].
    The result is 0 or -1, with [self] afterwards. *)
Definition APSWVFS_init (self : APSWVFS) (name : string) (base : option string)
    (makedefault maxpathname : Z) (addr : nat) : M (Z * APSWVFS) :=
  ' (ok, self) <-
    match base with
    | Some b =>
        let base := if Nat.eqb (String.length b) 0 then None else Some b in
        found <- sqlite3_vfs_find base ;;
        let self := mkPyVfs (ob_self self) found (containingvfs self) (registered self) in
        match found with
        | None =>
            PyErr_Format PyExc_ValueError "Base vfs named %s not found"
              [ArgStr (match base with Some s => s | None => "<default>" end)] ;;
            ret (false, self)
        | Some v =>
            let baseversion := iVersion v in
            if negb (baseversion =? 1)
            then PyErr_Format PyExc_ValueError
                   "Base vfs implements version %d of vfs spec, but apsw only supports version 1"
                   [ArgInt baseversion] ;;
                 ret (false, self)
            else ret (true, self)
        end
    | None => ret (true, self)
    end ;;
  if negb ok
  then (* error: *)
       ret (-1, mkPyVfs (ob_self self) (basevfs self) None (registered self))
  else
    let mx := match basevfs self with
              | Some v => if maxpathname =? 0 then mxPathname v
                          else maxpathname
              | None => if maxpathname =? 0 then 1024 else maxpathname
              end in
    let v := mkVfs addr 1 mx name (ob_self self) true in
    let self := mkPyVfs (ob_self self) (basevfs self) (Some v) (registered self) in
    res <- sqlite3_vfs_register v makedefault ;;
    if res =? SQLITE_OK
    then ret (0, mkPyVfs (ob_self self) (basevfs self) (containingvfs self) true)
    else SET_EXC res ;;
         (* error: *)
         ret (-1, mkPyVfs (ob_self self) (basevfs self) None (registered self)).

(** What the [Py_DECREF] of an object of this bridge finds: other references,
    and the object lives on, or none, and then the object is destroyed, by
    [APSWVFS_dealloc] in its turn.  [obj] is the [APSWVFS] that the base's
    [pAppData] points to, as it is at that moment, and [next] the same for
    that object's own base. *)
Inductive Refs : Type :=
| other_references
| last_reference (obj : APSWVFS) (next : Refs).

(** The second part of [APSWVFS_dealloc], from [if(self->containingvfs)]:
    unregister, hand a fault to the unraisable hook, keep the fault that was
    pending and null both pointers. *)
Definition dealloc_containingvfs (self : APSWVFS) : M APSWVFS :=
  self <- match containingvfs self with
          | Some _ =>
              saved <- PyErr_Fetch ;;
              r <- apswvfspy_unregister self ;;
              occurred <- PyErr_Occurred ;;
              when occurred (apsw_write_unraiseable None) ;;
              PyErr_Restore saved ;;
              ret (mkPyVfs (ob_self self) (basevfs self) None (registered (snd r)))
          | None => ret self
          end ;;
  ret (mkPyVfs (ob_self self) None None (registered self)).

(** [APSWVFS_dealloc]: let go of a base of this bridge, then the part above.
    [refs] is what the reference count of the base's object comes to. *)
Fixpoint APSWVFS_dealloc (self : APSWVFS) (refs : Refs) : M APSWVFS :=
  match basevfs self with
  | Some v =>
      if is_apsw v
      then (* Py_DECREF(self->basevfs->pAppData) *)
           match refs with
           | other_references => ret tt
           | last_reference obj next => _ <- APSWVFS_dealloc obj next ;; ret tt
           end
      else ret tt
  | None => ret tt
  end ;;
  dealloc_containingvfs self.

(** ** The tables of entry points *)

(** A call SQLite makes through the [sqlite3_vfs] that [APSWVFS_init] fills
    in or through [apsw_io_methods], with its arguments. *)
Inductive NativeCall : Type :=
| CDelete (vfs : sqlite3_vfs) (zName : option (list byte)) (syncDir : Z)
| CAccess (vfs : sqlite3_vfs) (zName : option (list byte)) (flags pResOut : Z)
| CFullPathname (vfs : sqlite3_vfs) (zName : option (list byte)) (nOut : Z)
    (zOut : list byte)
| COpen (vfs : sqlite3_vfs) (zName : option (list byte)) (apswfile : sqlite3_file)
    (inflags : Z) (pOutFlags : option Z)
| CDlOpen (vfs : sqlite3_vfs) (zName : option (list byte))
| CDlSym (vfs : sqlite3_vfs) (handle : Z) (zName : option (list byte))
| CDlClose (vfs : sqlite3_vfs) (handle : Z)
| CDlError (vfs : sqlite3_vfs) (nByte : Z) (zErrMsg : list byte)
| CRandomness (vfs : sqlite3_vfs) (nByte : Z) (zOut : list byte)
| CSleep (vfs : sqlite3_vfs) (microseconds : Z)
| CCurrentTime (vfs : sqlite3_vfs) (julian : double)
| CGetLastError (vfs : sqlite3_vfs) (nByte : Z) (zErrMsg : list byte)
| FClose (file : PyObject)
| FRead (file : PyObject) (bufout : list byte) (amount offset : Z)
| FWrite (file : PyObject) (buffer : list byte) (amount offset : Z)
| FTruncate (file : PyObject) (size : Z)
| FSync (file : PyObject) (flags : Z)
| FFileSize (file : PyObject) (pSize : Z)
| FLock (file : PyObject) (flag : Z)
| FUnlock (file : PyObject) (flag : Z)
| FCheckReservedLock (file : PyObject) (pResOut : Z)
| FFileControl (file : PyObject) (op pArg : Z)
| FSectorSize (file : PyObject)
| FDeviceCharacteristics (file : PyObject).

Definition discard {A} (c : M A) : M unit := _ <- c ;; ret tt.

(** The entry point a call goes to, its result left aside. *)
Definition enter (c : NativeCall) : M unit :=
  match c with
  | CDelete vfs zName syncDir => discard (apswvfs_xDelete vfs zName syncDir)
  | CAccess vfs zName flags pResOut => discard (apswvfs_xAccess vfs zName flags pResOut)
  | CFullPathname vfs zName nOut zOut => discard (apswvfs_xFullPathname vfs zName nOut zOut)
  | COpen vfs zName apswfile inflags pOutFlags =>
      discard (apswvfs_xOpen vfs zName apswfile inflags pOutFlags)
  | CDlOpen vfs zName => discard (apswvfs_xDlOpen vfs zName)
  | CDlSym vfs handle zName => discard (apswvfs_xDlSym vfs handle zName)
  | CDlClose vfs handle => discard (apswvfs_xDlClose vfs handle)
  | CDlError vfs nByte zErrMsg => discard (apswvfs_xDlError vfs nByte zErrMsg)
  | CRandomness vfs nByte zOut => discard (apswvfs_xRandomness vfs nByte zOut)
  | CSleep vfs microseconds => discard (apswvfs_xSleep vfs microseconds)
  | CCurrentTime vfs julian => discard (apswvfs_xCurrentTime vfs julian)
  | CGetLastError vfs nByte zErrMsg => discard (apswvfs_xGetLastError vfs nByte zErrMsg)
  | FClose file => discard (apswvfsfile_xClose file)
  | FRead file bufout amount offset => discard (apswvfsfile_xRead file bufout amount offset)
  | FWrite file buffer amount offset => discard (apswvfsfile_xWrite file buffer amount offset)
  | FTruncate file size => discard (apswvfsfile_xTruncate file size)
  | FSync file flags => discard (apswvfsfile_xSync file flags)
  | FFileSize file pSize => discard (apswvfsfile_xFileSize file pSize)
  | FLock file flag => discard (apswvfsfile_xLock file flag)
  | FUnlock file flag => discard (apswvfsfile_xUnlock file flag)
  | FCheckReservedLock file pResOut => discard (apswvfsfile_xCheckReservedLock file pResOut)
  | FFileControl file op pArg => discard (apswvfsfile_xFileControl file op pArg)
  | FSectorSize file => discard (apswvfsfile_xSectorSize file)
  | FDeviceCharacteristics file => discard (apswvfsfile_xDeviceCharacteristics file)
  end.

(** The managed method a call maps to: the object, the method's name and its
    arguments; none for a name that is not UTF-8 and for an xWrite of a
    negative amount, which fail before they reach the method. *)
Definition managed_method (c : NativeCall) : option (PyObject * string * list PyObject) :=
  match c with
  | CDelete vfs zName syncDir =>
      option_map (fun name => (pAppData vfs, "xDelete", [name; PyInt syncDir]))
        (utf8_text zName)
  | CAccess vfs zName flags _ =>
      option_map (fun name => (pAppData vfs, "xAccess", [name; PyInt flags]))
        (utf8_text zName)
  | CFullPathname vfs zName _ _ =>
      option_map (fun name => (pAppData vfs, "xFullPathname", [name])) (utf8_text zName)
  | COpen vfs zName _ inflags pOutFlags =>
      option_map
        (fun name =>
           (pAppData vfs, "xOpen",
            [name;
             PyList [PyInt inflags;
                     PyInt (match pOutFlags with Some f => f | None => 0 end)]]))
        (utf8_text zName)
  | CDlOpen vfs zName =>
      option_map (fun name => (pAppData vfs, "xDlOpen", [name])) (utf8_text zName)
  | CDlSym vfs handle zName =>
      option_map (fun name => (pAppData vfs, "xDlSym", [PyInt handle; name]))
        (utf8_text zName)
  | CDlClose vfs handle => Some (pAppData vfs, "xDlClose", [PyInt handle])
  | CDlError vfs _ _ => Some (pAppData vfs, "xDlError", [])
  | CRandomness vfs nByte _ => Some (pAppData vfs, "xRandomness", [PyInt nByte])
  | CSleep vfs microseconds => Some (pAppData vfs, "xSleep", [PyInt microseconds])
  | CCurrentTime vfs _ => Some (pAppData vfs, "xCurrentTime", [])
  | CGetLastError vfs _ _ => Some (pAppData vfs, "xGetLastError", [])
  | FClose file => Some (file, "xClose", [])
  | FRead file _ amount offset => Some (file, "xRead", [PyInt amount; PyInt offset])
  | FWrite file buffer amount offset =>
      if amount <? 0 then None
      else Some (file, "xWrite", [PyBytes (firstn (Z.to_nat amount) buffer); PyInt offset])
  | FTruncate file size => Some (file, "xTruncate", [PyInt size])
  | FSync file flags => Some (file, "xSync", [PyInt flags])
  | FFileSize file _ => Some (file, "xFileSize", [])
  | FLock file flag => Some (file, "xLock", [PyInt flag])
  | FUnlock file flag => Some (file, "xUnlock", [PyInt flag])
  | FCheckReservedLock file _ => Some (file, "xCheckReservedLock", [])
  | FFileControl file op pArg => Some (file, "xFileControl", [PyInt op; PyInt pArg])
  | FSectorSize file => Some (file, "xSectorSize", [])
  | FDeviceCharacteristics file => Some (file, "xDeviceCharacteristics", [])
  end.

(** The managed method of call [c] raises [e] in world [w]. *)
Definition managed_raises (c : NativeCall) (w : World) (e : PyExc) : Prop :=
  exists obj name args m,
    managed_method c = Some (obj, name, args) /\
    lookup_method obj name = Some m /\
    fst (fst (m args (ext w))) = Raised e.

(** A call of a method of [APSWVFSFile_methods] other than xClose, with the
    argument tuple and, where the C function has one, the content of its
    uninitialised local. *)
Inductive FileMethod : Type :=
| PyRead (args : list PyObject) (fresh : list byte)
| PyUnlock (args : list PyObject)
| PyLock (args : list PyObject)
| PySectorSize
| PyFileSize (size : Z)
| PyDeviceCharacteristics
| PyCheckReservedLock (islocked : Z)
| PyWrite (args : list PyObject)
| PySync (args : list PyObject)
| PyTruncate (args : list PyObject)
| PyFileControl (args : list PyObject).

Definition APSWVFSFile_methods (meth : FileMethod) (self : APSWVFSFile) : M (option PyObject) :=
  match meth with
  | PyRead args fresh => apswvfsfilepy_xRead self args fresh
  | PyUnlock args => apswvfsfilepy_xUnlock self args
  | PyLock args => apswvfsfilepy_xLock self args
  | PySectorSize => apswvfsfilepy_xSectorSize self
  | PyFileSize size => apswvfsfilepy_xFileSize self size
  | PyDeviceCharacteristics => apswvfsfilepy_xDeviceCharacteristics self
  | PyCheckReservedLock islocked => apswvfsfilepy_xCheckReservedLock self islocked
  | PyWrite args => apswvfsfilepy_xWrite self args
  | PySync args => apswvfsfilepy_xSync self args
  | PyTruncate args => apswvfsfilepy_xTruncate self args
  | PyFileControl args => apswvfsfilepy_xFileControl self args
  end.

(** A fault with further frames on its traceback. *)
Definition annotate (frames : list string) (e : PyExc) : PyExc :=
  fold_left (fun e f => add_frame f e) frames e.

(** The one fault an entry point clears instead of reporting: busy, from
    xLock. *)
Definition cleared (c : NativeCall) (e : PyExc) : bool :=
  match c with
  | FLock _ _ => SQLITE_BUSY =? Z.land (exc_code e) 255
  | _ => false
  end.

(** ** Reading the log *)

(** How many blocks the log saw freed, and how many calls of the base's
    xClose. *)
Definition frees (l : list Event) : nat :=
  List.length (filter (fun ev => match ev with EvFree _ => true | _ => false end) l).

Definition closes (l : list Event) : nat :=
  List.length (filter (fun ev => match ev with
                                 | EvNative _ name => String.eqb name "xClose"
                                 | _ => false
                                 end) l).

Definition is_python_call (ev : Event) : Prop :=
  match ev with EvPython _ _ _ => True | _ => False end.

(** Following the spec's words: a byte string with all trailing zero bytes
    stripped. *)
Fixpoint drop_leading_zeros (l : list byte) : list byte :=
  match l with
  | [] => []
  | c :: rest => if Byte.eqb c x00 then drop_leading_zeros rest else l
  end.

Definition without_trailing_zeros (l : list byte) : list byte :=
  rev (drop_leading_zeros (rev l)).

(** The fault of [CHECKVFSFILEPY]. *)
Definition VFSFileClosed : PyExc :=
  mkExc ExcVFSFileClosed "VFSFileClosed: Attempting operation on closed file" [] [].

(** A block as xOpen leaves it on success: it has a table, and under
    [apsw_io_methods] a managed file. *)
Definition valid_file (b : sqlite3_file) : Prop :=
  match pMethods b with
  | Some apsw_io_methods => file b <> None
  | Some (native_io_methods _) => True
  | None => False
  end.

(** ** The life of a VFS object after its construction *)

(** What can happen to a constructed VFS object: Python calls its
    [unregister], runs its [__init__] again, or something else runs (SQLite
    calls an entry point, Python calls one of the other methods, which read
    the object and never write it). *)
Inductive VfsOp : Type :=
| OpUnregister
| OpInit (name : string) (base : option string) (makedefault maxpathname : Z) (addr : nat)
| OpOther (c : M unit).

Fixpoint run_ops (ops : list VfsOp) (self : APSWVFS) : M APSWVFS :=
  match ops with
  | [] => ret self
  | OpUnregister :: rest =>
      r <- apswvfspy_unregister self ;; run_ops rest (snd r)
  | OpInit name base makedefault maxpathname addr :: rest =>
      r <- APSWVFS_init self name base makedefault maxpathname addr ;;
      run_ops rest (snd r)
  | OpOther c :: rest =>
      c ;; run_ops rest self
  end.

(** A life without a second [__init__]. *)
Definition no_init (ops : list VfsOp) : bool :=
  forallb (fun op => match op with OpInit _ _ _ _ _ => false | _ => true end) ops.

(** The entries of the engine's table that carry a name. *)
Definition named (name : string) (l : list sqlite3_vfs) : list sqlite3_vfs :=
  filter (fun v => String.eqb name (zName v)) l.




(** The name [APSWVFSFile_methods] lists a method under, which is also the
    slot of the base's table it forwards to. *)
Definition method_name (meth : FileMethod) : string :=
  match meth with
  | PyRead _ _ => "xRead"
  | PyUnlock _ => "xUnlock"
  | PyLock _ => "xLock"
  | PySectorSize => "xSectorSize"
  | PyFileSize _ => "xFileSize"
  | PyDeviceCharacteristics => "xDeviceCharacteristics"
  | PyCheckReservedLock _ => "xCheckReservedLock"
  | PyWrite _ => "xWrite"
  | PySync _ => "xSync"
  | PyTruncate _ => "xTruncate"
  | PyFileControl _ => "xFileControl"
  end.

Definition is_null {A} (slot : option A) : bool :=
  match slot with None => true | Some _ => false end.

(** [!self->base->pMethods->x] of [VFSFILENOTIMPLEMENTED(x)], for the table
    of a native file. *)
Definition slot_missing (meth : FileMethod) (m : sqlite3_io_methods) : bool :=
  match meth with
  | PyRead _ _ => is_null (xRead m)
  | PyUnlock _ => is_null (xUnlock m)
  | PyLock _ => is_null (xLock m)
  | PySectorSize => is_null (xSectorSize m)
  | PyFileSize _ => is_null (xFileSize m)
  | PyDeviceCharacteristics => is_null (xDeviceCharacteristics m)
  | PyCheckReservedLock _ => is_null (xCheckReservedLock m)
  | PyWrite _ => is_null (xWrite m)
  | PySync _ => is_null (xSync m)
  | PyTruncate _ => is_null (xTruncate m)
  | PyFileControl _ => is_null (xFileControl m)
  end.

(** The fault of [VFSFILENOTIMPLEMENTED(x)]. *)
Definition VFSNotImplemented_file (x : string) : PyExc :=
  mkExc ExcVFSNotImplemented
    "VFSNotImplementedError: File method %s is not implemented" [ArgStr x] [].

(** What [PyArg_ParseTuple] does to the world: nothing when it succeeds, and
    a fault left pending when it fails. *)
Definition parses {A} (c : M (option A)) : Prop :=
  forall w, (exists v, c w = (Some v, w)) \/
            (exists e, c w = (None, set_pending (Some e) w)).

(** CPython's convention for a function that returns an object: NULL
    exactly when a fault is left pending. *)
Definition null_iff_fault {A} (r : option A * World) : Prop :=
  fst r = None <-> pending (snd r) <> None.

(** ** Delegation: calling the base VFS *)

(** The methods of a VFS of the engine itself, by the slots [vfs.c] calls;
    a VFS may leave a slot null.  An out-parameter is an argument and a
    component of the result. *)
Record sqlite3_vfs_methods : Type := {
  xOpen : option (option (list byte) -> sqlite3_file -> Z -> Z -> Ext ->
                  Z * sqlite3_file * Z * Ext);
  xDelete : option (option (list byte) -> Z -> Ext -> Z * Ext);
  xAccess : option (option (list byte) -> Z -> Z -> Ext -> Z * Z * Ext);
  xFullPathname : option (option (list byte) -> Z -> list byte -> Ext ->
                          Z * list byte * Ext);
  xDlOpen : option (option (list byte) -> Ext -> Z * Ext);
  xDlSym : option (Z -> option (list byte) -> Ext -> Z * Ext);
  xDlClose : option (Z -> Ext -> unit * Ext);
  xDlError : option (Z -> list byte -> Ext -> list byte * Ext);
  xRandomness : option (Z -> list byte -> Ext -> Z * list byte * Ext);
  xSleep : option (Z -> Ext -> Z * Ext);
  xCurrentTime : option (double -> Ext -> Z * double * Ext)
}.

(** The function pointers of a [sqlite3_vfs] that is not of this bridge. *)
Variable native_vfs : sqlite3_vfs -> sqlite3_vfs_methods.

(** The function [self->basevfs] holds for a method: the [apswvfs_] function
    when the base is a VFS of this bridge, which [APSWVFS_init] gives all of
    them, and the slot of its own table otherwise. *)
Definition vfs_resolve {F} (v : sqlite3_vfs) (apsw : F)
    (native : sqlite3_vfs_methods -> option F) : option F :=
  if is_apsw v then Some apsw else native (native_vfs v).

Definition basevfs_xOpen (v : sqlite3_vfs)
    : option (option (list byte) -> sqlite3_file -> Z -> Z -> M (Z * sqlite3_file * Z)) :=
  vfs_resolve v
    (fun zName file inflags flagsout =>
       r <- apswvfs_xOpen v zName file inflags (Some flagsout) ;;
       ret (fst (fst r), snd (fst r),
            match snd r with Some f => f | None => flagsout end))
    (fun m => option_map (fun impl zName file inflags flagsout =>
                            outside (impl zName file inflags flagsout)) (xOpen m)).

Definition basevfs_xDelete (v : sqlite3_vfs) : option (option (list byte) -> Z -> M Z) :=
  vfs_resolve v (fun zName syncDir => apswvfs_xDelete v zName syncDir)
    (fun m => option_map (fun impl zName syncDir => outside (impl zName syncDir))
                (xDelete m)).

Definition basevfs_xAccess (v : sqlite3_vfs)
    : option (option (list byte) -> Z -> Z -> M (Z * Z)) :=
  vfs_resolve v (fun zName flags resout => apswvfs_xAccess v zName flags resout)
    (fun m => option_map (fun impl zName flags resout => outside (impl zName flags resout))
                (xAccess m)).

Definition basevfs_xFullPathname (v : sqlite3_vfs)
    : option (option (list byte) -> Z -> list byte -> M (Z * list byte)) :=
  vfs_resolve v (fun zName nOut zOut => apswvfs_xFullPathname v zName nOut zOut)
    (fun m => option_map (fun impl zName nOut zOut => outside (impl zName nOut zOut))
                (xFullPathname m)).

Definition basevfs_xDlOpen (v : sqlite3_vfs) : option (option (list byte) -> M Z) :=
  vfs_resolve v (fun zName => apswvfs_xDlOpen v zName)
    (fun m => option_map (fun impl zName => outside (impl zName)) (xDlOpen m)).

Definition basevfs_xDlSym (v : sqlite3_vfs) : option (Z -> option (list byte) -> M Z) :=
  vfs_resolve v (fun handle zName => apswvfs_xDlSym v handle zName)
    (fun m => option_map (fun impl handle zName => outside (impl handle zName)) (xDlSym m)).

Definition basevfs_xDlClose (v : sqlite3_vfs) : option (Z -> M unit) :=
  vfs_resolve v (fun handle => apswvfs_xDlClose v handle)
    (fun m => option_map (fun impl handle => outside (impl handle)) (xDlClose m)).

Definition basevfs_xDlError (v : sqlite3_vfs) : option (Z -> list byte -> M (list byte)) :=
  vfs_resolve v (fun nByte zErrMsg => apswvfs_xDlError v nByte zErrMsg)
    (fun m => option_map (fun impl nByte zErrMsg => outside (impl nByte zErrMsg))
                (xDlError m)).

Definition basevfs_xRandomness (v : sqlite3_vfs)
    : option (Z -> list byte -> M (Z * list byte)) :=
  vfs_resolve v (fun nByte zOut => apswvfs_xRandomness v nByte zOut)
    (fun m => option_map (fun impl nByte zOut => outside (impl nByte zOut))
                (xRandomness m)).

Definition basevfs_xSleep (v : sqlite3_vfs) : option (Z -> M Z) :=
  vfs_resolve v (fun microseconds => apswvfs_xSleep v microseconds)
    (fun m => option_map (fun impl microseconds => outside (impl microseconds)) (xSleep m)).

Definition basevfs_xCurrentTime (v : sqlite3_vfs) : option (double -> M (Z * double)) :=
  vfs_resolve v (fun julian => apswvfs_xCurrentTime v julian)
    (fun m => option_map (fun impl julian => outside (impl julian)) (xCurrentTime m)).

(** ** More of [PyArg_ParseTuple] and of C strings *)

(** A C string in a buffer: the bytes before the first NUL (the whole buffer
    when it holds none, where C would read on). *)
Fixpoint c_string (buf : list byte) : list byte :=
  match buf with
  | [] => []
  | c :: rest => if Byte.eqb c x00 then [] else c :: c_string rest
  end.

(** One "es" argument with the UTF-8 encoding: a text, which must hold no
    NUL, as a C string. *)
Definition parse_es (o : PyObject) : M (option (list byte)) :=
  match o with
  | PyUnicode b =>
      if existsb (Byte.eqb x00) b
      then PyErr_Format PyExc_TypeError "must be encoded string without NULL bytes" [] ;;
           ret None
      else ret (Some b)
  | _ => PyErr_Format PyExc_TypeError "must be str" [] ;; ret None
  end.

(** Format "es". *)
Definition PyArg_ParseTuple_es (args : list PyObject) : M (option (list byte)) :=
  match args with
  | [a] => parse_es a
  | _ => wrong_arity ;; ret None
  end.

(** Format "esi". *)
Definition PyArg_ParseTuple_esi (args : list PyObject) : M (option (list byte * Z)) :=
  match args with
  | [a; b] =>
      x <- parse_es a ;;
      match x with
      | None => ret None
      | Some s => y <- parse_int b ;; ret (option_map (fun i => (s, i)) y)
      end
  | _ => wrong_arity ;; ret None
  end.

(** Format "Oes". *)
Definition PyArg_ParseTuple_Oes (args : list PyObject)
    : M (option (PyObject * list byte)) :=
  match args with
  | [a; b] => y <- parse_es b ;; ret (option_map (fun s => (a, s)) y)
  | _ => wrong_arity ;; ret None
  end.

(** Format "OO". *)
Definition PyArg_ParseTuple_OO (args : list PyObject) : M (option (PyObject * PyObject)) :=
  match args with
  | [a; b] => ret (Some (a, b))
  | _ => wrong_arity ;; ret None
  end.

(** [_PyBytes_Resize] to a size that is not larger: the first [newsize]
    bytes; a negative size is a system fault and the object is lost. *)
Definition _PyBytes_Resize (data : list byte) (newsize : Z) : M (option (list byte)) :=
  if newsize <? 0
  then PyErr_Format PyExc_SystemError "bad argument to internal function" [] ;; ret None
  else ret (Some (firstn (Z.to_nat newsize) data)).

(** ** Delegation: what Python calls on a [VFS] *)

(** Each function returns the Python result, NULL ([None] here) when it
    leaves a fault pending.  [VFSNOTIMPLEMENTED(x)] comes first in each. *)

Definition vfs_not_implemented (x : string) : M unit :=
  PyErr_Format ExcVFSNotImplemented
    "VFSNotImplementedError: Method %s is not implemented" [ArgStr x].

Definition apswvfspy_xDelete (self : APSWVFS) (args : list PyObject) : M (option PyObject) :=
  match basevfs self with
  | None => vfs_not_implemented "xDelete" ;; ret None
  | Some v =>
  match basevfs_xDelete v with
  | None => vfs_not_implemented "xDelete" ;; ret None
  | Some xDelete =>
      parsed <- PyArg_ParseTuple_esi args ;;
      match parsed with
      | None => ret None
      | Some (zName, syncDir) =>
          res <- xDelete (Some zName) syncDir ;;
          if res =? SQLITE_OK then ret (Some Py_None)
          else SET_EXC res ;; ret None
      end
  end end.

Definition apswvfspy_xAccess (self : APSWVFS) (args : list PyObject) : M (option PyObject) :=
  match basevfs self with
  | None => vfs_not_implemented "xAccess" ;; ret None
  | Some v =>
  match basevfs_xAccess v with
  | None => vfs_not_implemented "xAccess" ;; ret None
  | Some xAccess =>
      parsed <- PyArg_ParseTuple_esi args ;;
      match parsed with
      | None => ret None
      | Some (zName, flags) =>
          ' (res, resout) <- xAccess (Some zName) flags 0 ;;
          if res =? SQLITE_OK
          then if negb (resout =? 0) then ret (Some (PyBool true))
               else ret (Some (PyBool false))
          else SET_EXC res ;; ret None
      end
  end end.

(** [PyMem_Malloc] of a buffer of [n] bytes: there is none for a negative
    [n], a [size_t] beyond what can be allocated.  What a new block holds is
    not known; the one buffer allocated this way is zeroed before it is
    used. *)
Definition PyMem_Malloc (n : Z) : option (list byte) :=
  if n <? 0 then None else Some (repeat x00 (Z.to_nat n)).

(** [name] is the one argument (METH_O).  The result buffer has
    [mxPathname+1] bytes, an [int], which the [memset] zeroes.  The [memset]
    comes before the test of [resbuf]: for a negative size it writes through
    NULL and the call does not return.  The model goes on from there as the
    code reads, the base not called and [res] left at SQLITE_NOMEM; what is
    proved of a call takes a size that is not negative. *)
Definition apswvfspy_xFullPathname (self : APSWVFS) (name : PyObject) : M (option PyObject) :=
  match basevfs self with
  | None => vfs_not_implemented "xFullPathname" ;; ret None
  | Some v =>
  match basevfs_xFullPathname v with
  | None => vfs_not_implemented "xFullPathname" ;; ret None
  | Some xFullPathname =>
      utf8 <- getutf8string name ;;
      match utf8 with
      | None => AddTraceBackHere "vfspy.xFullPathname" ;; ret None
      | Some u =>
          let size := to_int (mxPathname v + 1) in
          let resbuf := option_map (fun block => memset block x00 size)
                          (PyMem_Malloc size) in
          ' (res, resbuf) <- match resbuf with
                             | Some resbuf => xFullPathname (Some (c_string u)) size resbuf
                             | None => ret (SQLITE_NOMEM, [])
                             end ;;
          result <- (if res =? SQLITE_OK then convertutf8string (Some (c_string resbuf))
                     else ret None) ;;
          let res := match result with None => SQLITE_CANTOPEN | Some _ => res end in
          when (negb (res =? SQLITE_OK))
               (SET_EXC res ;; AddTraceBackHere "vfspy.xFullPathname") ;;
          ret result
      end
  end end.

(** [file] is the block [PyMem_Malloc] returns, whatever it holds.  The
    result is the new [VFSFile], with the argument tuple as the call left it:
    item 1 of the flags list is set to the flags the base reports. *)
Definition apswvfspy_xOpen (self : APSWVFS) (args : list PyObject) (file : sqlite3_file)
    : M (option APSWVFSFile * list PyObject) :=
  match basevfs self with
  | None => vfs_not_implemented "xOpen" ;; ret (None, args)
  | Some v =>
  match basevfs_xOpen v with
  | None => vfs_not_implemented "xOpen" ;; ret (None, args)
  | Some xOpen =>
      parsed <- PyArg_ParseTuple_OO args ;;
      match parsed with
      | None => ret (None, args)
      | Some (pyname, flags) =>
          utf8name <- match pyname with
                      | Py_None => ret (Some None)
                      | _ => u <- getutf8string pyname ;; ret (option_map Some u)
                      end ;;
          match utf8name with
          | None => ret (None, args)
          | Some utf8name =>
              match flags with
              | PyList [item0; item1] =>
                  if PyIntLong_Check item0 && PyIntLong_Check item1
                  then
                    a1 <- PyIntLong_AsLong item1 ;;
                    let flagsout := to_int a1 in
                    a0 <- PyIntLong_AsLong item0 ;;
                    let flagsin := to_int a0 in
                    (* check for overflow *)
                    b1 <- PyIntLong_AsLong item1 ;;
                    differs <- (if negb (flagsout =? b1) then ret true
                                else b0 <- PyIntLong_AsLong item0 ;;
                                     ret (negb (flagsin =? b0))) ;;
                    when differs (PyErr_Format PyExc_OverflowError
                                    "Flags arguments need to fit in 32 bits" []) ;;
                    occurred <- PyErr_Occurred ;;
                    if occurred then ret (None, args)
                    else
                      ' (res, file, flagsout) <-
                        xOpen (option_map c_string utf8name) file flagsin flagsout ;;
                      occurred <- PyErr_Occurred ;;
                      if occurred then PyMem_Free file ;; ret (None, args)
                      else if negb (res =? SQLITE_OK)
                      then SET_EXC res ;; PyMem_Free file ;; ret (None, args)
                      else ret (Some (mkPyFile (Some file)),
                                [pyname; PyList [item0; PyInt flagsout]])
                  else
                    PyErr_Format PyExc_TypeError
                      "Flags argument needs to be a list of two integers" [] ;;
                    ret (None, args)
              | _ =>
                  PyErr_Format PyExc_TypeError
                    "Flags argument needs to be a list of two integers" [] ;;
                  ret (None, args)
              end
          end
      end
  end end.

Definition apswvfspy_xDlOpen (self : APSWVFS) (args : list PyObject) : M (option PyObject) :=
  match basevfs self with
  | None => vfs_not_implemented "xDlOpen" ;; ret None
  | Some v =>
  match basevfs_xDlOpen v with
  | None => vfs_not_implemented "xDlOpen" ;; ret None
  | Some xDlOpen =>
      parsed <- PyArg_ParseTuple_es args ;;
      match parsed with
      | None => ret None
      | Some zName =>
          res <- xDlOpen (Some zName) ;;
          ret (Some (PyInt res))
      end
  end end.

Definition apswvfspy_xDlSym (self : APSWVFS) (args : list PyObject) : M (option PyObject) :=
  match basevfs self with
  | None => vfs_not_implemented "xDlSym" ;; ret None
  | Some v =>
  match basevfs_xDlSym v with
  | None => vfs_not_implemented "xDlSym" ;; ret None
  | Some xDlSym =>
      parsed <- PyArg_ParseTuple_Oes args ;;
      match parsed with
      | None => ret None
      | Some (pyptr, zName) =>
          ptr <- (if PyIntLong_Check pyptr then PyLong_AsVoidPtr pyptr
                  else PyErr_Format PyExc_TypeError "Pointer must be int/long" [] ;;
                       ret 0) ;;
          occurred <- PyErr_Occurred ;;
          res <- (if occurred then ret 0 else xDlSym ptr (Some zName)) ;;
          (* finally: *)
          occurred <- PyErr_Occurred ;;
          if occurred then AddTraceBackHere "vfspy.xDlSym" ;; ret None
          else ret (Some (PyInt res))
      end
  end end.

(** [pyptr] is the one argument (METH_O). *)
Definition apswvfspy_xDlClose (self : APSWVFS) (pyptr : PyObject) : M (option PyObject) :=
  match basevfs self with
  | None => vfs_not_implemented "xDlClose" ;; ret None
  | Some v =>
  match basevfs_xDlClose v with
  | None => vfs_not_implemented "xDlClose" ;; ret None
  | Some xDlClose =>
      ptr <- (if PyIntLong_Check pyptr then PyLong_AsVoidPtr pyptr
              else PyErr_Format PyExc_TypeError "Argument is not number (pointer)" [] ;;
                   ret 0) ;;
      occurred <- PyErr_Occurred ;;
      (if occurred then ret tt else xDlClose ptr) ;;
      (* finally: *)
      occurred <- PyErr_Occurred ;;
      if occurred then AddTraceBackHere "vfspy.xDlClose" ;; ret None
      else ret (Some Py_None)
  end end.

(** The new bytes object has [512+mxPathname] bytes, which the [memset]
    zeroes whatever they were. *)
Definition apswvfspy_xDlError (self : APSWVFS) : M (option PyObject) :=
  match basevfs self with
  | None => vfs_not_implemented "xDlError" ;; ret None
  | Some v =>
  match basevfs_xDlError v with
  | None => vfs_not_implemented "xDlError" ;; ret None
  | Some xDlError =>
      let size := 512 + mxPathname v in
      res <- PyBytes_FromStringAndSize (repeat x00 (Z.to_nat size)) size ;;
      res <- match res with
             | Some (PyBytes buf) =>
                 buf <- xDlError (size_of buf) (memset buf x00 (size_of buf)) ;;
                 ret (Some buf)
             | _ => ret None
             end ;;
      occurred <- PyErr_Occurred ;;
      if occurred then AddTraceBackHere "vfspy.xDlError" ;; ret None
      else
        match res with
        | None => ret None
        | Some buf =>
            (* did they make a message? *)
            if Nat.eqb (List.length (c_string buf)) 0 then ret (Some Py_None)
            else (* turn into unicode *)
                 unicode <- convertutf8string (Some (c_string buf)) ;;
                 match unicode with
                 | Some u => ret (Some u)
                 | None => AddTraceBackHere "vfspy.xDlError" ;; ret None
                 end
        end
  end end.

(** [fresh] is what the new bytes object happens to hold. *)
Definition apswvfspy_xRandomness (self : APSWVFS) (args : list PyObject)
    (fresh : list byte) : M (option PyObject) :=
  match basevfs self with
  | None => vfs_not_implemented "xRandomness" ;; ret None
  | Some v =>
  match basevfs_xRandomness v with
  | None => vfs_not_implemented "xRandomness" ;; ret None
  | Some xRandomness =>
      parsed <- PyArg_ParseTuple_i args ;;
      match parsed with
      | None => ret None
      | Some nbyte =>
          if nbyte <? 0
          then PyErr_Format PyExc_ValueError
                 "You can't have negative amounts of randomness!" [] ;;
               ret None
          else
            res <- PyBytes_FromStringAndSize (uninitialised fresh nbyte) nbyte ;;
            res <- match res with
                   | Some (PyBytes buf) =>
                       ' (amt, buf) <- xRandomness (size_of buf) buf ;;
                       if amt <? nbyte then _PyBytes_Resize buf amt
                       else ret (Some buf)
                   | _ => ret None
                   end ;;
            occurred <- PyErr_Occurred ;;
            if occurred then AddTraceBackHere "vfspy.xRandomness" ;; ret None
            else ret (option_map PyBytes res)
      end
  end end.

Definition apswvfspy_xSleep (self : APSWVFS) (args : list PyObject) : M (option PyObject) :=
  match basevfs self with
  | None => vfs_not_implemented "xSleep" ;; ret None
  | Some v =>
  match basevfs_xSleep v with
  | None => vfs_not_implemented "xSleep" ;; ret None
  | Some xSleep =>
      parsed <- PyArg_ParseTuple_i args ;;
      match parsed with
      | None => ret None
      | Some microseconds =>
          res <- xSleep microseconds ;;
          ret (Some (PyInt res))
      end
  end end.

Definition apswvfspy_xCurrentTime (self : APSWVFS) : M (option PyObject) :=
  match basevfs self with
  | None => vfs_not_implemented "xCurrentTime" ;; ret None
  | Some v =>
  match basevfs_xCurrentTime v with
  | None => vfs_not_implemented "xCurrentTime" ;; ret None
  | Some xCurrentTime =>
      ' (res, julian) <- xCurrentTime 0 ;;
      if negb (res =? 0)
      then (* routines are documented to return zero or one *)
           SET_EXC SQLITE_ERROR ;;
           AddTraceBackHere "vfspy.xCurrentTime" ;;
           ret None
      else ret (Some (PyFloat julian))
  end end.

(** A call of a method of [APSWVFS_methods] that forwards to the base, with
    its argument (the tuple, or the one object of a METH_O method) and, where
    the C function allocates, what the new block holds. *)
Inductive VfsMethod : Type :=
| PyDelete (args : list PyObject)
| PyFullPathname (name : PyObject)
| PyOpen (args : list PyObject) (file : sqlite3_file)
| PyAccess (args : list PyObject)
| PyDlOpen (args : list PyObject)
| PyDlSym (args : list PyObject)
| PyDlClose (pyptr : PyObject)
| PyDlError
| PyRandomness (args : list PyObject) (fresh : list byte)
| PySleep (args : list PyObject)
| PyCurrentTime.

(** The object a method returns: a Python value or, from xOpen, a new
    [VFSFile]. *)
Definition APSWVFS_methods (meth : VfsMethod) (self : APSWVFS)
    : M (option (PyObject + APSWVFSFile)) :=
  match meth with
  | PyDelete args => r <- apswvfspy_xDelete self args ;; ret (option_map inl r)
  | PyFullPathname name => r <- apswvfspy_xFullPathname self name ;; ret (option_map inl r)
  | PyOpen args file => r <- apswvfspy_xOpen self args file ;; ret (option_map inr (fst r))
  | PyAccess args => r <- apswvfspy_xAccess self args ;; ret (option_map inl r)
  | PyDlOpen args => r <- apswvfspy_xDlOpen self args ;; ret (option_map inl r)
  | PyDlSym args => r <- apswvfspy_xDlSym self args ;; ret (option_map inl r)
  | PyDlClose pyptr => r <- apswvfspy_xDlClose self pyptr ;; ret (option_map inl r)
  | PyDlError => r <- apswvfspy_xDlError self ;; ret (option_map inl r)
  | PyRandomness args fresh =>
      r <- apswvfspy_xRandomness self args fresh ;; ret (option_map inl r)
  | PySleep args => r <- apswvfspy_xSleep self args ;; ret (option_map inl r)
  | PyCurrentTime => r <- apswvfspy_xCurrentTime self ;; ret (option_map inl r)
  end.

Definition vfs_method_name (meth : VfsMethod) : string :=
  match meth with
  | PyDelete _ => "xDelete"
  | PyFullPathname _ => "xFullPathname"
  | PyOpen _ _ => "xOpen"
  | PyAccess _ => "xAccess"
  | PyDlOpen _ => "xDlOpen"
  | PyDlSym _ => "xDlSym"
  | PyDlClose _ => "xDlClose"
  | PyDlError => "xDlError"
  | PyRandomness _ _ => "xRandomness"
  | PySleep _ => "xSleep"
  | PyCurrentTime => "xCurrentTime"
  end.

(** [!self->basevfs->x] of [VFSNOTIMPLEMENTED(x)], for the table of a VFS
    that is not of this bridge. *)
Definition vfs_slot_missing (meth : VfsMethod) (m : sqlite3_vfs_methods) : bool :=
  match meth with
  | PyDelete _ => is_null (xDelete m)
  | PyFullPathname _ => is_null (xFullPathname m)
  | PyOpen _ _ => is_null (xOpen m)
  | PyAccess _ => is_null (xAccess m)
  | PyDlOpen _ => is_null (xDlOpen m)
  | PyDlSym _ => is_null (xDlSym m)
  | PyDlClose _ => is_null (xDlClose m)
  | PyDlError => is_null (xDlError m)
  | PyRandomness _ _ => is_null (xRandomness m)
  | PySleep _ => is_null (xSleep m)
  | PyCurrentTime => is_null (xCurrentTime m)
  end.

(** The fault of [VFSNOTIMPLEMENTED(x)]. *)
Definition VFSNotImplemented (x : string) : PyExc :=
  mkExc ExcVFSNotImplemented
    "VFSNotImplementedError: Method %s is not implemented" [ArgStr x] [].

(** A name as Python passes it to xOpen: a text, or [None] for no name. *)
Definition py_name (name : option (list byte)) : PyObject :=
  match name with
  | Some u => PyUnicode u
  | None => Py_None
  end.

(** The test [apswvfspy_xOpen] makes of its flags argument: a list of two
    integers. *)
Definition two_integers (flags : PyObject) : bool :=
  match flags with
  | PyList [item0; item1] => PyIntLong_Check item0 && PyIntLong_Check item1
  | _ => false
  end.

(** * Properties *)

(** ** Running monadic code *)

Arguments utf8_text : simpl never.

Ltac unfold_monad :=
  unfold bind, ret, when, emit, outside,
    PyErr_Occurred, PyErr_Fetch, PyErr_Restore, PyErr_Clear, PyErr_Format,
    MakeSqliteMsgFromPyException, AddTraceBackHere, apsw_write_unraiseable in *.

Lemma skipn_repeat_sub {A} (x : A) (n m : nat) :
  skipn n (repeat x m) = repeat x (m - n).
Proof.
  revert m. induction n as [|n IH]; intros [|m]; simpl; auto.
Qed.

Lemma memset_memcpy (bufout data : list byte) (amount : Z) :
  size_of data < amount ->
  memcpy (memset bufout x00 amount) data (size_of data) =
  data ++ repeat x00 (Z.to_nat (amount - size_of data)) ++ skipn (Z.to_nat amount) bufout.
Proof.
  unfold memcpy, memset, size_of. intros Hlt.
  rewrite Nat2Z.id, firstn_all.
  rewrite skipn_app, repeat_length, skipn_repeat_sub.
  replace (Z.to_nat amount - List.length data)%nat
    with (Z.to_nat (amount - Z.of_nat (List.length data))) by lia.
  replace (List.length data - Z.to_nat amount)%nat with 0%nat by lia.
  simpl. rewrite app_assoc. reflexivity.
Qed.

(** C1.  When the managed xRead gives a buffer shorter than [amount],
    [apswvfsfile_xRead] leaves the data followed by zero bytes in the first
    [amount] bytes of the output buffer and returns SQLITE_IOERR_SHORT_READ,
    which is not SQLITE_OK; when the buffer has [amount] bytes or more, the
    first [amount] of them are copied and SQLITE_OK is returned. *)
Theorem xRead_zero_fills_short_read
    (file : PyObject) (m : PyMethod) (bufout data : list byte) (amount offset : Z)
    (args' : list PyObject) (x' : Ext) (w : World) :
  lookup_method file "xRead" = Some m ->
  m [PyInt amount; PyInt offset] (ext w) = (Returned (PyBytes data), args', x') ->
  0 <= amount ->
  let r := fst (apswvfsfile_xRead file bufout amount offset w) in
  (size_of data < amount ->
     fst r = SQLITE_IOERR_SHORT_READ /\ fst r <> SQLITE_OK /\
     snd r = data ++ repeat x00 (Z.to_nat (amount - size_of data))
                  ++ skipn (Z.to_nat amount) bufout) /\
  (amount <= size_of data ->
     fst r = SQLITE_OK /\
     snd r = firstn (Z.to_nat amount) data ++ skipn (Z.to_nat amount) bufout).
Proof.
  intros Hm Hcall Hpos.
  unfold apswvfsfile_xRead, FILEPREAMBLE, FILEPOSTAMBLE, Call_PythonMethodV,
    Call_PythonMethod.
  rewrite Hm. unfold_monad. simpl. rewrite Hcall. simpl.
  split; intros Hsz.
  - apply Z.ltb_lt in Hsz as Hb. rewrite Hb. simpl.
    apply Z.ltb_lt in Hb.
    repeat split; [discriminate | apply memset_memcpy; assumption].
  - assert (Hb : (size_of data <? amount) = false) by (apply Z.ltb_ge; lia).
    rewrite Hb. simpl. split; reflexivity.
Qed.

(** ** The guards restore the caller's pending fault *)

Lemma VFSPOSTAMBLE_pending (vfs : sqlite3_vfs) (saved : option PyExc) (w : World) :
  pending (snd (VFSPOSTAMBLE vfs saved w)) = saved.
Proof.
  unfold VFSPOSTAMBLE. unfold_monad.
  destruct w as [[e|] u l g x]; reflexivity.
Qed.

Lemma FILEPOSTAMBLE_pending (hook : option PyObject) (saved : option PyExc) (w : World) :
  pending (snd (FILEPOSTAMBLE hook saved w)) = saved.
Proof.
  unfold FILEPOSTAMBLE. unfold_monad.
  destruct w as [[e|] u l g x]; reflexivity.
Qed.

Lemma vfs_guard_restores {A} (vfs : sqlite3_vfs) (body : M A) (w : World) :
  pending (snd ((saved <- VFSPREAMBLE ;;
                 r <- body ;;
                 VFSPOSTAMBLE vfs saved ;;
                 ret r) w)) = pending w.
Proof.
  unfold VFSPREAMBLE, PyErr_Fetch, bind, ret. simpl.
  destruct (body (set_pending None w)) as [r w1].
  pose proof (VFSPOSTAMBLE_pending vfs (pending w) w1) as H.
  destruct (VFSPOSTAMBLE vfs (pending w) w1) as [u w2]. exact H.
Qed.

Lemma file_guard_restores {A} (hook : A -> option PyObject) (body : M A) (w : World) :
  pending (snd ((saved <- FILEPREAMBLE ;;
                 r <- body ;;
                 FILEPOSTAMBLE (hook r) saved ;;
                 ret r) w)) = pending w.
Proof.
  unfold FILEPREAMBLE, PyErr_Fetch, bind, ret. simpl.
  destruct (body (set_pending None w)) as [r w1].
  pose proof (FILEPOSTAMBLE_pending (hook r) (pending w) w1) as H.
  destruct (FILEPOSTAMBLE (hook r) (pending w) w1) as [u w2]. exact H.
Qed.

Lemma discard_world {A} (c : M A) (w : World) : snd (discard c w) = snd (c w).
Proof. unfold discard, bind, ret. destruct (c w); reflexivity. Qed.

Lemma enter_restores_pending (c : NativeCall) (w : World) :
  pending (snd (enter c w)) = pending w.
Proof.
  destruct c; cbn [enter]; rewrite discard_world;
    first [ apply vfs_guard_restores | apply file_guard_restores ].
Qed.

Ltac unfold_entries :=
  unfold apswvfs_xDelete, apswvfs_xAccess, apswvfs_xFullPathname, apswvfs_xOpen,
    apswvfs_xDlOpen, apswvfs_xDlSym, apswvfs_xDlClose, apswvfs_xDlError,
    apswvfs_xRandomness, apswvfs_xSleep, apswvfs_xCurrentTime, apswvfs_xGetLastError,
    apswvfsfile_xClose, apswvfsfile_xRead, apswvfsfile_xWrite, apswvfsfile_xTruncate,
    apswvfsfile_xSync, apswvfsfile_xFileSize, apswvfsfile_xLock, apswvfsfile_xUnlock,
    apswvfsfile_xCheckReservedLock, apswvfsfile_xFileControl, apswvfsfile_xSectorSize,
    apswvfsfile_xDeviceCharacteristics,
    VFSPREAMBLE, VFSPOSTAMBLE, FILEPREAMBLE, FILEPOSTAMBLE,
    PyBytes_FromStringAndSize, convertutf8string, Call_PythonMethodV_built,
    Py_VaBuildValue, Call_PythonMethodV, Call_PythonMethod in *.

Lemma enter_routes_fault (c : NativeCall) (w : World) (e : PyExc) :
  managed_raises c w e ->
  if cleared c e then unraisable (snd (enter c w)) = unraisable w
  else exists frames hook,
         unraisable (snd (enter c w)) = unraisable w ++ [(hook, annotate frames e)].
Proof.
  intros (obj & name & args & m & Hm & Hl & Hr).
  destruct (m args (ext w)) as [[out args'] x'] eqn:Hcall. simpl in Hr. subst out.
  destruct c; cbn [managed_method] in Hm;
    try (destruct (amount <? 0) eqn:Hneg; [discriminate|]);
    try (match type of Hm with context [utf8_text ?z] =>
           destruct (utf8_text z) as [text|] eqn:Hname; [|discriminate Hm] end);
    cbn [option_map] in Hm; injection Hm as <- <- <-;
    cbn [enter cleared]; rewrite discard_world; unfold_entries;
    try rewrite Hneg; try rewrite Hname; rewrite Hl; unfold_monad; cbn;
    rewrite Hcall; cbn.
  all: try (exists []; eexists; reflexivity).
  all: try (eexists [_]; eexists; reflexivity).
  match goal with |- if ?b then _ else _ => destruct b end; cbn;
    [reflexivity | eexists [_]; eexists; reflexivity].
Qed.

(** C2, as amended.  Every entry point SQLite calls, of the VFS and of a
    file, returns with the pending fault its caller had; a fault raised by
    the managed method has then been given to the unraisable hook (with the
    frames the entry point added), except the busy fault of xLock, which is
    cleared and never reaches the hook. *)
Theorem native_call_restores_pending_fault (c : NativeCall) (w : World) :
  pending (snd (enter c w)) = pending w /\
  forall e : PyExc,
    managed_raises c w e ->
    if cleared c e then unraisable (snd (enter c w)) = unraisable w
    else exists frames hook,
           unraisable (snd (enter c w)) = unraisable w ++ [(hook, annotate frames e)].
Proof.
  split.
  - apply enter_restores_pending.
  - intros e He. now apply enter_routes_fault.
Qed.

(** ** xLock and the busy fault *)

Lemma busy_class_code (e : PyExc) :
  exc_class e = BusyError -> exc_code e = SQLITE_BUSY.
Proof. unfold exc_code. intros ->. reflexivity. Qed.

(** C7.  When the managed xLock raises, [apswvfsfile_xLock] returns the
    fault's status code and restores the caller's pending fault.  A busy
    fault (primary code SQLITE_BUSY) is cleared and the unraisable hook is
    not called; any other fault is given to the hook.  For [BusyError]
    itself the code returned is SQLITE_BUSY. *)
Theorem xLock_clears_busy_fault
    (file : PyObject) (flag : Z) (m : PyMethod) (e : PyExc)
    (args' : list PyObject) (x' : Ext) (w : World) :
  lookup_method file "xLock" = Some m ->
  m [PyInt flag] (ext w) = (Raised e, args', x') ->
  let r := apswvfsfile_xLock file flag w in
  fst r = exc_code e /\
  pending (snd r) = pending w /\
  (Z.land (exc_code e) 255 = SQLITE_BUSY ->
     unraisable (snd r) = unraisable w) /\
  (Z.land (exc_code e) 255 <> SQLITE_BUSY ->
     unraisable (snd r) =
       unraisable w ++ [(Some file, add_frame "apswvfsfile.xLock" e)]) /\
  (exc_class e = BusyError ->
     fst r = SQLITE_BUSY /\ unraisable (snd r) = unraisable w).
Proof.
  intros Hl Hcall.
  assert (Hmain :
    let r := apswvfsfile_xLock file flag w in
    fst r = exc_code e /\
    (Z.land (exc_code e) 255 = SQLITE_BUSY -> unraisable (snd r) = unraisable w) /\
    (Z.land (exc_code e) 255 <> SQLITE_BUSY ->
       unraisable (snd r) =
         unraisable w ++ [(Some file, add_frame "apswvfsfile.xLock" e)])).
  { unfold_entries. rewrite Hl. unfold_monad. cbn -[Z.land Z.eqb]. rewrite Hcall.
    cbn -[Z.land Z.eqb].
    destruct (SQLITE_BUSY =? Z.land (exc_code e) 255) eqn:Hb; cbn -[Z.land Z.eqb].
    - apply Z.eqb_eq in Hb. repeat split; congruence.
    - apply Z.eqb_neq in Hb. repeat split; congruence. }
  cbv zeta in *. destruct Hmain as (Hres & Hbusy & Hother).
  repeat split; auto.
  - apply file_guard_restores.
  - rewrite Hres. now apply busy_class_code.
  - apply Hbusy. rewrite (busy_class_code e); auto.
Qed.

(** ** Entry points without an error channel *)

(** A fault in the managed xSectorSize or xDeviceCharacteristics leaves the
    fixed default, 512 or 0, as the result. *)
Lemma sector_size_fault_default
    (file : PyObject) (m : PyMethod) (e : PyExc) (args' : list PyObject) (x' : Ext)
    (w : World) :
  lookup_method file "xSectorSize" = Some m ->
  m [] (ext w) = (Raised e, args', x') ->
  fst (apswvfsfile_xSectorSize file w) = 512.
Proof.
  intros Hl Hc. unfold_entries. rewrite Hl. unfold_monad. cbn. rewrite Hc. reflexivity.
Qed.

Lemma device_characteristics_fault_default
    (file : PyObject) (m : PyMethod) (e : PyExc) (args' : list PyObject) (x' : Ext)
    (w : World) :
  lookup_method file "xDeviceCharacteristics" = Some m ->
  m [] (ext w) = (Raised e, args', x') ->
  fst (apswvfsfile_xDeviceCharacteristics file w) = 0.
Proof.
  intros Hl Hc. unfold_entries. rewrite Hl. unfold_monad. cbn. rewrite Hc. reflexivity.
Qed.

(** ** xAccess *)

Lemma exc_code_not_ok (e : PyExc) : exc_code e <> SQLITE_OK.
Proof. unfold exc_code, SQLITE_OK, SQLITE_ERROR. destruct (exc_class e); discriminate. Qed.

Lemma notnot_0_or_1 (n : Z) : notnot n = 0 \/ notnot n = 1.
Proof. unfold notnot. destruct (n =? 0); auto. Qed.

(** C10, as amended.  [apswvfs_xAccess] leaves 0 or 1 in the out-parameter.
    Either no fault occurred, and the result is SQLITE_OK, or one fault went
    to the unraisable hook, and then the out-parameter is 0 and the result is
    not SQLITE_OK.  An integer that fits a C long gives SQLITE_OK with 1 when
    it is not zero and 0 when it is; an integer that does not fit is an
    overflow fault and anything that is not an integer a type fault.  The
    method is called with the name as a text; a name that is not UTF-8 is a
    decoding fault, and the method is not called. *)
Theorem xAccess_out_parameter
    (vfs : sqlite3_vfs) (zName : option (list byte)) (flags pResOut : Z) (w : World) :
  let r := apswvfs_xAccess vfs zName flags pResOut w in
  let result := fst (fst r) in
  let out := snd (fst r) in
  ((unraisable (snd r) = unraisable w /\ result = SQLITE_OK /\ (out = 0 \/ out = 1)) \/
   (exists e, unraisable (snd r) = unraisable w ++ [(Some (pAppData vfs), e)] /\
              result = exc_code e /\ result <> SQLITE_OK /\ out = 0)) /\
  (forall (name : PyObject) (m : PyMethod) (o : PyObject) (args' : list PyObject)
          (x' : Ext),
    utf8_text zName = Some name ->
    lookup_method (pAppData vfs) "xAccess" = Some m ->
    m [name; PyInt flags] (ext w) = (Returned o, args', x') ->
    (PyIntLong_Check o = true -> fits_long (int_value o) = true ->
       result = SQLITE_OK /\ out = (if int_value o =? 0 then 0 else 1)) /\
    (PyIntLong_Check o = true -> fits_long (int_value o) = false ->
       result = SQLITE_ERROR /\ out = 0 /\
       exists e, exc_class e = PyExc_OverflowError /\
                 unraisable (snd r) = unraisable w ++ [(Some (pAppData vfs), e)]) /\
    (PyIntLong_Check o = false ->
       result = SQLITE_ERROR /\ out = 0 /\
       exists e, exc_class e = PyExc_TypeError /\
                 unraisable (snd r) = unraisable w ++ [(Some (pAppData vfs), e)])) /\
  (utf8_text zName = None ->
     result = SQLITE_ERROR /\ out = 0 /\ log (snd r) = log w /\
     exists e, exc_class e = PyExc_UnicodeDecodeError /\
               unraisable (snd r) = unraisable w ++ [(Some (pAppData vfs), e)]).
Proof.
  cbv zeta. unfold_entries. unfold PyIntLong_AsLong, notnot.
  destruct (utf8_text zName) as [name|] eqn:Hname; unfold_monad;
    cbn -[PyIntLong_Check fits_long int_value Z.eqb].
  2: { split; [right; eexists; repeat split; discriminate|].
       split; [intros ? ? ? ? ? [=]|].
       intros _. repeat split. eexists; split; [|reflexivity]; reflexivity. }
  destruct (lookup_method (pAppData vfs) "xAccess") as [m|] eqn:Hl; unfold_monad;
    cbn -[PyIntLong_Check fits_long int_value Z.eqb].
  - destruct (m [name; PyInt flags] (ext w)) as [[[o|e] a] x] eqn:Hc;
      cbn -[PyIntLong_Check fits_long int_value Z.eqb].
    + assert (Hcases :
        (PyIntLong_Check o = true /\ fits_long (int_value o) = true) \/
        (PyIntLong_Check o = true /\ fits_long (int_value o) = false) \/
        PyIntLong_Check o = false).
      { destruct (PyIntLong_Check o), (fits_long (int_value o)); auto. }
      destruct Hcases as [[Hi Hf] | [[Hi Hf] | Hi]]; rewrite Hi; try rewrite Hf;
        cbn -[PyIntLong_Check fits_long int_value Z.eqb];
        (split;
         [ first [ solve [left; repeat split; destruct (int_value o =? 0); auto]
                 | right; eexists; repeat split; discriminate ]
         | split; [|discriminate];
           intros name0 m0 o0 a0 x0 [= <-] [= <-] Hc0; rewrite Hc in Hc0;
           injection Hc0 as <- <- <-;
           repeat split; intros; try congruence;
           try (eexists; split; [|reflexivity]; reflexivity) ]).
    + split.
      * right. exists (add_frame "vfs.xAccess" e).
        repeat split. apply (exc_code_not_ok e).
      * split; [|discriminate].
        intros name0 m0 o0 a0 x0 [= <-] [= <-] Hc0. rewrite Hc in Hc0. discriminate.
  - split.
    + right. eexists. repeat split; discriminate.
    + split; [|discriminate]. intros name0 m0 o0 a0 x0 _ [=].
Qed.

(** ** xFullPathname *)

Lemma memcpy_terminated (zOut u : list byte) :
  memcpy zOut (u ++ [x00]) (size_of u + 1) =
  u ++ [x00] ++ skipn (Z.to_nat (size_of u + 1)) zOut.
Proof.
  unfold memcpy, size_of.
  replace (Z.to_nat (Z.of_nat (List.length u) + 1)) with (List.length (u ++ [x00])).
  - rewrite firstn_all, <- app_assoc. reflexivity.
  - rewrite length_app. simpl. lia.
Qed.

(** C5.  When the managed xFullPathname, called with the name as a text,
    returns a text whose UTF-8 bytes and terminator do not fit the [nOut]
    bytes of the output buffer (SQLite passes mxPathname+1),
    [apswvfs_xFullPathname] returns SQLITE_TOOBIG, which is neither success
    nor the generic error, and leaves the buffer as it was; when they fit,
    the bytes and the terminator are copied and SQLITE_OK is returned. *)
Theorem xFullPathname_too_long_is_TOOBIG
    (vfs : sqlite3_vfs) (zName : option (list byte)) (name : PyObject) (nOut : Z)
    (zOut : list byte) (m : PyMethod) (u : list byte) (args' : list PyObject) (x' : Ext)
    (w : World) :
  utf8_text zName = Some name ->
  lookup_method (pAppData vfs) "xFullPathname" = Some m ->
  m [name] (ext w) = (Returned (PyUnicode u), args', x') ->
  let r := fst (apswvfs_xFullPathname vfs zName nOut zOut w) in
  (size_of u + 1 > nOut -> r = (SQLITE_TOOBIG, zOut)) /\
  (size_of u + 1 <= nOut ->
     r = (SQLITE_OK, u ++ [x00] ++ skipn (Z.to_nat (size_of u + 1)) zOut)) /\
  SQLITE_TOOBIG <> SQLITE_OK /\ SQLITE_TOOBIG <> SQLITE_ERROR.
Proof.
  intros Hname Hl Hc. cbv zeta. unfold_entries. unfold getutf8string, SET_EXC.
  rewrite Hname, Hl. unfold_monad. cbn -[Z.gtb size_of memcpy]. rewrite Hc.
  cbn -[Z.gtb size_of memcpy].
  repeat split; try discriminate; intros Hsz.
  - assert (Hb : (size_of u + 1 >? nOut) = true) by (apply Z.gtb_lt; lia).
    rewrite Hb. reflexivity.
  - assert (Hb : (size_of u + 1 >? nOut) = false).
    { rewrite Z.gtb_ltb. apply Z.ltb_ge. lia. }
    rewrite Hb. cbn -[size_of memcpy]. now rewrite memcpy_terminated.
Qed.

(** ** Closed files *)

(** C6.  On a closed handle ([self->base] null) every method of the file
    other than xClose returns NULL with the file-closed fault pending and
    changes nothing else: nothing is written to the log, so no call reached a
    base implementation, and the outside state is as it was. *)
Theorem closed_file_rejects_every_method
    (meth : FileMethod) (self : APSWVFSFile) (w : World) :
  base self = None ->
  APSWVFSFile_methods meth self w = (None, set_pending (Some VFSFileClosed) w) /\
  exc_class VFSFileClosed = ExcVFSFileClosed /\
  log (snd (APSWVFSFile_methods meth self w)) = log w /\
  ext (snd (APSWVFSFile_methods meth self w)) = ext w.
Proof.
  intros Hclosed.
  assert (H : APSWVFSFile_methods meth self w =
              (None, set_pending (Some VFSFileClosed) w)).
  { destruct meth; cbn [APSWVFSFile_methods];
      unfold apswvfsfilepy_xRead, apswvfsfilepy_xUnlock, apswvfsfilepy_xLock,
        apswvfsfilepy_xSectorSize, apswvfsfilepy_xFileSize,
        apswvfsfilepy_xDeviceCharacteristics, apswvfsfilepy_xCheckReservedLock,
        apswvfsfilepy_xWrite, apswvfsfilepy_xSync, apswvfsfilepy_xTruncate,
        apswvfsfilepy_xFileControl;
      rewrite Hclosed; reflexivity. }
  rewrite H. repeat split.
Qed.

(** ** Closing a file *)

Lemma base_xClose_log (b : sqlite3_file) (w : World) :
  file_addr (snd (fst (base_xClose b w))) = file_addr b /\
  exists inner,
    log (snd (base_xClose b w)) = log w ++ inner /\
    Forall is_python_call inner /\
    (forall f m, pMethods b = Some apsw_io_methods -> file b = Some f ->
                 lookup_method f "xClose" = Some m ->
                 inner = [EvPython f "xClose" []]).
Proof.
  unfold base_xClose, resolve.
  destruct (pMethods b) as [[|m]|].
  - destruct (file b) as [f|]; cbn [option_map].
    + unfold_entries. destruct (lookup_method f "xClose") as [m|] eqn:Hl;
        unfold_monad; cbn.
      * destruct (m [] (ext w)) as [[[v|e] a] x]; cbn;
          (split; [reflexivity|]; exists [EvPython f "xClose" []];
           split; [reflexivity | split; [repeat constructor|]];
           intros f0 m0 _ [= <-] _; reflexivity).
      * split; [reflexivity|].
        exists []. rewrite app_nil_r. split; [reflexivity | split; [constructor|]].
        intros f0 m0 _ [= <-] H. congruence.
    + split; [reflexivity|].
      exists []. rewrite app_nil_r. split; [reflexivity | split; [constructor|]].
      intros f0 m0 _ [=].
  - unfold_monad. destruct (xClose m (ext w)); cbn.
    split; [reflexivity|].
    exists []. rewrite app_nil_r. split; [reflexivity | split; [constructor|]].
    intros f0 m0 [=].
  - split; [reflexivity|].
    exists []. rewrite app_nil_r. split; [reflexivity | split; [constructor|]].
    intros f0 m0 [=].
Qed.

Lemma frees_app (l1 l2 : list Event) : frees (l1 ++ l2) = (frees l1 + frees l2)%nat.
Proof. unfold frees. now rewrite filter_app, length_app. Qed.

Lemma closes_app (l1 l2 : list Event) : closes (l1 ++ l2) = (closes l1 + closes l2)%nat.
Proof. unfold closes. now rewrite filter_app, length_app. Qed.

Lemma python_calls_free_nothing (l : list Event) :
  Forall is_python_call l -> frees l = 0%nat /\ closes l = 0%nat.
Proof.
  induction 1 as [|ev l Hev _ [IHf IHc]]; [split; reflexivity|].
  destruct ev; try contradiction. unfold frees, closes in *. simpl. auto.
Qed.

Lemma SET_EXC_log (res : Z) (w : World) : log (snd (SET_EXC res w)) = log w.
Proof.
  unfold SET_EXC. unfold_monad.
  destruct (pending w), (res =? SQLITE_OK); reflexivity.
Qed.

Lemma xClose_closes (self : APSWVFSFile) (b : sqlite3_file) (w : World) :
  base self = Some b ->
  let started := snd (emit (EvNative b "xClose") w) in
  let res := fst (fst (base_xClose b started)) in
  let r := apswvfsfilepy_xClose self w in
  fst (fst r) = (if res =? SQLITE_OK then Some Py_None else None) /\
  snd (fst r) = mkPyFile None /\
  exists inner b',
    log (snd r) = log w ++ [EvNative b "xClose"] ++ inner ++ [EvFree b'] /\
    Forall is_python_call inner /\
    (forall f m, pMethods b = Some apsw_io_methods -> file b = Some f ->
                 lookup_method f "xClose" = Some m ->
                 inner = [EvPython f "xClose" []]) /\
    pMethods b' = None /\ file_addr b' = file_addr b.
Proof.
  intros Hb. cbv zeta. unfold apswvfsfilepy_xClose, call, PyMem_Free. rewrite Hb.
  unfold bind, emit, ret. cbn [fst snd].
  set (started := set_log (log w ++ [EvNative b "xClose"]) w).
  destruct (base_xClose_log b started) as (Haddr & inner & Hlog & Hpy & Hch).
  destruct (base_xClose b started) as [[res bb] w1]. cbn [fst snd] in *.
  destruct (res =? SQLITE_OK) eqn:Hres.
  - split; [reflexivity | split; [reflexivity|]].
    exists inner. eexists. cbn. rewrite Hlog. unfold started. cbn.
    rewrite <- !app_assoc. repeat split; auto.
  - match goal with |- context [SET_EXC res ?w0] =>
      pose proof (SET_EXC_log res w0) as Hset; destruct (SET_EXC res w0) as [u w2] end.
    cbn [fst snd] in *. split; [reflexivity | split; [reflexivity|]].
    exists inner. eexists.
    rewrite Hset. cbn. rewrite Hlog. unfold started. cbn.
    rewrite <- !app_assoc. repeat split; auto.
Qed.

Lemma outside_pending {A} (f : Ext -> A * Ext) (w : World) :
  pending (snd (outside f w)) = pending w.
Proof. unfold outside. destruct (f (ext w)). reflexivity. Qed.

Lemma apswvfsfile_xClose_pending (f : PyObject) (w : World) :
  pending (snd (apswvfsfile_xClose f w)) = pending w.
Proof. unfold apswvfsfile_xClose. apply file_guard_restores. Qed.

Lemma base_xClose_pending (b : sqlite3_file) (w : World) :
  pending (snd (base_xClose b w)) = pending w.
Proof.
  unfold base_xClose, resolve.
  destruct (pMethods b) as [[|m]|]; [destruct (file b) as [f|]| |]; cbn [option_map];
    try reflexivity.
  - unfold bind, ret. pose proof (apswvfsfile_xClose_pending f w) as H.
    destruct (apswvfsfile_xClose f w) as [r w1]. exact H.
  - unfold bind, ret. pose proof (outside_pending (xClose m) w) as H.
    destruct (outside (xClose m) w) as [r w1]. exact H.
Qed.

Lemma exception_for_code (res : Z) : 0 < res -> exc_code (exception_for res) = res.
Proof. destruct res; try lia. reflexivity. Qed.

(** What a close leaves pending: the caller's fault, or the fault of the
    status the base's xClose reported. *)
Lemma xClose_reports (self : APSWVFSFile) (b : sqlite3_file) (w : World) :
  base self = Some b ->
  let res := fst (fst (base_xClose b (snd (emit (EvNative b "xClose") w)))) in
  pending (snd (apswvfsfilepy_xClose self w)) =
    if res =? SQLITE_OK then pending w
    else match pending w with
         | Some e => Some e
         | None => Some (exception_for res)
         end.
Proof.
  intros Hb. cbv zeta. unfold apswvfsfilepy_xClose, call, PyMem_Free. rewrite Hb.
  unfold bind, emit, ret. cbn [fst snd].
  set (started := set_log (log w ++ [EvNative b "xClose"]) w).
  pose proof (base_xClose_pending b started) as Hp.
  destruct (base_xClose b started) as [[res bb] w1]. cbn [fst snd] in *.
  change (pending started) with (pending w) in Hp.
  destruct (res =? SQLITE_OK) eqn:Hres; [exact Hp|].
  unfold SET_EXC. unfold_monad. cbn. rewrite Hp, Hres.
  destruct (pending w) eqn:Hw; cbn; rewrite ?Hp; reflexivity.
Qed.

(** C3, as amended.  Closing an open handle calls the base's xClose once,
    with the handle's table still in place, and only then nulls the table,
    frees the block and nulls [self->base]; when the base is a file of this
    bridge the managed xClose has been called by then.  The first close
    returns success exactly when the base's xClose reported SQLITE_OK.
    Otherwise it reports the failure: it returns NULL and leaves pending the
    fault of the status the base reported (the caller's own fault, had one
    been pending), whose code is that status.  The second close returns
    success and does nothing: no call of the base, no second free. *)
Theorem close_twice_frees_once (self : APSWVFSFile) (b : sqlite3_file) (w : World) :
  base self = Some b ->
  valid_file b ->
  let res := fst (fst (base_xClose b (snd (emit (EvNative b "xClose") w)))) in
  let r1 := apswvfsfilepy_xClose self w in
  let self1 := snd (fst r1) in
  let r2 := apswvfsfilepy_xClose self1 (snd r1) in
  (res = SQLITE_OK ->
     fst (fst r1) = Some Py_None /\ fst (fst r2) = Some Py_None /\
     pending (snd r1) = pending w) /\
  (res <> SQLITE_OK ->
     fst (fst r1) = None /\
     pending (snd r1) = match pending w with
                        | Some e => Some e
                        | None => Some (exception_for res)
                        end /\
     (0 < res -> exc_code (exception_for res) = res)) /\
  base self1 = None /\
  (exists inner b',
     log (snd r1) = log w ++ [EvNative b "xClose"] ++ inner ++ [EvFree b'] /\
     Forall is_python_call inner /\
     (forall f m, pMethods b = Some apsw_io_methods -> file b = Some f ->
                  lookup_method f "xClose" = Some m ->
                  inner = [EvPython f "xClose" []]) /\
     pMethods b <> None /\ pMethods b' = None /\ file_addr b' = file_addr b) /\
  r2 = (Some Py_None, self1, snd r1) /\
  frees (log (snd r2)) = (frees (log w) + 1)%nat /\
  closes (log (snd r2)) = (closes (log w) + 1)%nat.
Proof.
  intros Hb Hvalid. cbv zeta.
  destruct (xClose_closes self b w Hb) as (Hres & Hself & inner & b' & Hlog & Hpy & Hch & Hnull & Haddr).
  cbv zeta in *.
  set (r1 := apswvfsfilepy_xClose self w) in *.
  rewrite Hself.
  assert (H2 : apswvfsfilepy_xClose (mkPyFile None) (snd r1) =
               (Some Py_None, mkPyFile None, snd r1)) by reflexivity.
  rewrite H2. cbn [fst snd base].
  destruct (python_calls_free_nothing inner Hpy) as [Hf Hc].
  pose proof (xClose_reports self b w Hb) as Hrep. cbv zeta in Hrep. fold r1 in Hrep.
  split; [|split; [|split; [|split; [|split; [|split]]]]].
  - rewrite Hres, Hrep. intros ->. repeat split; reflexivity.
  - rewrite Hres, Hrep. intros Hne. apply Z.eqb_neq in Hne. rewrite Hne.
    repeat split. apply exception_for_code.
  - reflexivity.
  - exists inner, b'. repeat split; auto.
    unfold valid_file in Hvalid. destruct (pMethods b); [discriminate | contradiction].
  - reflexivity.
  - rewrite Hlog, !frees_app, Hf. unfold frees. simpl. lia.
  - rewrite Hlog, !closes_app, Hc. unfold closes. simpl. lia.
Qed.

(** The destructor of a file keeps the fault that was pending. *)
Lemma APSWVFSFile_dealloc_restores_pending (self : APSWVFSFile) (w : World) :
  pending (snd (APSWVFSFile_dealloc self w)) = pending w.
Proof.
  unfold APSWVFSFile_dealloc, PyErr_Fetch, PyErr_Restore, bind, ret. cbn [fst snd].
  match goal with |- context [?c (set_pending None w)] =>
    destruct (c (set_pending None w)) as [self1 w1] end.
  destruct (PyErr_Occurred w1) as [occurred w2].
  match goal with |- context [when ?b ?c w2] => destruct (when b c w2) as [u w3] end.
  reflexivity.
Qed.

(** ** The delegated read *)

Lemma drop_leading_zeros_app_zero (l : list byte) :
  drop_leading_zeros (rev (l ++ [x00])) = drop_leading_zeros (rev l).
Proof. rewrite rev_app_distr. reflexivity. Qed.

Lemma firstn_succ_nth (buf : list byte) (k : nat) :
  (k < List.length buf)%nat ->
  firstn (S k) buf = firstn k buf ++ [nth k buf x00].
Proof.
  revert k. induction buf as [|c buf IH]; intros k Hk; simpl in Hk; [lia|].
  destruct k as [|k]; [reflexivity|].
  change (firstn (S (S k)) (c :: buf)) with (c :: firstn (S k) buf).
  rewrite IH by lia. reflexivity.
Qed.

(** The loop of [apswvfsfilepy_xRead] strips the trailing zero bytes. *)
Lemma strip_trailing_nulls_spec (buf : list byte) (n : nat) :
  firstn (strip_trailing_nulls buf n) buf = without_trailing_zeros (firstn n buf).
Proof.
  unfold without_trailing_zeros.
  induction n as [|n IH]; [reflexivity|].
  cbn [strip_trailing_nulls].
  destruct (Nat.lt_ge_cases n (List.length buf)) as [Hlt | Hge].
  - rewrite (firstn_succ_nth buf n Hlt), rev_app_distr. cbn [rev app drop_leading_zeros].
    destruct (Byte.eqb (nth n buf x00) x00) eqn:Hz.
    + exact IH.
    + cbn [rev]. rewrite rev_involutive. now rewrite <- firstn_succ_nth.
  - rewrite (nth_overflow buf x00 Hge). cbn [Byte.eqb].
    replace (Byte.eqb x00 x00) with true by reflexivity.
    rewrite IH, !firstn_all2 by lia. reflexivity.
Qed.

Lemma parse_iL_ok (amount offset : Z) (w : World) :
  INT_MIN <= amount <= INT_MAX ->
  LONG_MIN <= offset <= LONG_MAX ->
  PyArg_ParseTuple_iL [PyInt amount; PyInt offset] w = (Some (amount, offset), w).
Proof.
  intros Ha Ho. unfold PyArg_ParseTuple_iL, parse_int, parse_longlong, parse_integer.
  unfold_monad. cbn -[Z.leb INT_MIN INT_MAX LONG_MIN LONG_MAX].
  assert (H1 : ((INT_MIN <=? amount) && (amount <=? INT_MAX))%bool = true).
  { apply andb_true_intro. split; apply Z.leb_le; lia. }
  assert (H2 : ((LONG_MIN <=? offset) && (offset <=? LONG_MAX))%bool = true).
  { apply andb_true_intro. split; apply Z.leb_le; lia. }
  rewrite H1. cbn -[Z.leb INT_MIN INT_MAX LONG_MIN LONG_MAX]. rewrite H2. reflexivity.
Qed.

(** [apswvfsfilepy_xRead] on well-formed arguments: all that happens is the
    base's read into a fresh buffer. *)
Lemma delegated_read_unfold
    (self : APSWVFSFile) (b : sqlite3_file)
    (rd : list byte -> Z -> Z -> M (Z * list byte))
    (amount offset : Z) (fresh : list byte) (w : World) :
  base self = Some b ->
  base_xRead b = Some rd ->
  0 <= amount <= INT_MAX ->
  LONG_MIN <= offset <= LONG_MAX ->
  apswvfsfilepy_xRead self [PyInt amount; PyInt offset] fresh w =
    (let r := rd (uninitialised fresh amount) amount offset
                 (snd (emit (EvNative b "xRead") w)) in
     let res := fst (fst r) in
     let buffy := snd (fst r) in
     if res =? SQLITE_OK then (Some (PyBytes buffy), snd r)
     else if res =? SQLITE_IOERR_SHORT_READ
     then (Some (PyBytes (firstn (strip_trailing_nulls buffy (Z.to_nat amount)) buffy)),
           snd r)
     else (None, snd (SET_EXC res (snd r)))).
Proof.
  intros Hb Hrd Ha Ho.
  unfold apswvfsfilepy_xRead. rewrite Hb, Hrd.
  unfold bind at 1. rewrite parse_iL_ok by (unfold INT_MIN; lia).
  unfold PyBytes_FromStringAndSize.
  assert (Hneg : (amount <? 0) = false) by (apply Z.ltb_ge; lia).
  rewrite Hneg.
  assert (Hfirst : firstn (Z.to_nat amount) (uninitialised fresh amount) =
                   uninitialised fresh amount).
  { unfold uninitialised. now rewrite firstn_firstn, Nat.min_id. }
  rewrite Hfirst. unfold bind at 1. unfold ret at 1. unfold call.
  unfold bind at 1. unfold bind at 1.
  destruct (emit (EvNative b "xRead") w) as [u w0]. cbn [snd].
  destruct (rd (uninitialised fresh amount) amount offset w0) as [[res buffy] w1].
  cbn [fst snd]. cbv zeta.
  destruct (res =? SQLITE_OK); [reflexivity|].
  destruct (res =? SQLITE_IOERR_SHORT_READ); [reflexivity|].
  unfold bind, ret. destruct (SET_EXC res w1). reflexivity.
Qed.

Lemma delegated_short_read
    (self : APSWVFSFile) (b : sqlite3_file)
    (rd : list byte -> Z -> Z -> M (Z * list byte))
    (amount offset : Z) (fresh buf : list byte) (w w' : World) :
  base self = Some b ->
  base_xRead b = Some rd ->
  0 <= amount <= INT_MAX ->
  LONG_MIN <= offset <= LONG_MAX ->
  rd (uninitialised fresh amount) amount offset (snd (emit (EvNative b "xRead") w)) =
    (SQLITE_IOERR_SHORT_READ, buf, w') ->
  apswvfsfilepy_xRead self [PyInt amount; PyInt offset] fresh w =
    (Some (PyBytes (without_trailing_zeros (firstn (Z.to_nat amount) buf))), w').
Proof.
  intros Hb Hrd Ha Ho Hcall.
  rewrite (delegated_read_unfold self b rd amount offset fresh w Hb Hrd Ha Ho).
  rewrite Hcall. cbn -[strip_trailing_nulls without_trailing_zeros].
  now rewrite strip_trailing_nulls_spec.
Qed.

Lemma length_uninitialised (fresh : list byte) (amount : Z) :
  List.length (uninitialised fresh amount) = Z.to_nat amount.
Proof.
  unfold uninitialised. rewrite length_firstn, length_app, repeat_length. lia.
Qed.

Lemma drop_leading_zeros_split (l : list byte) :
  exists k, l = repeat x00 k ++ drop_leading_zeros l /\
            hd_error (drop_leading_zeros l) <> Some x00.
Proof.
  induction l as [|c l (k & Hk & Hhd)].
  - exists 0%nat. split; [reflexivity | discriminate].
  - cbn [drop_leading_zeros]. destruct (Byte.eqb c x00) eqn:Hc.
    + apply Byte.byte_dec_bl in Hc. subst c.
      exists (S k). split; [|exact Hhd].
      simpl. now rewrite <- Hk.
    + exists 0%nat. split; [reflexivity|]. simpl. intros [= ->]. discriminate.
Qed.

Lemma rev_repeat_zero (k : nat) : rev (repeat x00 k) = repeat x00 k.
Proof.
  induction k as [|k IH]; [reflexivity|].
  simpl. rewrite IH. clear IH.
  induction k as [|k IH]; [reflexivity|]. simpl. now rewrite IH.
Qed.

Lemma without_trailing_zeros_spec (l : list byte) :
  (exists k, l = without_trailing_zeros l ++ repeat x00 k) /\
  (forall l', without_trailing_zeros l <> l' ++ [x00]).
Proof.
  unfold without_trailing_zeros.
  destruct (drop_leading_zeros_split (rev l)) as (k & Hk & Hhd). split.
  - exists k. rewrite <- (rev_involutive l) at 1. rewrite Hk at 1.
    now rewrite rev_app_distr, rev_repeat_zero.
  - intros l' H. apply (f_equal (@rev byte)) in H.
    rewrite rev_involutive, rev_app_distr in H. simpl in H.
    rewrite H in Hhd. now apply Hhd.
Qed.

(** ** Registration *)

Lemma vfsUnlink_absent (p : sqlite3_vfs) (l : list sqlite3_vfs) :
  (forall v, In v l -> vfs_addr v <> vfs_addr p) -> vfsUnlink p l = l.
Proof.
  intros H. unfold vfsUnlink. induction l as [|v l IH]; [reflexivity|].
  simpl. destruct (Nat.eqb_spec (vfs_addr v) (vfs_addr p)) as [Heq|Hne].
  - exfalso. apply (H v); [left; reflexivity | exact Heq].
  - simpl. f_equal. apply IH. intros v' Hv'. apply H. now right.
Qed.

Lemma vfsUnlink_self (p : sqlite3_vfs) (l : list sqlite3_vfs) :
  vfsUnlink p (p :: l) = vfsUnlink p l.
Proof. unfold vfsUnlink. simpl. now rewrite Nat.eqb_refl. Qed.


Lemma find_named_none (name : string) (l : list sqlite3_vfs) :
  (forall v, In v l -> zName v <> name) ->
  find (fun v => String.eqb name (zName v)) l = None.
Proof.
  intros H. induction l as [|v l IH]; [reflexivity|]. simpl.
  destruct (String.eqb_spec name (zName v)) as [Heq|Hne].
  - exfalso. apply (H v); [left; reflexivity | now symmetry].
  - apply IH. intros v' Hv'. apply H. now right.
Qed.

Lemma named_none (name : string) (l : list sqlite3_vfs) :
  (forall v, In v l -> zName v <> name) -> named name l = [].
Proof.
  intros H. unfold named. induction l as [|v l IH]; [reflexivity|]. simpl.
  destruct (String.eqb_spec name (zName v)) as [Heq|Hne].
  - exfalso. apply (H v); [left; reflexivity | now symmetry].
  - apply IH. intros v' Hv'. apply H. now right.
Qed.

(** A second [unregister] does nothing. *)
Lemma unregister_unregistered (self : APSWVFS) (w : World) :
  registered self = false ->
  apswvfspy_unregister self w = (Some Py_None, self, w).
Proof. intros H. unfold apswvfspy_unregister. now rewrite H. Qed.

(** Unregistered is terminal, short of a second [__init__]. *)
Lemma unregistered_stays (ops : list VfsOp) (self : APSWVFS) (w : World) :
  no_init ops = true ->
  registered self = false ->
  registered (fst (run_ops ops self w)) = false.
Proof.
  revert self w.
  induction ops as [|[|name base makedefault maxpathname addr|c] ops IH];
    intros self w Hops H; cbn [run_ops]; cbn in Hops; try discriminate.
  - exact H.
  - unfold bind. rewrite (unregister_unregistered self w H). cbn [snd fst]. now apply IH.
  - unfold bind. destruct (c w) as [u w1]. now apply IH.
Qed.

Lemma dealloc_unregistered (self : APSWVFS) (refs : Refs) (w : World) :
  registered self = false ->
  registered (fst (APSWVFS_dealloc self refs w)) = false.
Proof.
  intros H.
  destruct refs as [|obj next]; cbn [APSWVFS_dealloc]; unfold bind at 1;
    match goal with |- context [let (_, _) := ?c w in _] => destruct (c w) as [u w0] end;
    unfold dealloc_containingvfs;
    destruct (containingvfs self); unfold_monad; cbn [fst snd];
    try (rewrite unregister_unregistered by exact H; cbn;
         destruct (pending w0); cbn); auto.
Qed.

Lemma vfsUnlink_inserted (p : sqlite3_vfs) (makeDflt : Z) (l : list sqlite3_vfs) :
  (forall v, In v l -> vfs_addr v <> vfs_addr p) ->
  vfsUnlink p (inserted p makeDflt l) = l.
Proof.
  intros H. unfold inserted. destruct (negb (makeDflt =? 0)).
  - rewrite vfsUnlink_self. now apply vfsUnlink_absent.
  - destruct l as [|d rest]; [apply vfsUnlink_self|].
    unfold vfsUnlink. simpl.
    destruct (Nat.eqb_spec (vfs_addr d) (vfs_addr p)) as [Heq|Hne].
    + exfalso. apply (H d); [left; reflexivity | exact Heq].
    + simpl. rewrite Nat.eqb_refl. simpl. f_equal.
      apply vfsUnlink_absent. intros v Hv. apply H. now right.
Qed.

Lemma In_inserted (p : sqlite3_vfs) (makeDflt : Z) (l : list sqlite3_vfs) :
  In p (inserted p makeDflt l).
Proof.
  unfold inserted. destruct (negb (makeDflt =? 0)); [now left|].
  destruct l; [now left | right; now left].
Qed.

Lemma init_success
    (self0 : APSWVFS) (name : string) (base : option string)
    (makedefault maxpathname : Z) (addr : nat) (w : World) :
  let r := APSWVFS_init self0 name base makedefault maxpathname addr w in
  fst (fst r) = 0 ->
  (forall v, In v (vfsList w) -> vfs_addr v <> addr) ->
  register_status (ext w) = SQLITE_OK /\
  exists mx,
    let v := mkVfs addr 1 mx name (ob_self self0) true in
    containingvfs (snd (fst r)) = Some v /\
    registered (snd (fst r)) = true /\
    vfsList (snd r) = inserted v makedefault (vfsList w).
Proof.
  cbv zeta. unfold APSWVFS_init, sqlite3_vfs_find, sqlite3_vfs_register.
  intros Hok Hfresh.
  destruct base as [b|]; unfold_monad; cbn -[Z.eqb] in *.
  - match goal with
    | H : context [match ?found with Some _ => _ | None => _ end] |- _ =>
        destruct found as [bv|] eqn:Hfound
    end; cbn -[Z.eqb] in *; [|discriminate].
    destruct (iVersion bv =? 1) eqn:Hv; cbn -[Z.eqb] in *; [|discriminate].
    destruct (register_status (ext w) =? SQLITE_OK) eqn:Hrc; cbn -[Z.eqb] in *.
    + split; [now apply Z.eqb_eq|].
      eexists. rewrite ?Hrc, vfsUnlink_absent by exact Hfresh. repeat split.
    + rewrite Hrc in Hok. cbn in Hok. destruct (pending w); discriminate Hok.
  - destruct (register_status (ext w) =? SQLITE_OK) eqn:Hrc; cbn -[Z.eqb] in *.
    + split; [now apply Z.eqb_eq|].
      eexists. rewrite ?Hrc, vfsUnlink_absent by exact Hfresh. repeat split.
    + rewrite Hrc in Hok. cbn in Hok. destruct (pending w); discriminate Hok.
Qed.

(** C4, as amended.  Take a VFS object whose construction succeeded, its new
    record on a fresh address.  The record stands in the engine's table under
    the name given.  [unregister] returns success and leaves the table as it
    was before the registration: the record is gone, and the entries of its
    name are those that were there before, none when no other VFS carried the
    name.  A second [unregister] returns success and changes nothing.
    Whatever follows short of a second [__init__], more calls of [unregister]
    or other activity, and then the end of the object, the [registered] flag
    stays false. *)
Theorem register_then_unregister
    (ob : PyObject) (name : string) (base : option string)
    (makedefault maxpathname : Z) (addr : nat) (w : World) :
  let r := APSWVFS_init (APSWVFS_new ob) name base makedefault maxpathname addr w in
  let self := snd (fst r) in
  fst (fst r) = 0 ->
  (forall v, In v (vfsList w) -> vfs_addr v <> addr) ->
  let u1 := apswvfspy_unregister self (snd r) in
  let self1 := snd (fst u1) in
  let u2 := apswvfspy_unregister self1 (snd u1) in
  (registered self = true /\
   exists v, containingvfs self = Some v /\ zName v = name /\ vfs_addr v = addr /\
             In v (vfsList (snd r)) /\ ~ In v (vfsList (snd u1))) /\
  (fst (fst u1) = Some Py_None /\
   registered self1 = false /\
   vfsList (snd u1) = vfsList w /\
   named name (vfsList (snd u1)) = named name (vfsList w) /\
   ((forall v, In v (vfsList w) -> zName v <> name) ->
    named name (vfsList (snd u1)) = [] /\
    fst (sqlite3_vfs_find (Some name) (snd u1)) = None)) /\
  u2 = (Some Py_None, self1, snd u1) /\
  (forall ops w',
     no_init ops = true ->
     registered (fst (run_ops ops self1 w')) = false /\
     forall refs,
       registered (fst (APSWVFS_dealloc (fst (run_ops ops self1 w')) refs
                          (snd (run_ops ops self1 w')))) = false).
Proof.
  cbv zeta. intros Hok Hfresh.
  destruct (init_success (APSWVFS_new ob) name base makedefault maxpathname addr w Hok Hfresh)
    as (_ & mx & Hc & Hreg & Hlist).
  cbv zeta in *. cbn [APSWVFS_new ob_self] in *.
  set (r := APSWVFS_init (APSWVFS_new ob) name base makedefault maxpathname addr w) in *.
  set (v := mkVfs addr 1 mx name ob true) in *.
  assert (Hu1 : apswvfspy_unregister (snd (fst r)) (snd r) =
                (Some Py_None,
                 mkPyVfs (ob_self (snd (fst r))) (basevfs (snd (fst r))) (Some v) false,
                 set_vfsList (vfsList w) (snd r))).
  { unfold apswvfspy_unregister, sqlite3_vfs_unregister, SET_EXC.
    rewrite Hreg, Hc. unfold_monad. cbn -[vfsUnlink].
    rewrite Hlist, vfsUnlink_inserted by exact Hfresh.
    destruct (pending (snd r)); reflexivity. }
  rewrite Hu1. cbn [fst snd].
  split; [|split; [|split]].
  - split; [exact Hreg|]. exists v. split; [exact Hc|].
    split; [reflexivity|]. split; [reflexivity|]. split.
    + rewrite Hlist. apply In_inserted.
    + cbn. intros Hin. now apply (Hfresh v Hin).
  - repeat split; cbn.
    + now apply named_none.
    + now apply find_named_none.
  - now rewrite unregister_unregistered.
  - intros ops w' Hops. split.
    + now apply unregistered_stays.
    + intros refs. apply dealloc_unregistered. now apply unregistered_stays.
Qed.

(** ** Construction on a base *)

(** C9.  Construction with a base name.  When the engine finds the base and
    its [iVersion] is not 1, [APSWVFS_init] fails with a value fault that
    carries that version; when the engine finds no VFS of that name it fails
    with the base-not-found fault.  In both cases the object is not
    registered, holds no [sqlite3_vfs] and the engine's table is as it was. *)
Theorem init_rejects_base
    (ob : PyObject) (name b : string) (makedefault maxpathname : Z) (addr : nat)
    (w : World) :
  let wanted := if Nat.eqb (String.length b) 0 then None else Some b in
  let r := APSWVFS_init (APSWVFS_new ob) name (Some b) makedefault maxpathname addr w in
  let self := snd (fst r) in
  (forall v, fst (sqlite3_vfs_find wanted w) = Some v -> iVersion v <> 1 ->
     fst (fst r) = -1 /\
     pending (snd r) =
       Some (mkExc PyExc_ValueError
               "Base vfs implements version %d of vfs spec, but apsw only supports version 1"
               [ArgInt (iVersion v)] []) /\
     registered self = false /\ containingvfs self = None /\
     vfsList (snd r) = vfsList w) /\
  (fst (sqlite3_vfs_find wanted w) = None ->
     fst (fst r) = -1 /\
     pending (snd r) =
       Some (mkExc PyExc_ValueError "Base vfs named %s not found"
               [ArgStr (match wanted with Some s => s | None => "<default>" end)] []) /\
     registered self = false /\ containingvfs self = None /\
     vfsList (snd r) = vfsList w).
Proof.
  cbv zeta. unfold APSWVFS_init, APSWVFS_new, sqlite3_vfs_find.
  set (wanted := if Nat.eqb (String.length b) 0 then None else Some b).
  unfold_monad. cbn -[Z.eqb wanted].
  set (found := match wanted with
                | Some n => find (fun v => String.eqb n (zName v)) (vfsList w)
                | None => hd_error (vfsList w)
                end).
  split.
  - intros v Hfound Hv. apply Z.eqb_neq in Hv. rewrite Hfound. cbn -[Z.eqb wanted].
    rewrite Hv. cbn. repeat split.
  - intros Hfound. rewrite Hfound. cbn. repeat split.
Qed.

(** * Further properties of the entry points *)

(** ** Entry points without an error channel: the whole outcome *)

(** X1.  [apswvfsfile_xSectorSize] and [apswvfsfile_xDeviceCharacteristics] have
    no way to report an error.  Each returns its default (512 and 0) when the
    managed object has no such method or the method returns [None]; the
    integer the method returned, cut to a C [int], when that integer fits a C
    long; and the default again, with one fault given to the file's
    unraisable hook, in every other case (the method raised, returned
    something that is not a number, or returned an integer no C long
    holds). *)
Theorem no_error_channel_outcome (file : PyObject) (w : World) :
  let outcome (name : string) (dflt : Z) (r : Z * World) :=
    (lookup_method file name = None ->
       fst r = dflt /\ unraisable (snd r) = unraisable w) /\
    (forall m out args' x',
       lookup_method file name = Some m ->
       m [] (ext w) = (out, args', x') ->
       match out with
       | Returned Py_None => fst r = dflt /\ unraisable (snd r) = unraisable w
       | Returned o =>
           if PyIntLong_Check o && fits_long (int_value o)
           then fst r = to_int (int_value o) /\ unraisable (snd r) = unraisable w
           else fst r = dflt /\
                exists e,
                  exc_class e = (if PyIntLong_Check o then PyExc_OverflowError
                                 else PyExc_TypeError) /\
                  unraisable (snd r) = unraisable w ++ [(Some file, e)]
       | Raised e =>
           fst r = dflt /\
           exists frame,
             unraisable (snd r) = unraisable w ++ [(Some file, add_frame frame e)]
       end) in
  outcome "xSectorSize" 512 (apswvfsfile_xSectorSize file w) /\
  outcome "xDeviceCharacteristics" 0 (apswvfsfile_xDeviceCharacteristics file w).
Proof.
  cbv zeta. split; (split; [intros Hl | intros m out args' x' Hl Hc]);
    unfold_entries; unfold PyIntLong_AsLong; rewrite Hl; unfold_monad;
    cbn -[fits_long to_int]; try (split; reflexivity);
    rewrite Hc; cbn -[fits_long to_int];
    (destruct out as [o|e];
     [ destruct o as [|b|n| | | | |]; try destruct b; cbn -[fits_long to_int];
       try (destruct (fits_long n); cbn -[to_int]);
       first [ split; reflexivity
             | split; [reflexivity | eexists; split; [|reflexivity]; reflexivity] ]
     | split; [reflexivity | eexists; reflexivity] ]).
Qed.

(** ** Copies into a caller's buffer *)

Lemma memcpy_within (dst src : list byte) (n : Z) :
  0 <= n -> n <= size_of src -> n <= size_of dst ->
  List.length (memcpy dst src n) = List.length dst /\
  firstn (Z.to_nat n) (memcpy dst src n) = firstn (Z.to_nat n) src /\
  skipn (Z.to_nat n) (memcpy dst src n) = skipn (Z.to_nat n) dst.
Proof.
  unfold memcpy, size_of. intros H0 Hs Hd.
  assert (Hlen : List.length (firstn (Z.to_nat n) src) = Z.to_nat n)
    by (rewrite length_firstn; lia).
  split; [|split].
  - rewrite length_app, Hlen, length_skipn. lia.
  - rewrite firstn_app, Hlen, Nat.sub_diag, firstn_O, app_nil_r.
    now rewrite firstn_firstn, Nat.min_id.
  - rewrite skipn_app, Hlen, Nat.sub_diag, skipn_O.
    rewrite <- Hlen at 1. now rewrite skipn_all.
Qed.

Lemma to_int_id (z : Z) : INT_MIN <= z <= INT_MAX -> to_int z = z.
Proof.
  unfold INT_MIN, INT_MAX, to_int. intros H.
  rewrite Z.mod_small by lia. lia.
Qed.

Lemma to_int_range (z : Z) : INT_MIN <= to_int z <= INT_MAX.
Proof.
  unfold INT_MIN, INT_MAX, to_int.
  pose proof (Z.mod_pos_bound (z + 2 ^ 31) (2 ^ 32) ltac:(lia)). lia.
Qed.

Lemma int_fits_long (z : Z) : INT_MIN <= z <= INT_MAX -> fits_long z = true.
Proof.
  unfold INT_MIN, INT_MAX, fits_long, LONG_MIN, LONG_MAX. intros H.
  apply andb_true_intro. split; apply Z.leb_le; lia.
Qed.

(** X2.  [apswvfs_xRandomness], for the [nByte] bytes SQLite asks for.  It
    reports between 0 and [nByte] bytes, writes nothing past the bytes it
    reports and keeps the buffer's length.  When the managed method returns
    bytes, the count is their number or [nByte], whichever is less, and that
    many of them are at the start of the buffer: a surplus is ignored.  [None]
    gives 0 bytes without a fault; text, or anything else that is not bytes,
    gives 0 bytes and a type fault for the unraisable hook; a fault the method
    raised goes to the hook as well. *)
Theorem xRandomness_copies_at_most_nByte
    (vfs : sqlite3_vfs) (nByte : Z) (zOut : list byte) (m : PyMethod)
    (out : PyOutcome) (args' : list PyObject) (x' : Ext) (w : World) :
  lookup_method (pAppData vfs) "xRandomness" = Some m ->
  m [PyInt nByte] (ext w) = (out, args', x') ->
  0 <= nByte <= size_of zOut ->
  let r := apswvfs_xRandomness vfs nByte zOut w in
  let result := fst (fst r) in
  let zOut' := snd (fst r) in
  0 <= result <= nByte /\
  List.length zOut' = List.length zOut /\
  skipn (Z.to_nat result) zOut' = skipn (Z.to_nat result) zOut /\
  match out with
  | Returned (PyBytes data) =>
      result = Z.min (size_of data) nByte /\
      firstn (Z.to_nat result) zOut' = firstn (Z.to_nat result) data /\
      unraisable (snd r) = unraisable w
  | Returned Py_None => result = 0 /\ unraisable (snd r) = unraisable w
  | Returned _ =>
      result = 0 /\
      exists e, exc_class e = PyExc_TypeError /\
                unraisable (snd r) = unraisable w ++ [(Some (pAppData vfs), e)]
  | Raised e =>
      result = 0 /\
      unraisable (snd r) =
        unraisable w ++ [(Some (pAppData vfs), add_frame "vfs.xRandomness" e)]
  end.
Proof.
  intros Hl Hc Hn. cbv zeta. unfold_entries. unfold PyObject_AsReadBuffer.
  rewrite Hl. unfold_monad. cbn -[Z.gtb size_of memcpy Z.min]. rewrite Hc.
  destruct out as [o|e]; [destruct o|]; cbn -[Z.gtb size_of memcpy Z.min];
    try (repeat split; try lia;
         try (eexists; split; [|reflexivity]; reflexivity); fail).
  set (n := if size_of data >? nByte then nByte else size_of data).
  assert (Hmin : n = Z.min (size_of data) nByte).
  { unfold n. rewrite Z.gtb_ltb. destruct (Z.ltb_spec nByte (size_of data)); lia. }
  assert (H0 : 0 <= size_of data) by (unfold size_of; lia).
  destruct (memcpy_within zOut data n) as (H1 & H2 & H3); try lia.
  repeat split; try lia; assumption.
Qed.

(** ** xSleep *)

(** X3.  [apswvfs_xSleep] returns the number the managed method returned when it
    is a C [int].  An integer outside that range is not passed on silently:
    the result is cut to 32 bits and an overflow fault goes to the
    unraisable hook.  Anything that is not a number gives 0 and a type fault,
    and a fault the method raised gives 0. *)
Theorem xSleep_outcome
    (vfs : sqlite3_vfs) (microseconds : Z) (m : PyMethod)
    (out : PyOutcome) (args' : list PyObject) (x' : Ext) (w : World) :
  lookup_method (pAppData vfs) "xSleep" = Some m ->
  m [PyInt microseconds] (ext w) = (out, args', x') ->
  let r := apswvfs_xSleep vfs microseconds w in
  INT_MIN <= fst r <= INT_MAX /\
  match out with
  | Returned o =>
      if PyIntLong_Check o
      then if (INT_MIN <=? int_value o) && (int_value o <=? INT_MAX)
           then fst r = int_value o /\ unraisable (snd r) = unraisable w
           else exists e, exc_class e = PyExc_OverflowError /\
                          unraisable (snd r) = unraisable w ++ [(Some (pAppData vfs), e)]
      else fst r = 0 /\
           exists e, exc_class e = PyExc_TypeError /\
                     unraisable (snd r) = unraisable w ++ [(Some (pAppData vfs), e)]
  | Raised e =>
      fst r = 0 /\
      unraisable (snd r) = unraisable w ++ [(Some (pAppData vfs), add_frame "vfs.xSleep" e)]
  end.
Proof.
  intros Hl Hc. cbv zeta. unfold_entries. unfold PyIntLong_AsLong.
  rewrite Hl. unfold_monad. cbn -[fits_long to_int Z.eqb Z.leb INT_MIN INT_MAX].
  rewrite Hc.
  assert (Hzero : INT_MIN <= 0 <= INT_MAX) by (unfold INT_MIN, INT_MAX; lia).
  destruct out as [o|e]; cbn -[fits_long to_int Z.eqb Z.leb INT_MIN INT_MAX int_value PyIntLong_Check];
    [|split; [exact Hzero | split; reflexivity]].
  destruct (PyIntLong_Check o) eqn:Hi;
    cbn -[fits_long to_int Z.eqb Z.leb INT_MIN INT_MAX int_value];
    [|split; [exact Hzero | split; [reflexivity | eexists; split; [|reflexivity]; reflexivity]]].
  set (n := int_value o).
  destruct ((INT_MIN <=? n) && (n <=? INT_MAX)) eqn:Hr.
  - apply andb_prop in Hr as [H1 H2]. apply Z.leb_le in H1, H2.
    rewrite (int_fits_long n) by lia.
    cbn -[to_int Z.eqb INT_MIN INT_MAX]. rewrite (to_int_id n) by lia.
    rewrite Z.eqb_refl. cbn -[INT_MIN INT_MAX]. repeat split; lia.
  - assert (Hout : ~ (INT_MIN <= n <= INT_MAX)).
    { intros [H1 H2]. apply Z.leb_le in H1, H2. rewrite H1, H2 in Hr. discriminate. }
    destruct (fits_long n); cbn -[to_int Z.eqb INT_MIN INT_MAX].
    + assert (Hne : (n =? to_int n) = false).
      { apply Z.eqb_neq. intros Heq. apply Hout. rewrite Heq. apply to_int_range. }
      rewrite Hne. cbn -[to_int INT_MIN INT_MAX].
      split; [apply to_int_range | eexists; split; [|reflexivity]; reflexivity].
    + split; [unfold INT_MIN, INT_MAX; cbn; lia
             | eexists; split; [|reflexivity]; reflexivity].
Qed.

(** ** Error texts *)

Lemma to_size_t_id (n : Z) : 0 <= n <= INT_MAX -> to_size_t n = n.
Proof. unfold to_size_t, INT_MAX. intros H. apply Z.mod_small. lia. Qed.

(** X4.  [apswvfs_xGetLastError] and [apswvfs_xDlError] copy the UTF-8 bytes of
    the text the managed method returned to the start of the caller's
    buffer, at most [nByte] of them, and write no terminator: the rest of the
    buffer is as the caller left it.  [apswvfs_xGetLastError] returns 1
    exactly when the text was cut.  When the method returns [None] nothing is
    written and nothing reported; when it raises, as the method a VFS
    inherits does without a base, nothing is written, [apswvfs_xGetLastError]
    returns 0 and the fault goes to the unraisable hook of the VFS. *)
Theorem error_text_is_truncated
    (vfs : sqlite3_vfs) (nByte : Z) (zErrMsg u : list byte) (w : World) :
  0 <= nByte <= INT_MAX ->
  let n := Z.min (size_of u) nByte in
  let copied := firstn (Z.to_nat n) u ++ skipn (Z.to_nat n) zErrMsg in
  (forall m args' x',
     lookup_method (pAppData vfs) "xGetLastError" = Some m ->
     m [] (ext w) = (Returned (PyUnicode u), args', x') ->
     let r := apswvfs_xGetLastError vfs nByte zErrMsg w in
     fst r = (if nByte <? size_of u then 1 else 0, copied) /\
     unraisable (snd r) = unraisable w) /\
  (forall m args' x',
     lookup_method (pAppData vfs) "xDlError" = Some m ->
     m [] (ext w) = (Returned (PyUnicode u), args', x') ->
     let r := apswvfs_xDlError vfs nByte zErrMsg w in
     fst r = copied /\ unraisable (snd r) = unraisable w) /\
  (forall m out args' x',
     lookup_method (pAppData vfs) "xGetLastError" = Some m ->
     m [] (ext w) = (out, args', x') ->
     let r := apswvfs_xGetLastError vfs nByte zErrMsg w in
     match out with
     | Returned Py_None => fst r = (0, zErrMsg) /\ unraisable (snd r) = unraisable w
     | Raised e =>
         fst r = (0, zErrMsg) /\
         unraisable (snd r) =
           unraisable w ++ [(Some (pAppData vfs), add_frame "vfs.xGetLastError" e)]
     | Returned _ => True
     end) /\
  (forall m out args' x',
     lookup_method (pAppData vfs) "xDlError" = Some m ->
     m [] (ext w) = (out, args', x') ->
     let r := apswvfs_xDlError vfs nByte zErrMsg w in
     match out with
     | Returned Py_None => fst r = zErrMsg /\ unraisable (snd r) = unraisable w
     | Raised e =>
         fst r = zErrMsg /\
         unraisable (snd r) =
           unraisable w ++ [(Some (pAppData vfs), add_frame "vfs.xDlError" e)]
     | Returned _ => True
     end).
Proof.
  intros Hn. cbv zeta.
  assert (Hmin : (if size_of u >? nByte then nByte else size_of u) = Z.min (size_of u) nByte).
  { rewrite Z.gtb_ltb. destruct (Z.ltb_spec nByte (size_of u)); lia. }
  split; [|split; [|split]].
  - intros m args' x' Hl Hc. unfold_entries. unfold getutf8string.
    rewrite Hl. unfold_monad. cbn -[Z.gtb size_of memcpy Z.min to_size_t]. rewrite Hc.
    cbn -[Z.gtb size_of memcpy Z.min to_size_t]. rewrite (to_size_t_id nByte Hn).
    rewrite Z.gtb_ltb.
    destruct (Z.ltb_spec nByte (size_of u)); cbn -[size_of memcpy Z.min];
      (split; [|reflexivity]); unfold memcpy; f_equal; f_equal; f_equal; lia.
  - intros m args' x' Hl Hc. unfold_entries. unfold getutf8string.
    rewrite Hl. unfold_monad. cbn -[Z.gtb size_of memcpy Z.min to_size_t]. rewrite Hc.
    cbn -[Z.gtb size_of memcpy Z.min to_size_t]. rewrite (to_size_t_id nByte Hn), Hmin.
    split; reflexivity.
  - intros m out args' x' Hl Hc. unfold_entries.
    rewrite Hl. unfold_monad. cbn -[Z.gtb size_of memcpy Z.min to_size_t]. rewrite Hc.
    destruct out as [[]|e]; cbn; try exact I; split; reflexivity.
  - intros m out args' x' Hl Hc. unfold_entries.
    rewrite Hl. unfold_monad. cbn -[Z.gtb size_of memcpy Z.min to_size_t]. rewrite Hc.
    destruct out as [[]|e]; cbn; try exact I; split; reflexivity.
Qed.

(** ** xCurrentTime *)

(** X5.  [apswvfs_xCurrentTime] returns 0 or 1, and 1 exactly when a fault went
    to the unraisable hook.  When the managed method raises, the caller's
    [julian] is not written. *)
Theorem xCurrentTime_outcome (vfs : sqlite3_vfs) (julian : double) (w : World) :
  let r := apswvfs_xCurrentTime vfs julian w in
  let result := fst (fst r) in
  ((result = 0 /\ unraisable (snd r) = unraisable w) \/
   (result = 1 /\
    exists e, unraisable (snd r) = unraisable w ++ [(Some (pAppData vfs), e)])) /\
  (forall m e args' x',
     lookup_method (pAppData vfs) "xCurrentTime" = Some m ->
     m [] (ext w) = (Raised e, args', x') ->
     fst r = (1, julian)) /\
  (forall m o args' x',
     lookup_method (pAppData vfs) "xCurrentTime" = Some m ->
     m [] (ext w) = (Returned o, args', x') ->
     snd (fst r) = fst (PyFloat_AsDouble o) /\
     (snd (PyFloat_AsDouble o) = None -> result = 0)).
Proof.
  cbv zeta. unfold_entries.
  destruct (lookup_method (pAppData vfs) "xCurrentTime") as [m|] eqn:Hl; unfold_monad; cbn.
  - destruct (m [] (ext w)) as [[[o|e] a] x] eqn:Hc; cbn.
    + destruct (PyFloat_AsDouble o) as [d [e|]] eqn:Hf; cbn;
        (split; [|split]);
        try (intros m0 e0 a0 x0 [= <-] Hc0; rewrite Hc in Hc0; discriminate);
        try (intros m0 o0 a0 x0 [= <-] Hc0; rewrite Hc in Hc0; injection Hc0 as <- <- <-;
             rewrite Hf; split; [reflexivity | cbn; congruence]).
      * right. split; [reflexivity | eexists; reflexivity].
      * left. split; reflexivity.
    + split; [|split].
      * right. split; [reflexivity | eexists; reflexivity].
      * intros m0 e0 a0 x0 [= <-] Hc0. reflexivity.
      * intros m0 o0 a0 x0 [= <-] Hc0. rewrite Hc in Hc0. discriminate.
  - split; [|split].
    + right. split; [reflexivity | eexists; reflexivity].
    + intros m0 e0 a0 x0 [=].
    + intros m0 o0 a0 x0 [=].
Qed.

(** ** xDlOpen and xDlSym *)

(** X6.  [apswvfs_xDlOpen] and [apswvfs_xDlSym] return an address of 64 bits.
    Whenever a fault occurs (the name is not UTF-8, the method is missing,
    raises, returns something that is not an integer, or an integer no
    pointer holds) the result is NULL and the fault goes to the unraisable
    hook; an integer from -2^63 up to 2^64-1 is passed on modulo 2^64 without
    a fault.  For a name that is not UTF-8 nothing is called. *)
Theorem dl_pointer_outcome
    (vfs : sqlite3_vfs) (handle : Z) (zName : option (list byte)) (w : World) :
  let outcome (name : string) (args : option (list PyObject)) (r : Z * World) :=
    0 <= fst r < 2 ^ 64 /\
    (unraisable (snd r) = unraisable w \/
     (fst r = 0 /\
      exists e, unraisable (snd r) = unraisable w ++ [(Some (pAppData vfs), e)])) /\
    (forall a m n args' x',
       args = Some a ->
       lookup_method (pAppData vfs) name = Some m ->
       m a (ext w) = (Returned (PyInt n), args', x') ->
       - 2 ^ 63 <= n < 2 ^ 64 ->
       fst r = n mod 2 ^ 64 /\ unraisable (snd r) = unraisable w) /\
    (args = None ->
     fst r = 0 /\ log (snd r) = log w /\
     exists e, exc_class e = PyExc_UnicodeDecodeError /\
               unraisable (snd r) = unraisable w ++ [(Some (pAppData vfs), e)]) in
  outcome "xDlOpen" (option_map (fun text => [text]) (utf8_text zName))
    (apswvfs_xDlOpen vfs zName w) /\
  outcome "xDlSym" (option_map (fun text => [PyInt handle; text]) (utf8_text zName))
    (apswvfs_xDlSym vfs handle zName w).
Proof.
  cbv zeta.
  assert (Hptr : forall n, - 2 ^ 63 <= n < 2 ^ 64 ->
                           ((LONG_MIN <=? n) && (n <? 2 ^ 64))%bool = true).
  { intros n Hn. apply andb_true_intro. unfold LONG_MIN.
    split; [apply Z.leb_le | apply Z.ltb_lt]; lia. }
  assert (Hmod : forall n, 0 <= n mod 2 ^ 64 < 2 ^ 64)
    by (intros n; apply Z.mod_pos_bound; lia).
  destruct (utf8_text zName) as [text|] eqn:Hname; cbn [option_map].
  2: { split; unfold_entries; rewrite Hname; unfold_monad; cbn;
         (split; [lia|]; split; [right; split; [reflexivity | eexists; reflexivity]|];
          split; [intros a m n args' x' [=]|];
          intros _; repeat split; eexists; split; [|reflexivity]; reflexivity). }
  split; unfold_entries; rewrite Hname; unfold PyLong_AsVoidPtr;
    match goal with |- context [lookup_method ?o ?s] =>
      destruct (lookup_method o s) as [m|] eqn:Hl end;
    unfold_monad; cbn -[Z.leb Z.ltb Z.pow Z.modulo LONG_MIN];
    try (split; [lia | split; [right; split; [reflexivity | eexists; reflexivity]
                              | split; [intros a1 m0 n0 a0 x0 _ [=] | discriminate]]]).
  all: match goal with meth : PyMethod |- context [?f ?args (ext ?w0)] =>
         constr_eq f meth;
         destruct (meth args (ext w0)) as [[[o|e] a] x] eqn:Hc end;
       cbn -[Z.leb Z.ltb Z.pow Z.modulo LONG_MIN];
       try (split; [lia | split; [right; split; [reflexivity | eexists; reflexivity]
                                 | split; [|discriminate];
                                   intros a1 m0 n0 a0 x0 [= <-] [= <-] Hc0;
                                   rewrite Hc in Hc0; discriminate]]).
  all: destruct o as [|b|n| | | | |]; cbn -[Z.leb Z.ltb Z.pow Z.modulo LONG_MIN];
       try (split; [lia | split; [right; split; [reflexivity | eexists; reflexivity]
                                 | split; [|discriminate];
                                   intros a1 m0 n0 a0 x0 [= <-] [= <-] Hc0;
                                   rewrite Hc in Hc0; discriminate]]).
  all: try (destruct b; cbn;
            (split; [lia | split; [left; reflexivity
                                  | split; [|discriminate];
                                    intros a1 m0 n0 a0 x0 [= <-] [= <-] Hc0;
                                    rewrite Hc in Hc0; discriminate]])).
  all: destruct ((LONG_MIN <=? n) && (n <? 2 ^ 64))%bool eqn:Hr;
       cbn -[Z.leb Z.ltb Z.pow Z.modulo LONG_MIN];
       (split; [first [apply Hmod | lia] | split]);
       try (left; reflexivity);
       try (right; split; [reflexivity | eexists; reflexivity]);
       (split; [|discriminate]);
       intros a1 m0 n0 a0 x0 [= <-] [= <-] Hc0; rewrite Hc in Hc0;
       injection Hc0 as <- <- <-;
       intros Hn; rewrite (Hptr n Hn) in Hr; try discriminate;
       split; reflexivity.
Qed.

(** ** xOpen *)


(** ** One managed call for each native call *)






(** ** Entry points that return a status *)



(** ** Whose hook a fault goes to *)


(** ** Out-parameters of a file *)

(** X11.  [apswvfsfile_xFileSize] and [apswvfsfile_xCheckReservedLock] write
    their out-parameter only from an integer the managed method returned: the
    size as it is, any 64-bit value, and the lock state as 0 or 1.  When the
    method raises or returns something that is not a number the out-parameter
    keeps the caller's value (xCheckReservedLock does not reset it to 0 as
    xAccess does) and the fault's code is returned.  An integer no C long
    holds is an overflow fault with the generic error code; the out-parameter
    has by then been written with the -1 of the failed conversion, read as a
    size or as a truth value. *)
Theorem file_out_parameter_outcome (file : PyObject) (given : Z) (w : World) :
  let outcome (name : string) (conv : Z -> Z) (r : Z * Z * World) :=
    forall m out args' x',
      lookup_method file name = Some m ->
      m [] (ext w) = (out, args', x') ->
      match out with
      | Returned o =>
          if PyIntLong_Check o
          then if fits_long (int_value o)
               then fst r = (SQLITE_OK, conv (int_value o)) /\
                    unraisable (snd r) = unraisable w
               else fst r = (SQLITE_ERROR, conv (-1)) /\
                    exists e, exc_class e = PyExc_OverflowError /\
                              unraisable (snd r) = unraisable w ++ [(Some file, e)]
          else fst r = (SQLITE_ERROR, given) /\
               exists e, exc_class e = PyExc_TypeError /\
                         unraisable (snd r) = unraisable w ++ [(Some file, e)]
      | Raised e =>
          fst r = (exc_code e, given) /\
          exists frame,
            unraisable (snd r) = unraisable w ++ [(Some file, add_frame frame e)]
      end in
  outcome "xFileSize" (fun n => n) (apswvfsfile_xFileSize file given w) /\
  outcome "xCheckReservedLock" notnot (apswvfsfile_xCheckReservedLock file given w) /\
  (forall n, notnot n = 0 \/ notnot n = 1) /\ notnot (-1) = 1.
Proof.
  cbv zeta. split; [|split; [|split; [apply notnot_0_or_1 | reflexivity]]];
    intros m out args' x' Hl Hc; unfold_entries;
    unfold PyLong_AsLongLong, PyIntLong_AsLong; rewrite Hl; unfold_monad;
    cbn -[PyIntLong_Check fits_long int_value notnot]; rewrite Hc;
    (destruct out as [o|e]; cbn -[PyIntLong_Check fits_long int_value notnot];
     [ destruct (PyIntLong_Check o); cbn -[fits_long int_value notnot];
       [ destruct (fits_long (int_value o)); cbn -[int_value notnot];
         [ split; reflexivity
         | split; [reflexivity | eexists; split; [|reflexivity]; reflexivity] ]
       | split; [reflexivity | eexists; split; [|reflexivity]; reflexivity] ]
     | split; [reflexivity | eexists; reflexivity] ]).
Qed.

(** ** Output buffers *)

(** X12.  [apswvfsfile_xRead] and [apswvfs_xFullPathname] write to the caller's
    buffer only when no fault occurs.  Whenever a fault is reported the
    buffer is as the caller left it and the result is not SQLITE_OK; without
    a fault xFullPathname returns SQLITE_OK and xRead SQLITE_OK or
    SQLITE_IOERR_SHORT_READ.  A managed xRead that returns text, which is not
    a buffer, is such a fault, with the generic error code. *)
Theorem faults_leave_buffer
    (vfs : sqlite3_vfs) (file : PyObject) (zName : option (list byte))
    (buf : list byte) (amount offset nOut : Z) (w : World) :
  (let r := apswvfsfile_xRead file buf amount offset w in
   ((fst (fst r) = SQLITE_OK \/ fst (fst r) = SQLITE_IOERR_SHORT_READ) /\
    unraisable (snd r) = unraisable w) \/
   (fst (fst r) <> SQLITE_OK /\ snd (fst r) = buf /\
    exists e, fst (fst r) = exc_code e /\
              unraisable (snd r) = unraisable w ++ [(Some file, e)])) /\
  (let r := apswvfs_xFullPathname vfs zName nOut buf w in
   (fst (fst r) = SQLITE_OK /\ unraisable (snd r) = unraisable w) \/
   (fst (fst r) <> SQLITE_OK /\ snd (fst r) = buf /\
    exists e, fst (fst r) = exc_code e /\
              unraisable (snd r) = unraisable w ++ [(Some (pAppData vfs), e)])) /\
  (forall m u args' x',
     lookup_method file "xRead" = Some m ->
     m [PyInt amount; PyInt offset] (ext w) = (Returned (PyUnicode u), args', x') ->
     fst (apswvfsfile_xRead file buf amount offset w) = (SQLITE_ERROR, buf)).
Proof.
  cbv zeta. split; [|split].
  - unfold_entries. unfold PyObject_AsReadBuffer.
    destruct (lookup_method file "xRead") as [m|] eqn:Hl; unfold_monad;
      cbn -[Z.ltb size_of memcpy memset SQLITE_IOERR_SHORT_READ];
      [|right; split; [discriminate | split; [reflexivity | eexists; split; [|reflexivity]; reflexivity]]].
    destruct (m [PyInt amount; PyInt offset] (ext w)) as [[[o|e] a] x] eqn:Hc;
      cbn -[Z.ltb size_of memcpy memset SQLITE_IOERR_SHORT_READ];
      [|right; split; [apply exc_code_not_ok
                      | split; [reflexivity | eexists; split; [|reflexivity]; reflexivity]]].
    destruct o; cbn -[Z.ltb size_of memcpy memset SQLITE_IOERR_SHORT_READ];
      try (right; split; [discriminate | split; [reflexivity | eexists; split; [|reflexivity]; reflexivity]]).
    destruct (size_of data <? amount); cbn -[size_of memcpy memset SQLITE_IOERR_SHORT_READ];
      left; split; auto.
  - unfold_entries. unfold getutf8string, SET_EXC.
    destruct (utf8_text zName) as [name|] eqn:Hname; unfold_monad;
      cbn -[Z.gtb size_of memcpy];
      [|right; split; [discriminate | split; [reflexivity | eexists; split; [|reflexivity]; reflexivity]]].
    destruct (lookup_method (pAppData vfs) "xFullPathname") as [m|] eqn:Hl; unfold_monad;
      cbn -[Z.gtb size_of memcpy];
      [|right; split; [discriminate | split; [reflexivity | eexists; split; [|reflexivity]; reflexivity]]].
    destruct (m [name] (ext w)) as [[[o|e] a] x] eqn:Hc;
      cbn -[Z.gtb size_of memcpy];
      [|right; split; [apply exc_code_not_ok
                      | split; [reflexivity | eexists; split; [|reflexivity]; reflexivity]]].
    destruct o; cbn -[Z.gtb size_of memcpy];
      try (right; split; [discriminate | split; [reflexivity | eexists; split; [|reflexivity]; reflexivity]]).
    destruct (size_of utf8 + 1 >? nOut); cbn -[size_of memcpy].
    + right. split; [discriminate | split; [reflexivity | eexists; split; [|reflexivity]; reflexivity]].
    + left. split; reflexivity.
  - intros m u args' x' Hl Hc. unfold_entries. rewrite Hl. unfold_monad. cbn.
    rewrite Hc. reflexivity.
Qed.

(** ** The end of a file object *)

(** X13.  [APSWVFSFile_dealloc] on a file that is still open closes it: the
    base's xClose is called once and the block is freed once.  A close that
    fails cannot raise from a destructor: the fault of its code goes to the
    interpreter's unraisable hook with the destructor's frame, after anything
    the base's close reported itself.  The object ends without a base, the
    fault that was pending before is pending again, and a file that was
    already closed leaves the world as it was. *)
Theorem file_dealloc_closes (self : APSWVFSFile) (w : World) :
  let r := APSWVFSFile_dealloc self w in
  base (fst r) = None /\
  pending (snd r) = pending w /\
  match base self with
  | None => snd r = w
  | Some b =>
      let closed := base_xClose b (snd (emit (EvNative b "xClose") (set_pending None w))) in
      let res := fst (fst closed) in
      closes (log (snd r)) = (closes (log w) + 1)%nat /\
      frees (log (snd r)) = (frees (log w) + 1)%nat /\
      ext (snd r) = ext (snd closed) /\
      unraisable (snd r) =
        unraisable (snd closed) ++
        (if res =? SQLITE_OK then []
         else [(None, add_frame "APSWVFS File destructor" (exception_for res))])
  end.
Proof.
  cbv zeta. split; [|split; [apply APSWVFSFile_dealloc_restores_pending|]].
  - unfold APSWVFSFile_dealloc. destruct (base self) as [b|] eqn:Hb.
    + unfold apswvfsfilepy_xClose. rewrite Hb. unfold_monad. unfold call, PyMem_Free, SET_EXC.
      unfold_monad. cbn [fst snd].
      match goal with |- context [base_xClose b ?w0] =>
        destruct (base_xClose b w0) as [[res b'] w1] end.
      destruct w1 as [p1 u1 v1 l1 x1]. cbn.
      destruct (res =? SQLITE_OK), p1; reflexivity.
    + unfold_monad. cbn. exact Hb.
  - unfold APSWVFSFile_dealloc. destruct (base self) as [b|] eqn:Hb.
    + unfold apswvfsfilepy_xClose. rewrite Hb. unfold call, PyMem_Free, SET_EXC.
      unfold_monad. cbn [fst snd].
      set (w0 := set_log (log (set_pending None w) ++ [EvNative b "xClose"])
                   (set_pending None w)).
      pose proof (base_xClose_pending b w0) as Hp.
      destruct (base_xClose_log b w0) as (_ & inner & Hlog & Hpy & _).
      destruct (python_calls_free_nothing inner Hpy) as [Hf Hc].
      destruct (base_xClose b w0) as [[res b'] w1]. cbn [fst snd] in *.
      assert (Hnone : pending w1 = None) by (rewrite Hp; reflexivity).
      assert (Hlog1 : log w1 = log w ++ [EvNative b "xClose"] ++ inner)
        by (rewrite Hlog; unfold w0; cbn; now rewrite <- app_assoc).
      destruct (res =? SQLITE_OK) eqn:Hres; cbn -[closes frees]; rewrite Hnone;
        cbn -[closes frees]; rewrite Hlog1, ?app_nil_r;
        (split; [rewrite !closes_app, Hc; unfold closes; simpl; lia|]);
        (split; [rewrite !frees_app, Hf; unfold frees; simpl; lia|]);
        split; reflexivity.
    + unfold_monad. cbn. destruct w; reflexivity.
Qed.

(** ** The end of a VFS object *)







(** ** What construction registers *)


(** ** Methods the base does not have *)

Ltac unfold_py :=
  unfold apswvfsfilepy_xRead, apswvfsfilepy_xUnlock, apswvfsfilepy_xLock,
    apswvfsfilepy_xSectorSize, apswvfsfilepy_xFileSize,
    apswvfsfilepy_xDeviceCharacteristics, apswvfsfilepy_xCheckReservedLock,
    apswvfsfilepy_xWrite, apswvfsfilepy_xSync, apswvfsfilepy_xTruncate,
    apswvfsfilepy_xFileControl.

Ltac unfold_base :=
  unfold base_xRead, base_xWrite, base_xTruncate, base_xSync, base_xFileSize,
    base_xLock, base_xUnlock, base_xCheckReservedLock, base_xFileControl,
    base_xSectorSize, base_xDeviceCharacteristics, resolve.

(** X16.  On an open handle whose base is a native file that leaves a slot of its
    table null, the method for that slot returns NULL with the
    not-implemented fault, which names the method, before it looks at its
    arguments: nothing is forwarded and nothing else changes. *)
Theorem missing_slot_is_not_implemented
    (meth : FileMethod) (self : APSWVFSFile) (b : sqlite3_file)
    (m : sqlite3_io_methods) (w : World) :
  base self = Some b ->
  pMethods b = Some (native_io_methods m) ->
  slot_missing meth m = true ->
  APSWVFSFile_methods meth self w =
    (None, set_pending (Some (VFSNotImplemented_file (method_name meth))) w) /\
  exc_class (VFSNotImplemented_file (method_name meth)) = ExcVFSNotImplemented /\
  log (snd (APSWVFSFile_methods meth self w)) = log w /\
  ext (snd (APSWVFSFile_methods meth self w)) = ext w.
Proof.
  intros Hb Hm Hslot.
  assert (H : APSWVFSFile_methods meth self w =
              (None, set_pending (Some (VFSNotImplemented_file (method_name meth))) w)).
  { destruct meth; cbn [APSWVFSFile_methods slot_missing method_name] in *; unfold_py;
      rewrite Hb; unfold_base; rewrite Hm;
      match goal with
      | H : is_null ?s = true |- _ => destruct s; [discriminate H|]
      end; reflexivity. }
  rewrite H. repeat split.
Qed.

(** ** NULL means a fault *)

Lemma base_pending (b : sqlite3_file) :
  (forall f buf amount offset w,
     base_xRead b = Some f -> pending (snd (f buf amount offset w)) = pending w) /\
  (forall f buf amount offset w,
     base_xWrite b = Some f -> pending (snd (f buf amount offset w)) = pending w) /\
  (forall f size w, base_xTruncate b = Some f -> pending (snd (f size w)) = pending w) /\
  (forall f flags w, base_xSync b = Some f -> pending (snd (f flags w)) = pending w) /\
  (forall f size w, base_xFileSize b = Some f -> pending (snd (f size w)) = pending w) /\
  (forall f flag w, base_xLock b = Some f -> pending (snd (f flag w)) = pending w) /\
  (forall f flag w, base_xUnlock b = Some f -> pending (snd (f flag w)) = pending w) /\
  (forall f out w,
     base_xCheckReservedLock b = Some f -> pending (snd (f out w)) = pending w) /\
  (forall f op arg w,
     base_xFileControl b = Some f -> pending (snd (f op arg w)) = pending w) /\
  (forall f w, base_xSectorSize b = Some f -> pending (snd (f w)) = pending w) /\
  (forall f w, base_xDeviceCharacteristics b = Some f -> pending (snd (f w)) = pending w).
Proof.
  unfold_base.
  destruct (pMethods b) as [[|m]|]; [destruct (file b) as [o|]| |]; cbn [option_map];
    repeat split; intros; try discriminate;
    try (match goal with H : Some _ = Some _ |- _ => injection H as <- end;
         unfold_entries; apply file_guard_restores);
    match goal with
    | H : option_map _ ?s = Some _ |- _ =>
        destruct s; cbn [option_map] in H; [injection H as <- | discriminate H]
    end; apply outside_pending.
Qed.

Lemma parse_integer_parses (lo hi : Z) (o : PyObject) : parses (parse_integer lo hi o).
Proof.
  intros w. unfold parse_integer. unfold_monad.
  destruct (PyIntLong_Check o); [|right; eexists; reflexivity].
  destruct ((lo <=? int_value o) && (int_value o <=? hi));
    [left | right]; eexists; reflexivity.
Qed.

Lemma PyArg_ParseTuple_parses (args : list PyObject) :
  parses (PyArg_ParseTuple_i args) /\ parses (PyArg_ParseTuple_L args) /\
  parses (PyArg_ParseTuple_iL args) /\ parses (PyArg_ParseTuple_OL args) /\
  parses (PyArg_ParseTuple_iO args).
Proof.
  assert (Hw : forall A, parses (wrong_arity ;; ret (@None A)))
    by (intros A w; right; eexists; reflexivity).
  unfold PyArg_ParseTuple_i, PyArg_ParseTuple_L, PyArg_ParseTuple_iL,
    PyArg_ParseTuple_OL, PyArg_ParseTuple_iO, parse_int, parse_longlong.
  destruct args as [|a [|b [|c rest]]]; repeat split; try apply Hw;
    try apply parse_integer_parses; intros w; unfold bind, ret.
  - destruct (parse_integer_parses INT_MIN INT_MAX a w) as [[i ->] | [e ->]];
      [|right; eexists; reflexivity].
    destruct (parse_integer_parses LONG_MIN LONG_MAX b w) as [[l ->] | [e ->]];
      [left | right]; eexists; reflexivity.
  - destruct (parse_integer_parses LONG_MIN LONG_MAX b w) as [[l ->] | [e ->]];
      [left | right]; eexists; reflexivity.
  - destruct (parse_integer_parses INT_MIN INT_MAX a w) as [[i ->] | [e ->]];
      [left | right]; eexists; reflexivity.
Qed.

Lemma SET_EXC_raises (res : Z) (w : World) :
  pending w = None -> res <> SQLITE_OK ->
  SET_EXC res w = (tt, set_pending (Some (exception_for res)) w).
Proof.
  intros Hp Hne. unfold SET_EXC. unfold_monad. rewrite Hp.
  apply Z.eqb_neq in Hne. rewrite Hne. reflexivity.
Qed.

(** The tail every forwarding method ends with: success is a value and
    nothing pending, any other status NULL and the fault of that status. *)
Lemma status_tail (res : Z) (v : PyObject) (w : World) :
  pending w = None ->
  let r := (if res =? SQLITE_OK then ret (Some v)
            else SET_EXC res ;; ret None) w in
  (res = SQLITE_OK -> r = (Some v, w)) /\
  (res <> SQLITE_OK -> r = (None, set_pending (Some (exception_for res)) w)).
Proof.
  intros Hp. cbv zeta. split; intros H.
  - subst res. reflexivity.
  - apply Z.eqb_neq in H as Hb. rewrite Hb. unfold bind, ret.
    now rewrite SET_EXC_raises.
Qed.

Lemma forward_status {X} (P : M (option X)) (b : sqlite3_file) (name : string)
    (f : X -> M Z) (v : PyObject) (w : World) :
  parses P ->
  (forall x w0, pending (snd (f x w0)) = pending w0) ->
  pending w = None ->
  null_iff_fault
    ((parsed <- P ;;
      match parsed with
      | None => ret None
      | Some x =>
          res <- call b name (f x) ;;
          if res =? SQLITE_OK then ret (Some v) else SET_EXC res ;; ret None
      end) w).
Proof.
  intros HP Hf Hp. unfold null_iff_fault.
  match goal with |- fst ?t = None <-> _ => remember t as r eqn:Hr end.
  unfold bind at 1 in Hr.
  destruct (HP w) as [[x Hx] | [e He]]; [rewrite Hx in Hr | rewrite He in Hr].
  - unfold call, bind at 1, emit in Hr. unfold bind at 1 in Hr.
    set (w0 := set_log (log w ++ [EvNative b name]) w) in *.
    pose proof (Hf x w0) as Hp1.
    destruct (f x w0) as [res w1]. cbn [snd] in Hp1.
    assert (Hnone : pending w1 = None) by (rewrite Hp1; exact Hp).
    destruct (status_tail res v w1 Hnone) as [Hok Hbad]. cbv zeta in *.
    destruct (Z.eq_dec res SQLITE_OK) as [Heq|Hne].
    + rewrite (Hok Heq) in Hr. subst r. cbn. rewrite Hnone.
      split; [discriminate | congruence].
    + rewrite (Hbad Hne) in Hr. subst r. cbn. split; [discriminate | reflexivity].
  - subst r. cbn. split; [discriminate | reflexivity].
Qed.

Lemma null_iff_fault_bind {A B} (c : M A) (k : A -> M (option B)) (w : World) (P : A -> World -> Prop) :
  P (fst (c w)) (snd (c w)) ->
  (forall a w1, P a w1 -> null_iff_fault (k a w1)) ->
  null_iff_fault ((x <- c ;; k x) w).
Proof.
  intros Hc Hk. unfold bind. destruct (c w) as [a w1]. now apply Hk.
Qed.

Lemma after_parse {X B} (P : M (option X)) (k : X -> M (option B)) (w : World) :
  parses P ->
  (forall x, null_iff_fault (k x w)) ->
  null_iff_fault ((parsed <- P ;;
                   match parsed with None => ret None | Some x => k x end) w).
Proof.
  intros HP Hk. unfold bind at 1.
  destruct (HP w) as [[x ->] | [e ->]]; [apply Hk|].
  split; [discriminate | reflexivity].
Qed.

Lemma after_call {R B} (b : sqlite3_file) (name : string) (g : M R)
    (k : R -> M (option B)) (w : World) :
  (forall w0, pending (snd (g w0)) = pending w0) ->
  pending w = None ->
  (forall r w1, pending w1 = None -> null_iff_fault (k r w1)) ->
  null_iff_fault ((x <- call b name g ;; k x) w).
Proof.
  intros Hg Hp Hk. apply (null_iff_fault_bind _ _ _ (fun _ w1 => pending w1 = None)).
  - unfold call, bind, emit.
    set (w0 := set_log (log w ++ [EvNative b name]) w).
    pose proof (Hg w0) as H. destruct (g w0) as [r w1]. cbn [snd] in *.
    rewrite H. exact Hp.
  - exact Hk.
Qed.

Lemma status_tail_null (res : Z) (v : PyObject) (w : World) :
  pending w = None ->
  null_iff_fault ((if res =? SQLITE_OK then ret (Some v)
                   else SET_EXC res ;; ret None) w).
Proof.
  intros Hp. destruct (status_tail res v w Hp) as [Hok Hbad]. cbv zeta in *.
  unfold null_iff_fault.
  destruct (Z.eq_dec res SQLITE_OK) as [Heq|Hne].
  - rewrite (Hok Heq). cbn. rewrite Hp. split; [discriminate | congruence].
  - rewrite (Hbad Hne). cbn. split; [discriminate | reflexivity].
Qed.

Lemma returned_null (v : PyObject) (w : World) :
  pending w = None -> null_iff_fault (ret (Some v) w).
Proof. intros Hp. unfold null_iff_fault, ret. cbn. rewrite Hp. split; [discriminate | congruence]. Qed.

Lemma failed_null (res : Z) (w : World) :
  pending w = None -> res <> SQLITE_OK ->
  null_iff_fault ((SET_EXC res ;; ret (@None PyObject)) w).
Proof.
  intros Hp Hne. unfold bind, ret. rewrite SET_EXC_raises by assumption.
  split; [discriminate | reflexivity].
Qed.

(** X17.  With no fault pending when it is called, every method of a [VFSFile],
    xClose included, keeps CPython's convention: it returns NULL exactly when
    it leaves a fault pending.  This holds whatever the arguments are,
    whether the handle is open or closed, and whatever the base does. *)
Theorem returns_null_iff_fault (self : APSWVFSFile) (w : World) :
  pending w = None ->
  (forall meth, null_iff_fault (APSWVFSFile_methods meth self w)) /\
  (let r := apswvfsfilepy_xClose self w in
   fst (fst r) = None <-> pending (snd r) <> None).
Proof.
  intros Hp. split.
  - intros meth.
    assert (Hclosed : base self = None ->
                      null_iff_fault (APSWVFSFile_methods meth self w)).
    { intros Hb. destruct meth; cbn [APSWVFSFile_methods]; unfold_py; rewrite Hb;
        cbn; (split; [discriminate | reflexivity]). }
    destruct (base self) as [b|] eqn:Hb; [clear Hclosed | now apply Hclosed].
    destruct (base_pending b)
      as (HRead & HWrite & HTruncate & HSync & HFileSize & HLock & HUnlock &
          HCheck & HControl & HSector & HDevice).
    destruct meth; cbn [APSWVFSFile_methods]; unfold_py; rewrite Hb.
    all: try destruct (PyArg_ParseTuple_parses args) as (Hi & HL & HiL & HOL & HiO).
    all: match goal with
         | |- context [match ?s with Some _ => _ | None => _ end] =>
             destruct s as [f|] eqn:Hf;
             [|cbn; split; [discriminate | reflexivity]]
         end.
    all: try (apply forward_status; auto; fail).
    + (* xRead *)
      apply after_parse; [exact HiL|]. intros [amount offset].
      unfold PyBytes_FromStringAndSize.
      destruct (amount <? 0); [split; [discriminate | reflexivity]|].
      unfold bind at 1, ret at 1.
      apply after_call; [intros w0; now apply HRead | exact Hp|].
      intros [res buffy] w1 Hp1.
      destruct (Z.eq_dec res SQLITE_OK) as [Heq|Hne].
      * subst res. now apply returned_null.
      * apply Z.eqb_neq in Hne as Hn. rewrite Hn.
        destruct (res =? SQLITE_IOERR_SHORT_READ);
          [now apply returned_null | now apply failed_null].
    + (* xSectorSize *)
      apply after_call; [intros w0; now apply HSector | exact Hp|].
      intros res w1 Hp1. now apply returned_null.
    + (* xFileSize *)
      apply after_call; [intros w0; now apply HFileSize | exact Hp|].
      intros [res sz] w1 Hp1.
      destruct (Z.eq_dec res SQLITE_OK) as [Heq|Hne].
      * subst res. now apply returned_null.
      * apply Z.eqb_neq in Hne as Hn. rewrite Hn. now apply failed_null.
    + (* xDeviceCharacteristics *)
      apply after_call; [intros w0; now apply HDevice | exact Hp|].
      intros res w1 Hp1. now apply returned_null.
    + (* xCheckReservedLock *)
      apply after_call; [intros w0; now apply HCheck | exact Hp|].
      intros [res locked] w1 Hp1.
      destruct (Z.eq_dec res SQLITE_OK) as [Heq|Hne].
      * subst res. cbn [Z.eqb SQLITE_OK negb].
        destruct (negb (locked =? 0)); now apply returned_null.
      * apply Z.eqb_neq in Hne as Hn. rewrite Hn. now apply failed_null.
    + (* xWrite *)
      apply after_parse; [exact HOL|]. intros [buffy offset].
      unfold PyObject_AsReadBuffer.
      destruct buffy; try (split; [discriminate | reflexivity]).
      unfold bind at 1, ret at 1.
      apply after_call; [intros w0; now apply HWrite | exact Hp|].
      intros res w1 Hp1. now apply status_tail_null.
    + (* xFileControl *)
      apply after_parse; [exact HiO|]. intros [op pyptr].
      unfold PyLong_AsVoidPtr.
      destruct (PyIntLong_Check pyptr);
        [destruct ((LONG_MIN <=? int_value pyptr) && (int_value pyptr <? 2 ^ 64))|];
        try (unfold SET_EXC; unfold_monad; cbn; split; [discriminate | reflexivity]).
      unfold bind at 1, ret at 1. unfold bind at 1, PyErr_Occurred at 1. rewrite Hp.
      apply after_call; [intros w0; now apply HControl | exact Hp|].
      intros res w1 Hp1. now apply status_tail_null.
  - cbv zeta. unfold apswvfsfilepy_xClose.
    destruct (base self) as [b|]; [|cbn; rewrite Hp; split; [discriminate | congruence]].
    unfold call, PyMem_Free. unfold_monad. cbn [fst snd].
    set (w0 := set_log (log w ++ [EvNative b "xClose"]) w).
    pose proof (base_xClose_pending b w0) as Hp1.
    destruct (base_xClose b w0) as [[res b'] w1]. cbn [fst snd] in *.
    assert (Hnone : pending w1 = None) by (rewrite Hp1; exact Hp).
    destruct (Z.eq_dec res SQLITE_OK) as [Heq|Hne].
    + subst res. cbn. rewrite Hnone. split; [discriminate | congruence].
    + apply Z.eqb_neq in Hne as Hn. rewrite Hn. unfold SET_EXC. unfold_monad.
      cbn. rewrite Hnone, Hn. cbn. split; [discriminate | reflexivity].
Qed.

(** ** A status through two layers *)

Lemma exc_code_pos (e : PyExc) : 0 < exc_code e.
Proof. unfold exc_code, SQLITE_ERROR. destruct (exc_class e); lia. Qed.

Lemma parse_i_ok (n : Z) (w : World) :
  INT_MIN <= n <= INT_MAX ->
  PyArg_ParseTuple_i [PyInt n] w = (Some n, w) /\
  PyArg_ParseTuple_L [PyInt n] w = (Some n, w).
Proof.
  intros Hn.
  unfold PyArg_ParseTuple_i, PyArg_ParseTuple_L, parse_int, parse_longlong, parse_integer.
  unfold_monad. cbn -[Z.leb INT_MIN INT_MAX LONG_MIN LONG_MAX].
  assert (H1 : ((INT_MIN <=? n) && (n <=? INT_MAX))%bool = true)
    by (apply andb_true_intro; split; apply Z.leb_le; lia).
  assert (H2 : ((LONG_MIN <=? n) && (n <=? LONG_MAX))%bool = true).
  { apply andb_true_intro. unfold INT_MIN, INT_MAX, LONG_MIN, LONG_MAX in *.
    split; apply Z.leb_le; lia. }
  rewrite H1, H2. split; reflexivity.
Qed.

Lemma forward_status_run {X} (P : M (option X)) (b : sqlite3_file) (name : string)
    (g : X -> M Z) (v : PyObject) (w : World) (x : X) :
  P w = (Some x, w) ->
  (forall w0, pending (snd (g x w0)) = pending w0) ->
  pending w = None ->
  let inner := g x (snd (emit (EvNative b name) w)) in
  let r := (parsed <- P ;;
            match parsed with
            | None => ret None
            | Some x =>
                res <- call b name (g x) ;;
                if res =? SQLITE_OK then ret (Some v) else SET_EXC res ;; ret None
            end) w in
  (fst inner = SQLITE_OK -> r = (Some v, snd inner)) /\
  (fst inner <> SQLITE_OK ->
   r = (None, set_pending (Some (exception_for (fst inner))) (snd inner))).
Proof.
  intros HP Hg Hp. cbv zeta.
  match goal with |- (_ -> ?t = _) /\ _ => remember t as r eqn:Hr end.
  unfold bind at 1 in Hr. rewrite HP in Hr.
  unfold call, bind at 1, emit in Hr. unfold bind at 1 in Hr.
  change (snd (emit (EvNative b name) w)) with (set_log (log w ++ [EvNative b name]) w).
  set (w0 := set_log (log w ++ [EvNative b name]) w) in *.
  pose proof (Hg w0) as Hp1.
  destruct (g x w0) as [res w1]. cbn [fst snd] in *.
  assert (Hnone : pending w1 = None) by (rewrite Hp1; exact Hp).
  subst r. exact (status_tail res v w1 Hnone).
Qed.

(** X18.  A [VFSFile] whose base was opened by a VFS of this bridge: a call of
    xSync, xUnlock, xLock or xTruncate goes through the delegation and the
    dispatch to the managed method of the inner file.  The status survives
    both layers: when the inner method returns, the outer call returns
    [None]; when it raises, the outer call fails with a fault that stands for
    the same status code as the fault raised.  The inner fault itself is not
    passed up: what is raised is the bridge's exception for the code. *)
Theorem chained_status_round_trip
    (self : APSWVFSFile) (b : sqlite3_file) (f : PyObject) (n : Z) (w : World) :
  base self = Some b ->
  pMethods b = Some apsw_io_methods ->
  file b = Some f ->
  pending w = None ->
  INT_MIN <= n <= INT_MAX ->
  let link (py : APSWVFSFile -> list PyObject -> M (option PyObject))
           (native : PyObject -> Z -> M Z) (name : string) :=
    let inner := native f n (snd (emit (EvNative b name) w)) in
    let r := py self [PyInt n] w in
    (fst inner = SQLITE_OK -> r = (Some Py_None, snd inner)) /\
    (fst inner <> SQLITE_OK ->
     r = (None, set_pending (Some (exception_for (fst inner))) (snd inner))) /\
    (forall m out args' x',
       lookup_method f name = Some m ->
       m [PyInt n] (ext w) = (out, args', x') ->
       match out with
       | Returned _ => fst r = Some Py_None /\ pending (snd r) = None
       | Raised e =>
           fst r = None /\
           exists e', pending (snd r) = Some e' /\ exc_code e' = exc_code e /\
                      exc_class e' = exc_class (exception_for (exc_code e))
       end) in
  link apswvfsfilepy_xSync apswvfsfile_xSync "xSync" /\
  link apswvfsfilepy_xUnlock apswvfsfile_xUnlock "xUnlock" /\
  link apswvfsfilepy_xLock apswvfsfile_xLock "xLock" /\
  link apswvfsfilepy_xTruncate apswvfsfile_xTruncate "xTruncate".
Proof.
  intros Hb Hm Hf Hp Hn. cbv zeta.
  destruct (parse_i_ok n w Hn) as [Hi HL].
  assert (Hcode : forall (native : PyObject -> Z -> M Z) name w0,
            (native = apswvfsfile_xSync /\ name = "xSync") \/
            (native = apswvfsfile_xUnlock /\ name = "xUnlock") \/
            (native = apswvfsfile_xLock /\ name = "xLock") \/
            (native = apswvfsfile_xTruncate /\ name = "xTruncate") ->
            forall m out args' x',
              lookup_method f name = Some m ->
              m [PyInt n] (ext w0) = (out, args', x') ->
              match out with
              | Returned _ => fst (native f n w0) = SQLITE_OK
              | Raised e => fst (native f n w0) = exc_code e
              end).
  { intros native name w0 Hwhich m out args' x' Hl Hc.
    destruct Hwhich as [[-> ->] | [[-> ->] | [[-> ->] | [-> ->]]]];
      unfold_entries; rewrite Hl; unfold_monad; cbn -[Z.land Z.eqb]; rewrite Hc;
      destruct out as [o|e]; cbn -[Z.land Z.eqb]; try reflexivity.
    destruct (SQLITE_BUSY =? Z.land (exc_code e) 255); reflexivity. }
  assert (Hguard : forall (native : PyObject -> Z -> M Z) x w0,
            native = apswvfsfile_xSync \/ native = apswvfsfile_xUnlock \/
            native = apswvfsfile_xLock \/ native = apswvfsfile_xTruncate ->
            pending (snd (native f x w0)) = pending w0).
  { intros native x w0 [-> | [-> | [-> | ->]]]; unfold_entries;
      apply file_guard_restores. }
  assert (Hlink : forall (py : APSWVFSFile -> list PyObject -> M (option PyObject))
                         (native : PyObject -> Z -> M Z) name,
            (native = apswvfsfile_xSync /\ name = "xSync") \/
            (native = apswvfsfile_xUnlock /\ name = "xUnlock") \/
            (native = apswvfsfile_xLock /\ name = "xLock") \/
            (native = apswvfsfile_xTruncate /\ name = "xTruncate") ->
            (let inner := native f n (snd (emit (EvNative b name) w)) in
             (fst inner = SQLITE_OK -> py self [PyInt n] w = (Some Py_None, snd inner)) /\
             (fst inner <> SQLITE_OK ->
              py self [PyInt n] w =
                (None, set_pending (Some (exception_for (fst inner))) (snd inner)))) ->
            let inner := native f n (snd (emit (EvNative b name) w)) in
            let r := py self [PyInt n] w in
            (fst inner = SQLITE_OK -> r = (Some Py_None, snd inner)) /\
            (fst inner <> SQLITE_OK ->
             r = (None, set_pending (Some (exception_for (fst inner))) (snd inner))) /\
            (forall m out args' x',
               lookup_method f name = Some m ->
               m [PyInt n] (ext w) = (out, args', x') ->
               match out with
               | Returned _ => fst r = Some Py_None /\ pending (snd r) = None
               | Raised e =>
                   fst r = None /\
                   exists e', pending (snd r) = Some e' /\ exc_code e' = exc_code e /\
                              exc_class e' = exc_class (exception_for (exc_code e))
               end)).
  { intros py native name Hwhich [Hok Hbad]. cbv zeta in *.
    split; [exact Hok | split; [exact Hbad|]].
    intros m out args' x' Hl Hc.
    pose proof (Hcode native name (snd (emit (EvNative b name) w)) Hwhich m out args' x'
                  Hl Hc) as Hres.
    assert (Hpend : pending (snd (native f n (snd (emit (EvNative b name) w)))) = None).
    { transitivity (pending (snd (emit (EvNative b name) w))); [|exact Hp].
      apply Hguard. clear - Hwhich.
      destruct Hwhich as [[H _] | [[H _] | [[H _] | [H _]]]]; auto. }
    destruct out as [o|e].
    - rewrite (Hok Hres). cbn [fst snd]. split; [reflexivity | exact Hpend].
    - assert (Hne : fst (native f n (snd (emit (EvNative b name) w))) <> SQLITE_OK)
        by (rewrite Hres; apply exc_code_not_ok).
      rewrite (Hbad Hne). cbn [fst snd]. split; [reflexivity|].
      eexists. split; [reflexivity|]. rewrite Hres.
      split; [apply exception_for_code, exc_code_pos | reflexivity]. }
  split; [|split; [|split]]; apply Hlink; auto 6;
    unfold_py; rewrite Hb; unfold_base; rewrite Hm, Hf; cbn [option_map].
  - apply (forward_status_run (PyArg_ParseTuple_i [PyInt n]) b "xSync"
             (fun x => apswvfsfile_xSync f x) Py_None w n Hi); [|exact Hp].
    intros w0. apply Hguard. auto.
  - apply (forward_status_run (PyArg_ParseTuple_i [PyInt n]) b "xUnlock"
             (fun x => apswvfsfile_xUnlock f x) Py_None w n Hi); [|exact Hp].
    intros w0. apply Hguard. auto.
  - apply (forward_status_run (PyArg_ParseTuple_i [PyInt n]) b "xLock"
             (fun x => apswvfsfile_xLock f x) Py_None w n Hi); [|exact Hp].
    intros w0. apply Hguard. auto.
  - apply (forward_status_run (PyArg_ParseTuple_L [PyInt n]) b "xTruncate"
             (fun x => apswvfsfile_xTruncate f x) Py_None w n HL); [|exact Hp].
    intros w0. apply Hguard. auto.
Qed.

(** * The methods of a VFS object that forward to its base *)

Ltac unfold_vfspy :=
  unfold apswvfspy_xDelete, apswvfspy_xFullPathname, apswvfspy_xOpen, apswvfspy_xAccess,
    apswvfspy_xDlOpen, apswvfspy_xDlSym, apswvfspy_xDlClose, apswvfspy_xDlError,
    apswvfspy_xRandomness, apswvfspy_xSleep, apswvfspy_xCurrentTime.

Ltac unfold_basevfs :=
  unfold basevfs_xOpen, basevfs_xDelete, basevfs_xAccess, basevfs_xFullPathname,
    basevfs_xDlOpen, basevfs_xDlSym, basevfs_xDlClose, basevfs_xDlError,
    basevfs_xRandomness, basevfs_xSleep, basevfs_xCurrentTime, vfs_resolve.

(** X19.  A VFS object made without a base has nothing to forward to: each of
    its forwarding methods returns NULL with the not-implemented fault, which
    names the method, and changes nothing else.  The same holds for a base
    that is a VFS of the engine whose table leaves the method's slot null. *)
Theorem vfs_without_base_is_not_implemented
    (meth : VfsMethod) (self : APSWVFS) (w : World) :
  basevfs self = None \/
  (exists v, basevfs self = Some v /\ is_apsw v = false /\
             vfs_slot_missing meth (native_vfs v) = true) ->
  APSWVFS_methods meth self w =
    (None, set_pending (Some (VFSNotImplemented (vfs_method_name meth))) w) /\
  exc_class (VFSNotImplemented (vfs_method_name meth)) = ExcVFSNotImplemented.
Proof.
  intros H. split; [|reflexivity].
  destruct H as [Hb | (v & Hb & Hn & Hslot)].
  - destruct meth; cbn [APSWVFS_methods vfs_method_name]; unfold_vfspy; rewrite Hb;
      reflexivity.
  - destruct meth; cbn [APSWVFS_methods vfs_method_name vfs_slot_missing] in *;
      unfold_vfspy; rewrite Hb; unfold_basevfs; rewrite Hn;
      match goal with
      | H : is_null ?s = true |- _ => destruct s; [discriminate H|]
      end; reflexivity.
Qed.

(** ** NULL means a fault, for the VFS methods *)

Lemma apswvfs_xOpen_pending vfs zName file inflags pOutFlags (w : World) :
  pending (snd (apswvfs_xOpen vfs zName file inflags pOutFlags w)) = pending w.
Proof. unfold apswvfs_xOpen. apply vfs_guard_restores. Qed.

Lemma basevfs_pending (v : sqlite3_vfs) :
  (forall f zName file inflags flagsout w,
     basevfs_xOpen v = Some f ->
     pending (snd (f zName file inflags flagsout w)) = pending w) /\
  (forall f zName syncDir w,
     basevfs_xDelete v = Some f -> pending (snd (f zName syncDir w)) = pending w) /\
  (forall f zName flags resout w,
     basevfs_xAccess v = Some f -> pending (snd (f zName flags resout w)) = pending w) /\
  (forall f zName nOut zOut w,
     basevfs_xFullPathname v = Some f ->
     pending (snd (f zName nOut zOut w)) = pending w) /\
  (forall f zName w, basevfs_xDlOpen v = Some f -> pending (snd (f zName w)) = pending w) /\
  (forall f handle zName w,
     basevfs_xDlSym v = Some f -> pending (snd (f handle zName w)) = pending w) /\
  (forall f handle w,
     basevfs_xDlClose v = Some f -> pending (snd (f handle w)) = pending w) /\
  (forall f nByte zErrMsg w,
     basevfs_xDlError v = Some f -> pending (snd (f nByte zErrMsg w)) = pending w) /\
  (forall f nByte zOut w,
     basevfs_xRandomness v = Some f -> pending (snd (f nByte zOut w)) = pending w) /\
  (forall f microseconds w,
     basevfs_xSleep v = Some f -> pending (snd (f microseconds w)) = pending w).
Proof.
  unfold_basevfs. destruct (is_apsw v).
  - split; [|repeat split; intros; match goal with H : Some _ = Some _ |- _ =>
                                     injection H as <- end;
             unfold_entries; apply vfs_guard_restores].
    intros f zName file inflags flagsout w [= <-]. unfold bind, ret.
    pose proof (apswvfs_xOpen_pending v zName file inflags (Some flagsout) w) as H.
    destruct (apswvfs_xOpen v zName file inflags (Some flagsout) w) as [r w1]. exact H.
  - repeat split; intros;
      match goal with
      | H : option_map _ ?s = Some _ |- _ =>
          destruct s; cbn [option_map] in H; [injection H as <- | discriminate H]
      end; apply outside_pending.
Qed.





Lemma getutf8string_parses (o : PyObject) : parses (getutf8string o).
Proof.
  intros w. unfold getutf8string. unfold_monad.
  destruct o; first [left; eexists; reflexivity | right; eexists; reflexivity].
Qed.




Ltac break_match_eq :=
  match goal with
  | |- context [match ?x with _ => _ end] =>
      lazymatch x with
      | context [match _ with _ => _ end] => fail
      | _ => destruct x eqn:?
      end
  end.

Ltac break_match_avoiding f :=
  match goal with
  | |- context [match ?x with _ => _ end] =>
      lazymatch x with
      | context [match _ with _ => _ end] => fail
      | context [f] => fail
      | _ => destruct x
      end
  end.






(** ** xFullPathname through the base *)

Lemma c_string_app_nul (p rest : list byte) :
  c_string (p ++ x00 :: rest) = c_string p.
Proof.
  induction p as [|c p IH]; [reflexivity|].
  simpl. destruct (Byte.eqb c x00); [reflexivity | now rewrite IH].
Qed.

Lemma memset_zeros (n : Z) :
  memset (repeat x00 (Z.to_nat n)) x00 n = repeat x00 (Z.to_nat n).
Proof.
  unfold memset. rewrite skipn_repeat_sub, Nat.sub_diag. apply app_nil_r.
Qed.

(** X21.  [apswvfspy_xFullPathname], for a base whose [mxPathname+1] is a
    size (not negative, and an [int]), hands the base the name as a C string
    and a zeroed buffer of [mxPathname+1] bytes.  When the base reports
    success the result is the text in the buffer up to its first NUL, and a
    decoding fault when those bytes are not UTF-8.  When the base reports any
    other status, whichever it is, the Python caller gets the cannot-open
    fault.  Over a base of this bridge whose managed method returns a path,
    the path comes back as it is when it fits [mxPathname] bytes, and the
    cannot-open fault when it does not; the too-big fault of the inner layer
    has gone to the hook of the base. *)
Theorem delegated_xFullPathname_fails_as_cantopen
    (self : APSWVFS) (v : sqlite3_vfs) (u : list byte) (w : World) :
  basevfs self = Some v ->
  pending w = None ->
  -1 <= mxPathname v < INT_MAX ->
  let size := mxPathname v + 1 in
  let zeros := repeat x00 (Z.to_nat size) in
  let r := apswvfspy_xFullPathname self (PyUnicode u) w in
  let cantopen := add_frame "vfspy.xFullPathname" (exception_for SQLITE_CANTOPEN) in
  (forall f,
     basevfs_xFullPathname v = Some f ->
     let called := f (Some (c_string u)) size zeros w in
     let path := c_string (snd (fst called)) in
     (fst (fst called) = SQLITE_OK -> utf8_valid path = true ->
      r = (Some (PyUnicode path), snd called)) /\
     (fst (fst called) = SQLITE_OK -> utf8_valid path = false ->
      fst r = None /\
      exists e, exc_class e = PyExc_UnicodeDecodeError /\
                pending (snd r) = Some (add_frame "vfspy.xFullPathname" e)) /\
     (fst (fst called) <> SQLITE_OK ->
      r = (None, set_pending (Some cantopen) (snd called)))) /\
  exc_code cantopen = SQLITE_CANTOPEN /\
  (forall m p args' x',
     is_apsw v = true ->
     utf8_valid (c_string u) = true ->
     lookup_method (pAppData v) "xFullPathname" = Some m ->
     m [PyUnicode (c_string u)] (ext w) = (Returned (PyUnicode p), args', x') ->
     (size_of p <= mxPathname v -> utf8_valid (c_string p) = true ->
      fst r = Some (PyUnicode (c_string p)) /\ pending (snd r) = None /\
      unraisable (snd r) = unraisable w) /\
     (size_of p > mxPathname v ->
      fst r = None /\ pending (snd r) = Some cantopen /\
      exists e, exc_code e = SQLITE_TOOBIG /\
                unraisable (snd r) = unraisable w ++ [(Some (pAppData v), e)])).
Proof.
  intros Hb Hp Hmx. cbv zeta.
  assert (Hint : to_int (mxPathname v + 1) = mxPathname v + 1)
    by (apply to_int_id; unfold INT_MIN, INT_MAX in *; lia).
  assert (Hneg : (mxPathname v + 1 <? 0) = false) by (apply Z.ltb_ge; lia).
  assert (HA : forall f,
     basevfs_xFullPathname v = Some f ->
     let called := f (Some (c_string u)) (mxPathname v + 1)
                     (repeat x00 (Z.to_nat (mxPathname v + 1))) w in
     let path := c_string (snd (fst called)) in
     (fst (fst called) = SQLITE_OK -> utf8_valid path = true ->
      apswvfspy_xFullPathname self (PyUnicode u) w =
        (Some (PyUnicode path), snd called)) /\
     (fst (fst called) = SQLITE_OK -> utf8_valid path = false ->
      fst (apswvfspy_xFullPathname self (PyUnicode u) w) = None /\
      exists e, exc_class e = PyExc_UnicodeDecodeError /\
                pending (snd (apswvfspy_xFullPathname self (PyUnicode u) w)) =
                  Some (add_frame "vfspy.xFullPathname" e)) /\
     (fst (fst called) <> SQLITE_OK ->
      apswvfspy_xFullPathname self (PyUnicode u) w =
        (None, set_pending (Some (add_frame "vfspy.xFullPathname"
                                    (exception_for SQLITE_CANTOPEN))) (snd called)))).
  { intros f Hf. cbv zeta.
    destruct (basevfs_pending v) as (_ & _ & _ & HFull & _).
    pose proof (HFull f (Some (c_string u)) (mxPathname v + 1)
                  (repeat x00 (Z.to_nat (mxPathname v + 1))) w Hf) as Hp1.
    unfold apswvfspy_xFullPathname. rewrite Hb, Hf. unfold getutf8string, PyMem_Malloc.
    rewrite Hint, Hneg. cbn [option_map].
    rewrite memset_zeros. unfold bind, ret. cbn beta iota.
    destruct (f (Some (c_string u)) (mxPathname v + 1)
                (repeat x00 (Z.to_nat (mxPathname v + 1))) w) as [[res resbuf] w1].
    cbn [fst snd] in *. rewrite Hp in Hp1.
    unfold convertutf8string, utf8_text.
    split; [|split]; intros Hres.
    - intros Hvalid. subst res. cbn. rewrite Hvalid. reflexivity.
    - intros Hvalid. subst res. cbn. rewrite Hvalid. unfold SET_EXC. unfold_monad.
      cbn. split; [reflexivity|]. eexists. split; [|reflexivity]. reflexivity.
    - apply Z.eqb_neq in Hres. rewrite Hres. unfold SET_EXC. unfold_monad.
      cbn. rewrite Hp1. reflexivity. }
  split; [exact HA | split; [reflexivity|]].
  intros m p args' x' Hapsw Hname Hl Hc.
  assert (Htext : utf8_text (Some (c_string u)) = Some (PyUnicode (c_string u)))
    by (unfold utf8_text; now rewrite Hname).
  assert (Hf : basevfs_xFullPathname v =
               Some (fun zName nOut zOut => apswvfs_xFullPathname v zName nOut zOut)).
  { unfold basevfs_xFullPathname, vfs_resolve. now rewrite Hapsw. }
  destruct (HA _ Hf) as (Hok & _ & Hbad). cbv zeta in *.
  assert (Hsize : 0 <= size_of p) by (unfold size_of; lia).
  split.
  - intros Hfit Hvalid.
    assert (Hgt : (size_of p + 1 >? mxPathname v + 1) = false)
      by (rewrite Z.gtb_ltb; apply Z.ltb_ge; lia).
    assert (Hinner :
      apswvfs_xFullPathname v (Some (c_string u)) (mxPathname v + 1)
        (repeat x00 (Z.to_nat (mxPathname v + 1))) w =
      (SQLITE_OK,
       memcpy (repeat x00 (Z.to_nat (mxPathname v + 1))) (p ++ [x00]) (size_of p + 1),
       set_ext x' (set_log (log w ++ [EvPython (pAppData v) "xFullPathname"
                                        [PyUnicode (c_string u)]]) w))).
    { unfold_entries. unfold getutf8string. rewrite Htext, Hl. unfold_monad.
      cbn -[Z.gtb size_of memcpy Z.add]. rewrite Hc. cbn -[Z.gtb size_of memcpy Z.add].
      rewrite Hgt. cbn -[size_of memcpy Z.add].
      clear. destruct w; reflexivity. }
    rewrite Hinner in Hok. cbn [fst snd] in Hok.
    rewrite memcpy_terminated in Hok.
    change (p ++ [x00] ++ ?t) with (p ++ x00 :: t) in Hok.
    rewrite c_string_app_nul in Hok. rewrite (Hok eq_refl Hvalid).
    cbn [fst snd]. repeat split. exact Hp.
  - intros Hfit.
    assert (Hgt : (size_of p + 1 >? mxPathname v + 1) = true)
      by (apply Z.gtb_lt; lia).
    assert (Hinner :
      exists w1,
        apswvfs_xFullPathname v (Some (c_string u)) (mxPathname v + 1)
          (repeat x00 (Z.to_nat (mxPathname v + 1))) w =
        (SQLITE_TOOBIG, repeat x00 (Z.to_nat (mxPathname v + 1)), w1) /\
        unraisable w1 =
          unraisable w ++
          [(Some (pAppData v),
            add_frame "vfs.xFullPathname" (exception_for SQLITE_TOOBIG))]).
    { unfold_entries. unfold getutf8string, SET_EXC. rewrite Htext, Hl. unfold_monad.
      cbn -[Z.gtb size_of memcpy Z.add]. rewrite Hc. cbn -[Z.gtb size_of memcpy Z.add].
      rewrite Hgt. cbn -[size_of memcpy Z.add].
      eexists. split; reflexivity. }
    destruct Hinner as (w1 & Hinner & Hsink).
    rewrite Hinner in Hbad. cbn [fst snd] in Hbad.
    rewrite (Hbad ltac:(discriminate)). cbn [fst snd].
    split; [reflexivity | split; [reflexivity|]].
    eexists. split; [|exact Hsink]. reflexivity.
Qed.

(** ** xRandomness through the base *)

Lemma fresh_buffer (fresh : list byte) (n : Z) :
  0 <= n ->
  firstn (Z.to_nat n) (uninitialised fresh n) = uninitialised fresh n /\
  size_of (uninitialised fresh n) = n.
Proof.
  intros Hn. split.
  - unfold uninitialised. now rewrite firstn_firstn, Nat.min_id.
  - unfold size_of. rewrite length_uninitialised. lia.
Qed.

(** X22.  [apswvfspy_xRandomness] refuses a negative count with a value fault
    before anything is called.  Otherwise it hands the base a new buffer of
    [nbyte] bytes and returns the bytes the base reported: the first [amt] of
    the buffer when the base reported fewer than [nbyte], so that what the
    base did not write is not returned.  Over a base of this bridge whose
    managed method returns bytes, the result is those bytes, at most [nbyte]
    of them, whatever the new buffer held. *)
Theorem delegated_xRandomness_returns_what_was_written
    (self : APSWVFS) (v : sqlite3_vfs) (nbyte : Z) (fresh : list byte) (w : World) :
  basevfs self = Some v ->
  pending w = None ->
  INT_MIN <= nbyte <= INT_MAX ->
  let r := apswvfspy_xRandomness self [PyInt nbyte] fresh w in
  (forall f,
     basevfs_xRandomness v = Some f ->
     (nbyte < 0 ->
      r = (None, set_pending
                   (Some (mkExc PyExc_ValueError
                            "You can't have negative amounts of randomness!" [] [])) w)) /\
     (0 <= nbyte ->
      let called := f nbyte (uninitialised fresh nbyte) w in
      let amt := fst (fst called) in
      let buf := snd (fst called) in
      (0 <= amt < nbyte -> r = (Some (PyBytes (firstn (Z.to_nat amt) buf)), snd called)) /\
      (nbyte <= amt -> r = (Some (PyBytes buf), snd called)) /\
      (amt < 0 -> fst r = None /\
                  exists e, pending (snd r) = Some e /\ exc_class e = PyExc_SystemError))) /\
  (forall m data args' x',
     is_apsw v = true ->
     lookup_method (pAppData v) "xRandomness" = Some m ->
     m [PyInt nbyte] (ext w) = (Returned (PyBytes data), args', x') ->
     0 <= nbyte ->
     fst r = Some (PyBytes (firstn (Z.to_nat (Z.min (size_of data) nbyte)) data)) /\
     pending (snd r) = None).
Proof.
  intros Hb Hp Hn. cbv zeta.
  destruct (parse_i_ok nbyte w Hn) as [Hi _].
  assert (HA : forall f,
     basevfs_xRandomness v = Some f ->
     (nbyte < 0 ->
      apswvfspy_xRandomness self [PyInt nbyte] fresh w =
        (None, set_pending
                 (Some (mkExc PyExc_ValueError
                          "You can't have negative amounts of randomness!" [] [])) w)) /\
     (0 <= nbyte ->
      let called := f nbyte (uninitialised fresh nbyte) w in
      let amt := fst (fst called) in
      let buf := snd (fst called) in
      (0 <= amt < nbyte ->
       apswvfspy_xRandomness self [PyInt nbyte] fresh w =
         (Some (PyBytes (firstn (Z.to_nat amt) buf)), snd called)) /\
      (nbyte <= amt ->
       apswvfspy_xRandomness self [PyInt nbyte] fresh w = (Some (PyBytes buf), snd called)) /\
      (amt < 0 ->
       fst (apswvfspy_xRandomness self [PyInt nbyte] fresh w) = None /\
       exists e, pending (snd (apswvfspy_xRandomness self [PyInt nbyte] fresh w)) = Some e /\
                 exc_class e = PyExc_SystemError))).
  { intros f Hf.
    destruct (basevfs_pending v) as (_ & _ & _ & _ & _ & _ & _ & _ & HRandom & _).
    assert (Hrun : apswvfspy_xRandomness self [PyInt nbyte] fresh w =
              if nbyte <? 0
              then (None, set_pending
                            (Some (mkExc PyExc_ValueError
                                     "You can't have negative amounts of randomness!"
                                     [] [])) w)
              else
                let called := f nbyte (uninitialised fresh nbyte) w in
                let amt := fst (fst called) in
                let buf := snd (fst called) in
                if amt <? nbyte
                then if amt <? 0
                     then (None,
                           set_pending
                             (Some (add_frame "vfspy.xRandomness"
                                      (mkExc PyExc_SystemError
                                         "bad argument to internal function" [] [])))
                             (snd called))
                     else (Some (PyBytes (firstn (Z.to_nat amt) buf)), snd called)
                else (Some (PyBytes buf), snd called)).
    { unfold apswvfspy_xRandomness. rewrite Hb, Hf. unfold bind at 1. rewrite Hi.
      cbn beta iota.
      destruct (Z.ltb_spec nbyte 0) as [Hsign|Hsign]; [reflexivity|].
      unfold PyBytes_FromStringAndSize.
      assert (Hneg : (nbyte <? 0) = false) by (apply Z.ltb_ge; lia).
      rewrite Hneg.
      destruct (fresh_buffer fresh nbyte Hsign) as [Hfirst Hsize].
      rewrite Hfirst. unfold bind, ret. cbn beta iota. rewrite Hsize.
      pose proof (HRandom f nbyte (uninitialised fresh nbyte) w Hf) as Hp1.
      destruct (f nbyte (uninitialised fresh nbyte) w) as [[amt buf] w1].
      cbn [fst snd] in *. rewrite Hp in Hp1. unfold _PyBytes_Resize. unfold_monad.
      destruct (amt <? nbyte); [destruct (amt <? 0)|]; cbn; rewrite ?Hp1; reflexivity. }
    rewrite Hrun. clear Hrun.
    split; intros Hsign.
    - apply Z.ltb_lt in Hsign. rewrite Hsign. reflexivity.
    - assert (Hneg : (nbyte <? 0) = false) by (apply Z.ltb_ge; lia).
      rewrite Hneg. cbv zeta.
      destruct (f nbyte (uninitialised fresh nbyte) w) as [[amt buf] w1].
      cbn [fst snd] in *.
      split; [|split]; intros Hamt.
      + assert (H1 : (amt <? nbyte) = true) by (apply Z.ltb_lt; lia).
        assert (H2 : (amt <? 0) = false) by (apply Z.ltb_ge; lia).
        rewrite H1, H2. reflexivity.
      + assert (H1 : (amt <? nbyte) = false) by (apply Z.ltb_ge; lia).
        rewrite H1. reflexivity.
      + assert (H1 : (amt <? nbyte) = true) by (apply Z.ltb_lt; lia).
        assert (H2 : (amt <? 0) = true) by (apply Z.ltb_lt; lia).
        rewrite H1, H2. cbn. split; [reflexivity | eexists; split; reflexivity]. }
  split; [exact HA|].
  intros m data args' x' Hapsw Hl Hc Hsign.
  assert (Hf : basevfs_xRandomness v =
               Some (fun nByte zOut => apswvfs_xRandomness v nByte zOut)).
  { unfold basevfs_xRandomness, vfs_resolve. now rewrite Hapsw. }
  destruct (HA _ Hf) as [_ Hrun]. destruct (Hrun Hsign) as (Hless & Hall & _).
  cbv zeta in *. clear HA Hrun.
  destruct (fresh_buffer fresh nbyte Hsign) as [_ Hsize].
  set (n := Z.min (size_of data) nbyte).
  assert (Hdata : 0 <= size_of data) by (unfold size_of; lia).
  assert (Hinner :
    exists w1,
      apswvfs_xRandomness v nbyte (uninitialised fresh nbyte) w =
        (n, memcpy (uninitialised fresh nbyte) data n, w1) /\ pending w1 = None).
  { unfold_entries. unfold PyObject_AsReadBuffer. rewrite Hl. unfold_monad.
    cbn -[Z.gtb size_of memcpy Z.min uninitialised]. rewrite Hc.
    cbn -[Z.gtb size_of memcpy Z.min uninitialised].
    replace (if size_of data >? nbyte then nbyte else size_of data) with n
      by (unfold n; rewrite Z.gtb_ltb; destruct (Z.ltb_spec nbyte (size_of data)); lia).
    eexists. split; [reflexivity | exact Hp]. }
  destruct Hinner as (w1 & Hinner & Hp1).
  rewrite Hinner in Hless, Hall. cbn [fst snd] in Hless, Hall.
  destruct (memcpy_within (uninitialised fresh nbyte) data n) as (Hlen & Hfirst & Hskip);
    try (unfold n; lia).
  destruct (Z.lt_ge_cases n nbyte) as [Hlt | Hge].
  - rewrite Hless by (unfold n in *; lia). cbn [fst snd].
    rewrite Hfirst. split; [reflexivity | exact Hp1].
  - rewrite Hall by lia. cbn [fst snd]. split; [|exact Hp1].
    assert (Hn' : n = nbyte) by (unfold n in *; lia).
    do 2 f_equal. unfold memcpy. rewrite Hn'.
    rewrite skipn_all2 by (rewrite length_uninitialised; lia).
    apply app_nil_r.
Qed.

(** ** xOpen through the base *)

(** X23.  [apswvfspy_xOpen], called with a name ([None] or a text) and a flags
    object.  Flags that are not a list of two integers are a type fault and
    the base is not called.  With two integers that fit a C [int] the base's
    xOpen is called on the new block with the name as a C string.  When it
    reports success the result is a [VFSFile] on the block as the base left
    it and item 1 of the flags list is the flags the base reported; when it
    reports another status the block is freed and the fault of that status
    is raised. *)
Theorem delegated_xOpen_outcome
    (self : APSWVFS) (v : sqlite3_vfs) (name : option (list byte)) (flags : PyObject)
    (file : sqlite3_file) (w : World) :
  basevfs self = Some v ->
  pending w = None ->
  let args := [py_name name; flags] in
  let r := apswvfspy_xOpen self args file w in
  forall f,
    basevfs_xOpen v = Some f ->
    (two_integers flags = false ->
     r = (None, args,
          set_pending (Some (mkExc PyExc_TypeError
                               "Flags argument needs to be a list of two integers" [] []))
            w)) /\
    (forall item0 item1,
       flags = PyList [item0; item1] ->
       two_integers flags = true ->
       INT_MIN <= int_value item0 <= INT_MAX ->
       INT_MIN <= int_value item1 <= INT_MAX ->
       let called := f (option_map c_string name) file (int_value item0) (int_value item1) w in
       let res := fst (fst (fst called)) in
       let file' := snd (fst (fst called)) in
       let flagsout := snd (fst called) in
       (res = SQLITE_OK ->
        r = (Some (mkPyFile (Some file')),
             [py_name name; PyList [item0; PyInt flagsout]],
             snd called)) /\
       (res <> SQLITE_OK ->
        r = (None, args,
             set_log (log (snd called) ++ [EvFree file'])
               (set_pending (Some (exception_for res)) (snd called))))).
Proof.
  intros Hb Hp. cbv zeta. intros f Hf.
  destruct (basevfs_pending v) as (HOpen & _).
  assert (Hname : forall (k : option (option (list byte)) ->
                              M (option APSWVFSFile * list PyObject)),
            (utf8name <- match py_name name with
                         | Py_None => ret (Some None)
                         | _ => u <- getutf8string (py_name name) ;;
                                ret (option_map Some u)
                         end ;; k utf8name) w = k (Some name) w).
  { intros k. destruct name; reflexivity. }
  split.
  - intros Hbad. unfold apswvfspy_xOpen. rewrite Hb, Hf.
    unfold PyArg_ParseTuple_OO. unfold bind at 1, ret at 1. cbn beta iota.
    rewrite Hname.
    destruct flags as [| | | | | |[|i0 [|i1 [|i2 rest]]]|]; try reflexivity.
    cbn [two_integers] in Hbad. rewrite Hbad. reflexivity.
  - intros item0 item1 -> Hgood H0 H1.
    cbn [two_integers] in Hgood.
    pose proof (HOpen f (option_map c_string name) file (int_value item0)
                  (int_value item1) w Hf) as Hp1.
    assert (Hrun :
      apswvfspy_xOpen self [py_name name; PyList [item0; item1]] file w =
      let called := f (option_map c_string name) file (int_value item0)
                      (int_value item1) w in
      let res := fst (fst (fst called)) in
      let file' := snd (fst (fst called)) in
      let flagsout := snd (fst called) in
      if res =? SQLITE_OK
      then (Some (mkPyFile (Some file')),
            [py_name name; PyList [item0; PyInt flagsout]], snd called)
      else (None, [py_name name; PyList [item0; item1]],
            set_log (log (snd called) ++ [EvFree file'])
              (set_pending (Some (exception_for res)) (snd called)))).
    { unfold apswvfspy_xOpen. rewrite Hb, Hf.
      unfold PyArg_ParseTuple_OO. unfold bind at 1, ret at 1. cbn beta iota.
      rewrite Hname. rewrite Hgood. unfold PyIntLong_AsLong.
      rewrite (int_fits_long _ H0), (int_fits_long _ H1).
      unfold bind, ret. cbn beta iota.
      rewrite (to_int_id _ H0), (to_int_id _ H1), !Z.eqb_refl.
      cbn [negb when]. unfold ret, PyErr_Occurred. rewrite Hp.
      destruct (f (option_map c_string name) file (int_value item0) (int_value item1) w)
        as [[[res file'] flagsout] w1].
      cbn [fst snd] in *. rewrite Hp in Hp1. rewrite Hp1.
      destruct (res =? SQLITE_OK) eqn:Hres; cbn [negb]; [reflexivity|].
      unfold SET_EXC, PyMem_Free. unfold_monad. rewrite Hp1, Hres. reflexivity. }
    rewrite Hrun. cbv zeta. clear Hrun.
    split; intros Hres.
    + rewrite Hres. reflexivity.
    + apply Z.eqb_neq in Hres. rewrite Hres. reflexivity.
Qed.

Ltac keep_xOpen :=
  cbn -[to_int notnot fits_long to_size_t size_of memcpy memset
        Z.eqb Z.leb Z.ltb Z.gtb Z.land Z.modulo Z.pow Z.add Z.to_nat
        LONG_MIN LONG_MAX INT_MIN INT_MAX
        firstn skipn repeat List.length Nat.eqb uninitialised apswvfs_xOpen].

Lemma apswvfs_xOpen_ok_block
    (vfs : sqlite3_vfs) (zName : option (list byte)) (apswfile : sqlite3_file)
    (inflags : Z) (pOutFlags : option Z) (w : World) :
  fst (fst (fst (apswvfs_xOpen vfs zName apswfile inflags pOutFlags w))) = SQLITE_OK ->
  exists text m o args' x',
    utf8_text zName = Some text /\
    lookup_method (pAppData vfs) "xOpen" = Some m /\
    m [text; PyList [PyInt inflags;
                     PyInt (match pOutFlags with Some f => f | None => 0 end)]] (ext w) =
      (Returned o, args', x') /\
    snd (fst (fst (apswvfs_xOpen vfs zName apswfile inflags pOutFlags w))) =
      mkFile (file_addr apswfile) (Some apsw_io_methods) (Some o).
Proof.
  unfold_entries. unfold PyIntLong_AsLong.
  destruct (utf8_text zName) as [text|] eqn:Hname; unfold_monad;
    cbn -[PyIntLong_Check fits_long int_value to_int nth]; [|discriminate].
  destruct (lookup_method (pAppData vfs) "xOpen") as [m|] eqn:Hl; unfold_monad;
    cbn -[PyIntLong_Check fits_long int_value to_int nth]; [|discriminate].
  match goal with |- context [m ?args (ext w)] =>
    destruct (m args (ext w)) as [[[pyresult|e] a] x] eqn:Hc end;
    cbn -[PyIntLong_Check fits_long int_value to_int nth];
    [|intros H; destruct (exc_code_not_ok e H)].
  destruct (nth 1 a Py_None) as [| | | | | |items|];
    cbn -[PyIntLong_Check fits_long int_value to_int]; try discriminate.
  destruct items as [|item0 [|item1 [|item2 items]]];
    cbn -[PyIntLong_Check fits_long int_value to_int]; try discriminate.
  destruct (PyIntLong_Check item1); cbn -[fits_long int_value to_int]; [|discriminate].
  destruct pOutFlags as [fl|]; cbn -[fits_long int_value to_int].
  - destruct (fits_long (int_value item1)); cbn -[int_value to_int]; [|discriminate].
    intros _. exists text, m, pyresult, a, x. repeat split; assumption.
  - intros _. exists text, m, pyresult, a, x. repeat split; assumption.
Qed.

(** X24.  Whatever its arguments, when [apswvfspy_xOpen] over a base of this
    bridge returns a [VFSFile], the arguments were a name and a list of two
    integers, the managed xOpen of the base was called with the name as a
    text and the two flags (as C [int]s), and the object's base is the new
    block holding [apsw_io_methods] and the very object that call returned:
    a handle as [apswvfs_xOpen] leaves it, which the methods of the file can
    forward to and close. *)
Theorem delegated_xOpen_gives_valid_file
    (self : APSWVFS) (v : sqlite3_vfs) (args : list PyObject) (file0 : sqlite3_file)
    (w : World) (pf : APSWVFSFile) :
  basevfs self = Some v ->
  is_apsw v = true ->
  fst (fst (apswvfspy_xOpen self args file0 w)) = Some pf ->
  exists pyname item0 item1 text m o args' x',
    args = [pyname; PyList [item0; item1]] /\
    utf8_text (match pyname with
               | PyUnicode u => Some (c_string u)
               | _ => None
               end) = Some text /\
    lookup_method (pAppData v) "xOpen" = Some m /\
    m [text; PyList [PyInt (to_int (int_value item0)); PyInt (to_int (int_value item1))]]
      (ext w) = (Returned o, args', x') /\
    base pf = Some (mkFile (file_addr file0) (Some apsw_io_methods) (Some o)) /\
    valid_file (mkFile (file_addr file0) (Some apsw_io_methods) (Some o)).
Proof.
  intros Hb Hapsw. unfold apswvfspy_xOpen. rewrite Hb.
  unfold basevfs_xOpen, vfs_resolve. rewrite Hapsw.
  unfold PyArg_ParseTuple_OO, wrong_arity, getutf8string, PyIntLong_AsLong, SET_EXC,
    PyMem_Free.
  unfold_monad. keep_xOpen.
  repeat (break_match_avoiding apswvfs_xOpen; keep_xOpen);
    try (intros Hx; discriminate Hx).
  all: match goal with |- context [apswvfs_xOpen ?a ?b ?c ?d ?e ?w0] =>
         pose proof (apswvfs_xOpen_ok_block a b c d e w0) as Hblock;
         destruct (apswvfs_xOpen a b c d e w0) as [[[res file'] fo] w1] end;
       cbn [fst snd] in *; keep_xOpen;
       repeat (break_match_eq; keep_xOpen); try (intros Hx; discriminate Hx).
  all: intros [= <-];
       match goal with H : negb (?r =? SQLITE_OK) = false |- _ =>
         apply negb_false_iff, Z.eqb_eq in H;
         destruct (Hblock H) as (text & m & o & a' & x' & Htext & Hl & Hc & Ho) end;
       subst file';
       do 3 eexists; exists text, m, o, a', x';
       (split; [reflexivity|]); (split; [exact Htext|]); (split; [exact Hl|]);
       (split; [exact Hc|]); split; [reflexivity | discriminate].
Qed.

(** ** A VFS status through two layers *)

Lemma parse_esi_ok (name : list byte) (n : Z) (w : World) :
  existsb (Byte.eqb x00) name = false ->
  INT_MIN <= n <= INT_MAX ->
  PyArg_ParseTuple_esi [PyUnicode name; PyInt n] w = (Some (name, n), w).
Proof.
  intros Hnul Hn.
  unfold PyArg_ParseTuple_esi, parse_es, parse_int, parse_integer.
  rewrite Hnul. unfold_monad. cbn -[Z.leb INT_MIN INT_MAX].
  assert (H1 : ((INT_MIN <=? n) && (n <=? INT_MAX))%bool = true)
    by (apply andb_true_intro; split; apply Z.leb_le; lia).
  rewrite H1. reflexivity.
Qed.

(** X25.  A VFS object whose base is a VFS of this bridge: xDelete and xAccess
    go through the delegation and the dispatch to the managed method of the
    base, which is called with the name when the name is UTF-8, as the
    encoding of a text is.  When that method returns, xDelete returns [None]
    and xAccess the truth value of the integer returned; when it raises, the
    outer call fails with a fault that stands for the same status code, and
    the fault raised has gone to the hook of the base.  For bytes that are
    not UTF-8 the method is not called: the decoding fault goes to the hook
    of the base and the outer call fails with the fault of the generic error
    code. *)
Theorem chained_vfs_status_round_trip
    (self : APSWVFS) (v : sqlite3_vfs) (name : list byte) (n : Z) (w : World) :
  basevfs self = Some v ->
  is_apsw v = true ->
  pending w = None ->
  existsb (Byte.eqb x00) name = false ->
  INT_MIN <= n <= INT_MAX ->
  let args := [PyUnicode name; PyInt n] in
  let failed (r : option PyObject * World) (frame : string) (e : PyExc) :=
    fst r = None /\
    pending (snd r) = Some (exception_for (exc_code e)) /\
    exc_code (exception_for (exc_code e)) = exc_code e /\
    unraisable (snd r) = unraisable w ++ [(Some (pAppData v), add_frame frame e)] in
  (forall m out args' x',
     utf8_valid name = true ->
     lookup_method (pAppData v) "xDelete" = Some m ->
     m args (ext w) = (out, args', x') ->
     let r := apswvfspy_xDelete self args w in
     match out with
     | Returned _ => fst r = Some Py_None /\ pending (snd r) = None
     | Raised e => failed r "vfs.xDelete" e
     end) /\
  (forall m out args' x',
     utf8_valid name = true ->
     lookup_method (pAppData v) "xAccess" = Some m ->
     m args (ext w) = (out, args', x') ->
     let r := apswvfspy_xAccess self args w in
     match out with
     | Returned o =>
         PyIntLong_Check o = true -> fits_long (int_value o) = true ->
         fst r = Some (PyBool (negb (int_value o =? 0))) /\ pending (snd r) = None
     | Raised e => failed r "vfs.xAccess" e
     end) /\
  (utf8_valid name = false ->
   exists e,
     exc_class e = PyExc_UnicodeDecodeError /\
     failed (apswvfspy_xDelete self args w) "vfs.xDelete" e /\
     failed (apswvfspy_xAccess self args w) "vfs.xAccess" e /\
     log (snd (apswvfspy_xDelete self args w)) = log w /\
     log (snd (apswvfspy_xAccess self args w)) = log w).
Proof.
  intros Hb Hapsw Hp Hnul Hn. cbv zeta.
  pose proof (parse_esi_ok name n w Hnul Hn) as Hparse.
  split; [|split].
  - intros m out args' x' Hvalid Hl Hc.
    assert (Htext : utf8_text (Some name) = Some (PyUnicode name))
      by (unfold utf8_text; now rewrite Hvalid).
    remember (apswvfspy_xDelete self [PyUnicode name; PyInt n] w) as r eqn:Hr.
    unfold apswvfspy_xDelete in Hr. rewrite Hb in Hr.
    unfold basevfs_xDelete, vfs_resolve in Hr.
    rewrite Hapsw in Hr. unfold bind at 1 in Hr. rewrite Hparse in Hr. cbn beta iota in Hr.
    unfold_entries. unfold SET_EXC in Hr. rewrite Htext, Hl in Hr. unfold_monad. cbn in Hr.
    rewrite Hc in Hr.
    destruct out as [o|e]; cbn in Hr; rewrite Hp in Hr; cbn in Hr.
    + subst r. split; reflexivity.
    + assert (Hne : (exc_code e =? SQLITE_OK) = false)
        by (apply Z.eqb_neq, exc_code_not_ok).
      rewrite !Hne in Hr. cbn in Hr. subst r. cbn.
      repeat split. apply exception_for_code, exc_code_pos.
  - intros m out args' x' Hvalid Hl Hc.
    assert (Htext : utf8_text (Some name) = Some (PyUnicode name))
      by (unfold utf8_text; now rewrite Hvalid).
    remember (apswvfspy_xAccess self [PyUnicode name; PyInt n] w) as r eqn:Hr.
    unfold apswvfspy_xAccess in Hr. rewrite Hb in Hr.
    unfold basevfs_xAccess, vfs_resolve in Hr.
    rewrite Hapsw in Hr. unfold bind at 1 in Hr. rewrite Hparse in Hr. cbn beta iota in Hr.
    unfold_entries. unfold SET_EXC, PyIntLong_AsLong in Hr. rewrite Htext, Hl in Hr.
    unfold_monad.
    cbn -[PyIntLong_Check fits_long int_value notnot Z.eqb] in Hr. rewrite Hc in Hr.
    destruct out as [o|e]; cbn -[PyIntLong_Check fits_long int_value notnot Z.eqb] in Hr.
    + intros Hi Hf. rewrite Hi in Hr. cbn -[fits_long int_value notnot Z.eqb] in Hr.
      rewrite Hf in Hr.
      cbn -[int_value notnot Z.eqb] in Hr. rewrite Hp in Hr.
      cbn -[int_value notnot Z.eqb] in Hr.
      unfold notnot in Hr. subst r.
      destruct (int_value o =? 0); cbn; split; reflexivity.
    + rewrite Hp in Hr. cbn -[Z.eqb] in Hr.
      assert (Hne : (exc_code e =? SQLITE_OK) = false)
        by (apply Z.eqb_neq, exc_code_not_ok).
      rewrite !Hne in Hr. cbn in Hr. subst r. cbn.
      repeat split. apply exception_for_code, exc_code_pos.
  - intros Hvalid.
    assert (Htext : utf8_text (Some name) = None)
      by (unfold utf8_text; now rewrite Hvalid).
    exists (mkExc PyExc_UnicodeDecodeError "'utf-8' codec can't decode bytes" [] []).
    split; [reflexivity|].
    assert (HD : apswvfspy_xDelete self [PyUnicode name; PyInt n] w =
                 (None,
                  set_unraisable
                    (unraisable w ++
                     [(Some (pAppData v),
                       add_frame "vfs.xDelete"
                         (mkExc PyExc_UnicodeDecodeError
                            "'utf-8' codec can't decode bytes" [] []))])
                    (set_pending (Some (exception_for SQLITE_ERROR)) w))).
    { unfold apswvfspy_xDelete. rewrite Hb.
      unfold basevfs_xDelete, vfs_resolve.
      rewrite Hapsw. unfold bind at 1. rewrite Hparse. cbn beta iota.
      unfold_entries. unfold SET_EXC. rewrite Htext. unfold_monad. cbn.
      rewrite Hp. cbn. clear. destruct w; reflexivity. }
    assert (HA : apswvfspy_xAccess self [PyUnicode name; PyInt n] w =
                 (None,
                  set_unraisable
                    (unraisable w ++
                     [(Some (pAppData v),
                       add_frame "vfs.xAccess"
                         (mkExc PyExc_UnicodeDecodeError
                            "'utf-8' codec can't decode bytes" [] []))])
                    (set_pending (Some (exception_for SQLITE_ERROR)) w))).
    { unfold apswvfspy_xAccess. rewrite Hb.
      unfold basevfs_xAccess, vfs_resolve.
      rewrite Hapsw. unfold bind at 1. rewrite Hparse. cbn beta iota.
      unfold_entries. unfold SET_EXC. rewrite Htext. unfold_monad. cbn.
      rewrite Hp. cbn. clear. destruct w; reflexivity. }
    rewrite HD, HA. cbn. repeat split.
Qed.

End Bridge.

(** * A managed program: the in-memory VFS of the spec's scenario *)

(** The outside state is the content of the one file.  Object 0 is the
    in-memory file, object 1 the VFS "mem" whose xOpen returns it. *)
Definition mem_xWrite : PyMethod (list byte) :=
  fun args content =>
    match args with
    | [PyBytes data; PyInt offset] =>
        let off := Z.to_nat offset in
        let padded := content ++ repeat x00 (off - List.length content) in
        (Returned Py_None, args,
         firstn off padded ++ data ++ skipn (off + List.length data) padded)
    | _ => (Raised (mkExc PyExc_TypeError "xWrite(data, offset)" [] []), args, content)
    end.

Definition mem_xRead : PyMethod (list byte) :=
  fun args content =>
    match args with
    | [PyInt amount; PyInt offset] =>
        (Returned (PyBytes (firstn (Z.to_nat amount) (skipn (Z.to_nat offset) content))),
         args, content)
    | _ => (Raised (mkExc PyExc_TypeError "xRead(amount, offset)" [] []), args, content)
    end.

Definition mem_xOpen : PyMethod (list byte) :=
  fun args content =>
    match args with
    | [name; PyList [inflags; _]] =>
        (Returned (PyInstance 0), [name; PyList [inflags; inflags]], content)
    | _ => (Raised (mkExc PyExc_TypeError "xOpen(name, flags)" [] []), args, content)
    end.

Definition mem_xClose : PyMethod (list byte) :=
  fun args content => (Returned Py_None, args, content).

Definition mem_methods (oid : nat) (name : string) : option (PyMethod (list byte)) :=
  match oid with
  | O => if String.eqb name "xWrite" then Some mem_xWrite
         else if String.eqb name "xRead" then Some mem_xRead
         else if String.eqb name "xClose" then Some mem_xClose
         else None
  | S O => if String.eqb name "xOpen" then Some mem_xOpen else None
  | _ => None
  end.

Definition hello : list byte := list_byte_of_string "hello".

(** An engine that accepts every registration. *)
Definition accepts {X : Type} (x : X) : Z := SQLITE_OK.

(** The VFS of the engine itself, which the table holds from the start. *)
Definition unix_vfs : sqlite3_vfs := mkVfs 0 1 512 "unix" Py_None false.

(** The scenario up to the open file: register "mem" with no base and
    maxpathname 64, then open "data.db" for create and read/write (flags 6)
    in a block at address 7. *)
Definition mem_start : World (list byte) := mkWorld _ None [] [unix_vfs] [] [].

Definition mem_vfs : Z * APSWVFS :=
  fst (APSWVFS_init _ accepts (APSWVFS_new (PyInstance 1)) "mem" None 0 64 1 mem_start).

Definition mem_registered : World (list byte) :=
  snd (APSWVFS_init _ accepts (APSWVFS_new (PyInstance 1)) "mem" None 0 64 1 mem_start).

Definition mem_open : Z * sqlite3_file (list byte) * option Z :=
  match containingvfs (snd mem_vfs) with
  | Some v =>
      fst (apswvfs_xOpen _ mem_methods v (Some (list_byte_of_string "data.db"))
             (mkFile _ 7 None None) 6 (Some 0) mem_registered)
  | None => (SQLITE_CANTOPEN, mkFile _ 7 None None, None)
  end.

Definition mem_opened : World (list byte) :=
  match containingvfs (snd mem_vfs) with
  | Some v =>
      snd (apswvfs_xOpen _ mem_methods v (Some (list_byte_of_string "data.db"))
             (mkFile _ 7 None None) 6 (Some 0) mem_registered)
  | None => mem_registered
  end.

(** A [VFSFile] that inherits from the file just opened. *)
Definition mem_file : APSWVFSFile (list byte) := mkPyFile _ (Some (snd (fst mem_open))).

Definition mem_written : World (list byte) :=
  snd (apswvfsfilepy_xWrite _ mem_methods mem_file [PyBytes hello; PyInt 0] mem_opened).


Example mem_vfs_registered :
  fst mem_vfs = 0 /\ registered (snd mem_vfs) = true /\
  option_map mxPathname (containingvfs (snd mem_vfs)) = Some 64.
Proof. repeat split. Qed.

Example mem_open_ok :
  mem_open =
  (SQLITE_OK, mkFile _ 7 (Some (apsw_io_methods _)) (Some (PyInstance 0)), Some 6).
Proof. reflexivity. Qed.

Example mem_written_content : ext _ mem_written = hello.
Proof. reflexivity. Qed.

(** * The delegated read, in general and in the scenario *)

(** C8.  When the base reports a short read, [apswvfsfilepy_xRead] returns
    the first [amount] bytes of the buffer with all trailing zero bytes
    stripped: what it returns, followed by zero bytes, is that buffer, and it
    does not end in a zero byte.  In the scenario, after "hello" is written
    at offset 0 of the in-memory file, the file's read of 10 bytes at offset
    0 is a short read that leaves "hello" and five zero bytes in the buffer,
    whatever the buffer held before, and the delegated read returns the five
    bytes "hello"; a read of 5 bytes returns them as well. *)
Theorem delegated_short_read_strips_zeros :
  (forall (Ext : Type) (methods : nat -> string -> option (PyMethod Ext))
          (self : APSWVFSFile Ext) (b : sqlite3_file Ext)
          (rd : list byte -> Z -> Z -> M Ext (Z * list byte))
          (amount offset : Z) (fresh buf : list byte) (w w' : World Ext),
     base _ self = Some b ->
     base_xRead _ methods b = Some rd ->
     0 <= amount <= INT_MAX ->
     LONG_MIN <= offset <= LONG_MAX ->
     rd (uninitialised fresh amount) amount offset
        (snd (emit _ (EvNative _ b "xRead") w)) = (SQLITE_IOERR_SHORT_READ, buf, w') ->
     apswvfsfilepy_xRead _ methods self [PyInt amount; PyInt offset] fresh w =
       (Some (PyBytes (without_trailing_zeros (firstn (Z.to_nat amount) buf))), w')) /\
  (forall l : list byte,
     (exists k, l = without_trailing_zeros l ++ repeat x00 k) /\
     (forall l', without_trailing_zeros l <> l' ++ [x00])) /\
  (forall fresh : list byte,
     fst (apswvfsfile_xRead _ mem_methods (PyInstance 0) (uninitialised fresh 10) 10 0
            mem_written) =
       (SQLITE_IOERR_SHORT_READ, hello ++ repeat x00 5) /\
     fst (apswvfsfilepy_xRead _ mem_methods mem_file [PyInt 10; PyInt 0] fresh mem_written) =
       Some (PyBytes hello) /\
     fst (apswvfsfilepy_xRead _ mem_methods mem_file [PyInt 5; PyInt 0] fresh mem_written) =
       Some (PyBytes hello)).
Proof.
  split; [|split].
  - intros. eapply delegated_short_read; eassumption.
  - apply without_trailing_zeros_spec.
  - intros fresh.
    assert (Hb : base _ mem_file = Some (snd (fst mem_open))) by reflexivity.
    assert (Hrd : base_xRead _ mem_methods (snd (fst mem_open)) =
                  Some (apswvfsfile_xRead _ mem_methods (PyInstance 0))) by reflexivity.
    split; [|split].
    + pose proof (length_uninitialised fresh 10) as HU.
      destruct (uninitialised fresh 10) as [|? [|? [|? [|? [|? [|? [|? [|? [|? [|? [|? ?]]]]]]]]]]];
        try discriminate HU.
      reflexivity.
    + rewrite (delegated_read_unfold _ mem_methods mem_file _ _ 10 0 fresh mem_written
                 Hb Hrd) by (unfold INT_MAX, LONG_MIN, LONG_MAX; lia).
      pose proof (length_uninitialised fresh 10) as HU.
      destruct (uninitialised fresh 10) as [|? [|? [|? [|? [|? [|? [|? [|? [|? [|? [|? ?]]]]]]]]]]];
        try discriminate HU.
      reflexivity.
    + rewrite (delegated_read_unfold _ mem_methods mem_file _ _ 5 0 fresh mem_written
                 Hb Hrd) by (unfold INT_MAX, LONG_MIN, LONG_MAX; lia).
      pose proof (length_uninitialised fresh 5) as HU.
      destruct (uninitialised fresh 5) as [|? [|? [|? [|? [|? [|? ?]]]]]];
        try discriminate HU.
      reflexivity.
Qed.

(** * A second managed program: a busy file and a VFS of awkward answers *)

Definition busy : PyExc := mkExc BusyError "BusyError: database is locked" [] [].

Definition odd_xLock : PyMethod unit :=
  fun args x => (Raised busy, args, x).

Definition odd_xAccess : PyMethod unit :=
  fun args x => (Returned (PyInt (2 ^ 63)), args, x).

Definition long_path : list byte := list_byte_of_string "/a/long/path".

Definition odd_name : list byte := list_byte_of_string "odd.db".

Definition odd_xFullPathname : PyMethod unit :=
  fun args x => (Returned (PyUnicode long_path), args, x).

Definition odd_methods (oid : nat) (name : string) : option (PyMethod unit) :=
  match oid with
  | O => if String.eqb name "xLock" then Some odd_xLock else None
  | S O => if String.eqb name "xAccess" then Some odd_xAccess
           else if String.eqb name "xFullPathname" then Some odd_xFullPathname
           else None
  | _ => None
  end.

Definition odd_vfs : sqlite3_vfs := mkVfs 1 1 8 "odd" (PyInstance 1) true.

Definition odd_start : World unit := mkWorld _ None [] [] [] tt.

Definition no_float (o : PyObject) : double * option PyExc := (0, None).

(** A native file whose xClose reports an I/O error, and a [VFSFile] on it. *)
Definition failing_io : sqlite3_io_methods unit :=
  Build_sqlite3_io_methods unit (fun x => (SQLITE_IOERR, x))
    None None None None None None None None None None None.

Definition failing_block : sqlite3_file unit :=
  mkFile _ 3 (Some (native_io_methods _ failing_io)) None.

Definition failing_file : APSWVFSFile unit := mkPyFile _ (Some failing_block).

(** * Counterexamples to the claims as first stated *)

(** C2 as stated fails: the managed xLock raises the busy fault and nothing
    is given to the unraisable hook. *)
Lemma busy_fault_skips_unraisable_hook :
  managed_raises _ odd_methods (FLock _ (PyInstance 0) 1) odd_start busy /\
  unraisable _ (snd (enter _ odd_methods no_float (FLock _ (PyInstance 0) 1) odd_start)) = [].
Proof.
  split; [|reflexivity].
  exists (PyInstance 0), "xLock", [PyInt 1], odd_xLock. repeat split.
Qed.

(** C3 as stated fails: on an open handle whose base reports an I/O error
    from xClose the first close does not return success; it returns NULL
    with the fault of that code pending. *)
Lemma first_close_can_fail :
  base _ failing_file <> None /\
  fst (fst (apswvfsfilepy_xClose _ odd_methods failing_file odd_start)) = None /\
  pending _ (snd (apswvfsfilepy_xClose _ odd_methods failing_file odd_start)) =
    Some (exception_for SQLITE_IOERR).
Proof. repeat split. discriminate. Qed.

(** C4 as stated fails.  A VFS constructed under the name "unix", which the
    engine's own VFS carries, stands beside it; after its [unregister] the
    name is still found in the table.  And the flag does not stay false:
    [__init__] run again on the unregistered object registers it again. *)
Lemma name_stays_and_init_registers_again :
  let r := APSWVFS_init _ accepts (APSWVFS_new (PyInstance 1)) "unix" None 0 64 1
             mem_start in
  let u := apswvfspy_unregister _ (snd (fst r)) (snd r) in
  let again := run_ops _ accepts [OpInit _ "unix" None 0 64 2] (snd (fst u)) (snd u) in
  fst (fst r) = 0 /\
  fst (fst u) = Some Py_None /\
  fst (sqlite3_vfs_find _ (Some "unix") (snd u)) = Some unix_vfs /\
  registered (snd (fst u)) = false /\
  registered (fst again) = true.
Proof. repeat split. Qed.

(** C10 as stated fails: the managed xAccess returns the nonzero integer
    2^63, which no C long holds, and the out-parameter is 0, not 1, with the
    generic error code returned. *)
Lemma xAccess_huge_integer_gives_zero :
  fst (apswvfs_xAccess _ odd_methods odd_vfs None 0 7 odd_start) = (SQLITE_ERROR, 0).
Proof. reflexivity. Qed.

(** * Instances of the theorems that have hypotheses *)

Lemma xRead_zero_fills_short_read_witness :
  0 <= 10 /\ size_of hello < 10 /\
  let r := fst (apswvfsfile_xRead _ mem_methods (PyInstance 0) (repeat xff 12) 10 0
                  mem_written) in
  fst r = SQLITE_IOERR_SHORT_READ /\ fst r <> SQLITE_OK /\
  snd r = hello ++ repeat x00 5 ++ [xff; xff].
Proof.
  split; [lia | split; [reflexivity|]].
  apply (xRead_zero_fills_short_read _ mem_methods (PyInstance 0) mem_xRead
           (repeat xff 12) hello 10 0 [PyInt 10; PyInt 0] hello mem_written);
    [reflexivity | reflexivity | lia | reflexivity].
Defined.

Lemma native_call_restores_pending_fault_witness :
  pending _ (snd (enter _ odd_methods no_float (FLock _ (PyInstance 0) 1)
                    (set_pending _ (Some busy) odd_start))) = Some busy.
Proof.
  apply (native_call_restores_pending_fault _ odd_methods no_float
           (FLock _ (PyInstance 0) 1) (set_pending _ (Some busy) odd_start)).
Defined.

Lemma close_twice_frees_once_witness :
  (base _ mem_file = Some (snd (fst mem_open)) /\
   valid_file _ (snd (fst mem_open)) /\
   let r1 := apswvfsfilepy_xClose _ mem_methods mem_file mem_written in
   let r2 := apswvfsfilepy_xClose _ mem_methods (snd (fst r1)) (snd r1) in
   fst (fst r1) = Some Py_None /\ fst (fst r2) = Some Py_None /\
   pending _ (snd r1) = None) /\
  (base _ failing_file = Some failing_block /\
   valid_file _ failing_block /\
   let r1 := apswvfsfilepy_xClose _ odd_methods failing_file odd_start in
   let r2 := apswvfsfilepy_xClose _ odd_methods (snd (fst r1)) (snd r1) in
   fst (fst r1) = None /\
   pending _ (snd r1) = Some (exception_for SQLITE_IOERR) /\
   fst (fst r2) = Some Py_None /\
   frees _ (log _ (snd r2)) = 1%nat).
Proof.
  split.
  - split; [reflexivity | split; [discriminate|]].
    apply (close_twice_frees_once _ mem_methods mem_file (snd (fst mem_open)) mem_written);
      [reflexivity | discriminate | reflexivity].
  - split; [reflexivity | split; [exact I|]].
    destruct (close_twice_frees_once _ odd_methods failing_file failing_block odd_start
                eq_refl I)
      as (_ & Hfail & _ & _ & H2 & Hfrees & _).
    destruct (Hfail ltac:(discriminate)) as (Hnull & Hpending & _).
    cbv zeta. rewrite H2. repeat split; assumption.
Defined.

Lemma register_then_unregister_witness :
  let r := APSWVFS_init _ accepts (APSWVFS_new (PyInstance 1)) "unix" None 0 64 1
             mem_start in
  let u1 := apswvfspy_unregister _ (snd (fst r)) (snd r) in
  fst (fst r) = 0 /\
  (forall v, In v (vfsList _ mem_start) -> vfs_addr v <> 1%nat) /\
  fst (fst u1) = Some Py_None /\
  registered (snd (fst u1)) = false /\
  vfsList _ (snd u1) = [unix_vfs] /\
  named "unix" (vfsList _ (snd u1)) = [unix_vfs].
Proof.
  assert (Hfresh : forall v, In v (vfsList _ mem_start) -> vfs_addr v <> 1%nat)
    by (intros v [<-|[]]; discriminate).
  destruct (register_then_unregister _ accepts (PyInstance 1) "unix" None 0 64 1 mem_start
              eq_refl Hfresh)
    as (_ & (H1 & H2 & H3 & H4 & _) & _).
  cbv zeta. repeat split; assumption.
Defined.

Lemma xFullPathname_too_long_is_TOOBIG_witness :
  size_of long_path + 1 > 8 /\
  fst (apswvfs_xFullPathname _ odd_methods odd_vfs (Some odd_name) 8 (repeat xff 8)
         odd_start) =
    (SQLITE_TOOBIG, repeat xff 8).
Proof.
  split; [reflexivity|].
  apply (xFullPathname_too_long_is_TOOBIG _ odd_methods odd_vfs (Some odd_name)
           (PyUnicode odd_name) 8 (repeat xff 8)
           odd_xFullPathname long_path [PyUnicode odd_name] tt odd_start);
    reflexivity.
Defined.

Lemma closed_file_rejects_every_method_witness :
  base _ (mkPyFile unit None) = None /\
  APSWVFSFile_methods _ odd_methods (PyRead [PyInt 10; PyInt 0] []) (mkPyFile _ None)
    odd_start = (None, set_pending _ (Some VFSFileClosed) odd_start).
Proof.
  split; [reflexivity|].
  apply (closed_file_rejects_every_method _ odd_methods (PyRead [PyInt 10; PyInt 0] [])
           (mkPyFile _ None) odd_start).
  reflexivity.
Defined.

Lemma xLock_clears_busy_fault_witness :
  let r := apswvfsfile_xLock _ odd_methods (PyInstance 0) 1 odd_start in
  fst r = SQLITE_BUSY /\ pending _ (snd r) = None /\ unraisable _ (snd r) = [].
Proof.
  destruct (xLock_clears_busy_fault _ odd_methods (PyInstance 0) 1 odd_xLock busy
              [PyInt 1] tt odd_start eq_refl eq_refl)
    as (_ & Hp & _ & _ & Hb).
  destruct (Hb eq_refl) as [Hr Hu].
  repeat split; assumption.
Defined.

(** * A third managed program: a VFS to inherit from, and a shim on it *)

(** Object 2 is the VFS object of the base and object 0 a file of it;
    nothing lies outside. *)
Definition io_error : PyExc := mkExc (ExcSQLite 10) "IOError: disk I/O error" [] [].

Definition random_bytes : list byte := [x01; x02; x03; x04; x05; x06].

Definition disk_full : list byte := list_byte_of_string "disk full".

Definition inner_xRandomness : PyMethod unit :=
  fun args x => (Returned (PyBytes random_bytes), args, x).

Definition inner_xSleep : PyMethod unit :=
  fun args x => (Returned (PyInt 250), args, x).

Definition inner_xGetLastError : PyMethod unit :=
  fun args x => (Returned (PyUnicode disk_full), args, x).

Definition inner_xDelete : PyMethod unit :=
  fun args x => (Raised io_error, args, x).

Definition inner_xAccess : PyMethod unit :=
  fun args x => (Returned (PyInt 5), args, x).

Definition inner_xFullPathname : PyMethod unit :=
  fun args x => (Returned (PyUnicode long_path), args, x).

Definition inner_xOpen : PyMethod unit :=
  fun args x =>
    match args with
    | [name; PyList [inflags; _]] =>
        (Returned (PyInstance 0), [name; PyList [inflags; inflags]], x)
    | _ => (Raised (mkExc PyExc_TypeError "xOpen(name, flags)" [] []), args, x)
    end.

Definition inner_xSync : PyMethod unit :=
  fun args x => (Raised io_error, args, x).

Definition inner_methods (oid : nat) (name : string) : option (PyMethod unit) :=
  match oid with
  | O => if String.eqb name "xSync" then Some inner_xSync else None
  | S (S O) =>
      if String.eqb name "xRandomness" then Some inner_xRandomness
      else if String.eqb name "xSleep" then Some inner_xSleep
      else if String.eqb name "xGetLastError" then Some inner_xGetLastError
      else if String.eqb name "xDelete" then Some inner_xDelete
      else if String.eqb name "xAccess" then Some inner_xAccess
      else if String.eqb name "xFullPathname" then Some inner_xFullPathname
      else if String.eqb name "xOpen" then Some inner_xOpen
      else None
  | _ => None
  end.

Definition inner_vfs : sqlite3_vfs := mkVfs 2 1 16 "inner" (PyInstance 2) true.

(** The engine has no VFS of its own here. *)
Definition no_native (v : sqlite3_vfs) : sqlite3_vfs_methods unit :=
  Build_sqlite3_vfs_methods unit None None None None None None None None None None None.

(** A VFS object that inherits from [inner_vfs], one that inherits from
    [odd_vfs], whose paths are short, and one without a base. *)
Definition shim : APSWVFS := mkPyVfs (PyInstance 3) (Some inner_vfs) None false.
Definition odd_shim : APSWVFS := mkPyVfs (PyInstance 3) (Some odd_vfs) None false.
Definition plain : APSWVFS := APSWVFS_new (PyInstance 3).

(** A file of the base, as its xOpen leaves the block, and a [VFSFile] on
    it. *)
Definition inner_file : sqlite3_file unit :=
  mkFile _ 9 (Some (apsw_io_methods _)) (Some (PyInstance 0)).

Definition shim_file : APSWVFSFile unit := mkPyFile _ (Some inner_file).

Definition data_db : list byte := list_byte_of_string "data.db".

(** * Instances of the further theorems that have hypotheses *)

Lemma xRandomness_copies_at_most_nByte_witness :
  0 <= 4 <= size_of (repeat xff 8) /\
  let r := apswvfs_xRandomness _ inner_methods inner_vfs 4 (repeat xff 8) odd_start in
  fst (fst r) = 4 /\ firstn 4 (snd (fst r)) = [x01; x02; x03; x04].
Proof.
  assert (H : 0 <= 4 <= size_of (repeat xff 8)) by (cbn; lia).
  split; [exact H|].
  destruct (xRandomness_copies_at_most_nByte _ inner_methods inner_vfs 4 (repeat xff 8)
              inner_xRandomness (Returned (PyBytes random_bytes)) [PyInt 4] tt odd_start
              eq_refl eq_refl H)
    as (_ & _ & _ & Hr & Hf & _).
  exact (conj Hr Hf).
Defined.

Lemma xSleep_outcome_witness :
  fst (apswvfs_xSleep _ inner_methods inner_vfs 100 odd_start) = 250.
Proof.
  destruct (xSleep_outcome _ inner_methods inner_vfs 100 inner_xSleep
              (Returned (PyInt 250)) [PyInt 100] tt odd_start eq_refl eq_refl)
    as (_ & H).
  exact (proj1 H).
Defined.

Lemma error_text_is_truncated_witness :
  0 <= 4 <= INT_MAX /\
  fst (apswvfs_xGetLastError _ inner_methods inner_vfs 4 (repeat xff 6) odd_start) =
    (1, list_byte_of_string "disk" ++ [xff; xff]).
Proof.
  assert (H : 0 <= 4 <= INT_MAX) by (unfold INT_MAX; lia).
  split; [exact H|].
  destruct (error_text_is_truncated _ inner_methods inner_vfs 4 (repeat xff 6) disk_full
              odd_start H) as (Hg & _).
  exact (proj1 (Hg inner_xGetLastError [] tt eq_refl eq_refl)).
Defined.



Lemma missing_slot_is_not_implemented_witness :
  slot_missing _ (PySync [PyInt 0]) failing_io = true /\
  APSWVFSFile_methods _ odd_methods (PySync [PyInt 0]) failing_file odd_start =
    (None, set_pending _ (Some (VFSNotImplemented_file "xSync")) odd_start).
Proof.
  split; [reflexivity|].
  exact (proj1 (missing_slot_is_not_implemented _ odd_methods (PySync [PyInt 0])
                  failing_file (mkFile _ 3 (Some (native_io_methods _ failing_io)) None)
                  failing_io odd_start eq_refl eq_refl eq_refl)).
Defined.

Lemma returns_null_iff_fault_witness :
  pending _ odd_start = None /\
  null_iff_fault _ (APSWVFSFile_methods _ inner_methods (PySync [PyInt 0]) shim_file
                      odd_start).
Proof.
  split; [reflexivity|].
  exact (proj1 (returns_null_iff_fault _ inner_methods shim_file odd_start eq_refl)
           (PySync [PyInt 0])).
Defined.

Lemma chained_status_round_trip_witness :
  INT_MIN <= 0 <= INT_MAX /\
  let r := apswvfsfilepy_xSync _ inner_methods shim_file [PyInt 0] odd_start in
  fst r = None /\
  exists e', pending _ (snd r) = Some e' /\ exc_code e' = SQLITE_IOERR /\
             exc_class e' = ExcSQLite 10.
Proof.
  assert (H : INT_MIN <= 0 <= INT_MAX) by (unfold INT_MIN, INT_MAX; lia).
  split; [exact H|].
  destruct (chained_status_round_trip _ inner_methods shim_file inner_file (PyInstance 0) 0
              odd_start eq_refl eq_refl eq_refl eq_refl H)
    as ((_ & _ & Hlink) & _).
  exact (Hlink inner_xSync (Raised io_error) [PyInt 0] tt eq_refl eq_refl).
Defined.

Lemma vfs_without_base_is_not_implemented_witness :
  basevfs plain = None /\
  APSWVFS_methods _ inner_methods no_float no_native (PySleep unit [PyInt 1]) plain odd_start =
    (None, set_pending _ (Some (VFSNotImplemented "xSleep")) odd_start).
Proof.
  split; [reflexivity|].
  exact (proj1 (vfs_without_base_is_not_implemented _ inner_methods no_float no_native
                  (PySleep unit [PyInt 1]) plain odd_start (or_introl eq_refl))).
Defined.


Lemma delegated_xFullPathname_fails_as_cantopen_witness :
  size_of long_path > mxPathname odd_vfs /\
  let r := apswvfspy_xFullPathname _ odd_methods no_native odd_shim (PyUnicode data_db)
             odd_start in
  fst r = None /\
  pending _ (snd r) =
    Some (add_frame "vfspy.xFullPathname" (exception_for SQLITE_CANTOPEN)).
Proof.
  assert (H : size_of long_path > mxPathname odd_vfs) by reflexivity.
  assert (Hmx : -1 <= mxPathname odd_vfs < INT_MAX) by (unfold INT_MAX; cbn; lia).
  split; [exact H|].
  destruct (delegated_xFullPathname_fails_as_cantopen _ odd_methods no_native odd_shim
              odd_vfs data_db odd_start eq_refl eq_refl Hmx)
    as (_ & _ & Hchain).
  destruct (Hchain odd_xFullPathname long_path [PyUnicode data_db] tt
              eq_refl eq_refl eq_refl eq_refl) as (_ & Hlong).
  destruct (Hlong H) as (H1 & H2 & _).
  exact (conj H1 H2).
Defined.

Lemma delegated_xRandomness_returns_what_was_written_witness :
  INT_MIN <= 4 <= INT_MAX /\
  fst (apswvfspy_xRandomness _ inner_methods no_native shim [PyInt 4] (repeat xff 4)
         odd_start) =
    Some (PyBytes [x01; x02; x03; x04]).
Proof.
  assert (H : INT_MIN <= 4 <= INT_MAX) by (unfold INT_MIN, INT_MAX; lia).
  split; [exact H|].
  destruct (delegated_xRandomness_returns_what_was_written _ inner_methods no_native shim
              inner_vfs 4 (repeat xff 4) odd_start eq_refl eq_refl H)
    as (_ & Hchain).
  exact (proj1 (Hchain inner_xRandomness random_bytes [PyInt 4] tt
                  eq_refl eq_refl eq_refl ltac:(lia))).
Defined.

Lemma delegated_xOpen_outcome_witness :
  two_integers (PyList [PyInt 6; PyInt 0]) = true /\
  apswvfspy_xOpen _ inner_methods no_native shim
    [py_name (Some data_db); PyList [PyInt 6; PyInt 0]]
    (mkFile _ 7 None None) odd_start =
  (Some (mkPyFile _ (Some (mkFile _ 7 (Some (apsw_io_methods _)) (Some (PyInstance 0))))),
   [PyUnicode data_db; PyList [PyInt 6; PyInt 6]],
   set_log _ [EvPython _ (PyInstance 2) "xOpen"
                [PyUnicode data_db; PyList [PyInt 6; PyInt 0]]] odd_start).
Proof.
  split; [reflexivity|].
  destruct (delegated_xOpen_outcome _ inner_methods no_native shim inner_vfs
              (Some data_db) (PyList [PyInt 6; PyInt 0]) (mkFile _ 7 None None) odd_start
              eq_refl eq_refl _ eq_refl)
    as (_ & Hgood).
  assert (H6 : INT_MIN <= 6 <= INT_MAX) by (unfold INT_MIN, INT_MAX; lia).
  assert (H0 : INT_MIN <= 0 <= INT_MAX) by (unfold INT_MIN, INT_MAX; lia).
  exact (proj1 (Hgood (PyInt 6) (PyInt 0) eq_refl eq_refl H6 H0) eq_refl).
Defined.

Lemma delegated_xOpen_gives_valid_file_witness :
  exists (m : PyMethod unit) (o : PyObject) (args' : list PyObject) (x' : unit),
    inner_methods 2 "xOpen" = Some m /\
    m [PyUnicode data_db; PyList [PyInt 6; PyInt 0]] tt = (Returned o, args', x') /\
    valid_file unit (mkFile unit 7 (Some (apsw_io_methods unit)) (Some o)).
Proof.
  destruct (delegated_xOpen_gives_valid_file _ inner_methods no_native shim inner_vfs
              [PyUnicode data_db; PyList [PyInt 6; PyInt 0]] (mkFile _ 7 None None)
              odd_start
              (mkPyFile _ (Some (mkFile _ 7 (Some (apsw_io_methods _))
                                   (Some (PyInstance 0)))))
              eq_refl eq_refl eq_refl)
    as (pyname & item0 & item1 & text & m & o & args' & x' & Ha & Ht & Hl & Hc & _ & Hv).
  injection Ha as <- <- <-.
  injection Ht as <-.
  exists m, o, args', x'. exact (conj Hl (conj Hc Hv)).
Defined.

Lemma chained_vfs_status_round_trip_witness :
  INT_MIN <= 0 <= INT_MAX /\
  let r := apswvfspy_xDelete _ inner_methods no_native shim [PyUnicode data_db; PyInt 0]
             odd_start in
  fst r = None /\ pending _ (snd r) = Some (exception_for SQLITE_IOERR).
Proof.
  assert (H : INT_MIN <= 0 <= INT_MAX) by (unfold INT_MIN, INT_MAX; lia).
  split; [exact H|].
  destruct (chained_vfs_status_round_trip _ inner_methods no_native shim inner_vfs data_db 0
              odd_start eq_refl eq_refl eq_refl eq_refl H)
    as (Hdelete & _).
  destruct (Hdelete inner_xDelete (Raised io_error) [PyUnicode data_db; PyInt 0] tt
              eq_refl eq_refl eq_refl) as (H1 & H2 & _).
  exact (conj H1 H2).
Defined.
